(** * The TAP stream parser of kyua-testers (tap_parser.c)

    A shallow embedding of [regex_match_too_long], [kyua_tap_try_parse_plan]
    and [kyua_tap_parse], together with the parts of the C library they rest
    on: [fgets], [strstr], [strcasestr], [strtol] and the POSIX extended
    regular expressions of [regcomp] and [regexec]. *)

From Stdlib Require Import String Ascii List ZArith Lia Bool Arith.
Import ListNotations.

Local Open Scope string_scope.

(** ** C strings *)

Module CStr.

(** [line + n]: the string that starts [n] bytes into [s]. *)
Fixpoint offset (n : nat) (s : string) : string :=
  match n, s with
  | O, _ => s
  | S n', String _ s' => offset n' s'
  | S _, EmptyString => EmptyString
  end.

(** [memcpy(buffer, line + so, len); buffer[len] = 0]. *)
Definition slice (so len : nat) (s : string) : string :=
  substring so len s.

(** [strstr]: [Some i] is a pointer [i] bytes into the haystack, [None] is
    NULL. *)
Fixpoint strstr (hay needle : string) : option nat :=
  if prefix needle hay then Some O
  else match hay with
       | EmptyString => None
       | String _ hay' => option_map S (strstr hay' needle)
       end.

(** [tolower] in the C locale. *)
Definition tolower (c : ascii) : ascii :=
  let n := nat_of_ascii c in
  if (65 <=? n)%nat && (n <=? 90)%nat then ascii_of_nat (n + 32) else c.

Fixpoint lower (s : string) : string :=
  match s with
  | EmptyString => EmptyString
  | String c s' => String (tolower c) (lower s')
  end.

(** [strcasestr]: [strstr] that ignores case. *)
Definition strcasestr (hay needle : string) : option nat :=
  strstr (lower hay) (lower needle).

Definition isdigit (c : ascii) : bool :=
  let n := nat_of_ascii c in (48 <=? n)%nat && (n <=? 57)%nat.

Definition isspace (c : ascii) : bool :=
  let n := nat_of_ascii c in
  (n =? 32)%nat || ((9 <=? n)%nat && (n <=? 13)%nat).

Definition digit_val (c : ascii) : Z := Z.of_nat (nat_of_ascii c) - 48.

(** The characters of a string, for statements about membership. *)
Definition chars (s : string) : list ascii := list_ascii_of_string s.

End CStr.

Import CStr.

(** ** POSIX extended regular expressions *)

Module Regex.

(** What [regcomp] builds from a pattern.  [Group i r] is the [i]-th
    parenthesised subexpression, numbered by its opening parenthesis. *)
Inductive regex : Type :=
| Eps
| Chr (c : ascii)
| Any
| Bracket (negated : bool) (ranges : list (ascii * ascii))
| Cat (r1 r2 : regex)
| Opt (r : regex)
| Star (r : regex)
| Plus (r : regex)
| Group (i : nat) (r : regex)
| Bol
| Eol.

(** Error codes of <regex.h>. *)
Definition REG_NOMATCH : Z := 1.
Definition REG_BADPAT : Z := 2.
Definition REG_EBRACK : Z := 7.
Definition REG_EPAREN : Z := 8.
Definition REG_BADRPT : Z := 13.
Definition REG_EESCAPE : Z := 5.

Record regex_t : Type := { re_ast : regex; re_nsub : nat }.

Definition in_range (c : ascii) (r : ascii * ascii) : bool :=
  (nat_of_ascii (fst r) <=? nat_of_ascii c)%nat &&
  (nat_of_ascii c <=? nat_of_ascii (snd r))%nat.

Definition bracket_match (negated : bool) (ranges : list (ascii * ascii))
    (c : ascii) : bool :=
  xorb negated (existsb (in_range c) ranges).

(** *** regcomp: the pattern parser

    The subset of the REG_EXTENDED syntax that tap_parser.c writes:
    literals, [\c], [.], [^], [$], bracket expressions with ranges and
    negation, groups, and the postfix [*], [+], [?].  Alternation and
    intervals are answered with REG_BADPAT. *)

Fixpoint parse_bracket (s : string) (first : bool)
    (acc : list (ascii * ascii)) : option (list (ascii * ascii) * string) :=
  match s with
  | EmptyString => None
  | String c rest =>
      if Ascii.eqb c "]" && negb first then Some (rev acc, rest)
      else
        match rest with
        | String d (String e rest') =>
            if Ascii.eqb d "-" && negb (Ascii.eqb e "]")
            then parse_bracket rest' false ((c, e) :: acc)
            else parse_bracket rest false ((c, c) :: acc)
        | _ => parse_bracket rest false ((c, c) :: acc)
        end
  end.

Fixpoint parse_postfix (s : string) (r : regex) : regex * string :=
  match s with
  | String c rest =>
      if Ascii.eqb c "*" then parse_postfix rest (Star r)
      else if Ascii.eqb c "+" then parse_postfix rest (Plus r)
      else if Ascii.eqb c "?" then parse_postfix rest (Opt r)
      else (r, s)
  | EmptyString => (r, s)
  end.

(** One concatenation, up to the end of the pattern or an unmatched [)].
    [g] counts the groups opened so far. *)
Fixpoint parse_seq (fuel : nat) (s : string) (g : nat)
    : Z + (regex * string * nat) :=
  match fuel with
  | O => inl REG_BADPAT
  | S fuel' =>
      match s with
      | EmptyString => inr (Eps, s, g)
      | String c rest =>
          if Ascii.eqb c ")" then inr (Eps, s, g)
          else
            let atom : Z + (regex * string * nat) :=
              if Ascii.eqb c "(" then
                match parse_seq fuel' rest (S g) with
                | inl e => inl e
                | inr (r, String d rest1, g1) =>
                    if Ascii.eqb d ")" then inr (Group (S g) r, rest1, g1)
                    else inl REG_EPAREN
                | inr (_, EmptyString, _) => inl REG_EPAREN
                end
              else if Ascii.eqb c "[" then
                let (neg, body) :=
                  match rest with
                  | String d body' =>
                      if Ascii.eqb d "^" then (true, body') else (false, rest)
                  | EmptyString => (false, rest)
                  end in
                match parse_bracket body true [] with
                | Some (ranges, rest1) => inr (Bracket neg ranges, rest1, g)
                | None => inl REG_EBRACK
                end
              else if Ascii.eqb c "." then inr (Any, rest, g)
              else if Ascii.eqb c "^" then inr (Bol, rest, g)
              else if Ascii.eqb c "$" then inr (Eol, rest, g)
              else if Ascii.eqb c "\" then
                match rest with
                | String d rest1 => inr (Chr d, rest1, g)
                | EmptyString => inl REG_EESCAPE
                end
              else if Ascii.eqb c "*" || Ascii.eqb c "+" || Ascii.eqb c "?"
              then inl REG_BADRPT
              else if Ascii.eqb c "|" || Ascii.eqb c "{" then inl REG_BADPAT
              else inr (Chr c, rest, g) in
            match atom with
            | inl e => inl e
            | inr (r, rest1, g1) =>
                let (r', rest2) := parse_postfix rest1 r in
                match parse_seq fuel' rest2 g1 with
                | inl e => inl e
                | inr (tl, rest3, g2) => inr (Cat r' tl, rest3, g2)
                end
            end
      end
  end.

(** [regcomp(&preg, pattern, REG_EXTENDED)]: the return code and [preg]. *)
Definition regcomp (pattern : string) : Z * regex_t :=
  match parse_seq (S (String.length pattern)) pattern 0 with
  | inl e => (e, {| re_ast := Eps; re_nsub := 0 |})
  | inr (r, EmptyString, g) => (0%Z, {| re_ast := r; re_nsub := g |})
  | inr (_, String _ _, _) => (REG_EPAREN, {| re_ast := Eps; re_nsub := 0 |})
  end.

(** *** regexec: the matcher

    A backtracking matcher in continuation-passing style.  Every repetition
    first tries to take one more iteration and every [?] first tries its
    operand, so of all the ways to match, the one found gives each
    subpattern, from left to right, the longest string it can have; a [?]
    whose operand can match the empty string takes it rather than nothing.
    That is the rule of POSIX (XBD 9.1, "matched"): each subpattern, from
    left to right, matches the longest possible string, and a null string
    is longer than no match at all.  For patterns without alternation that
    are anchored at both ends, as all three patterns of tap_parser.c are,
    the match found is the match POSIX prescribes. *)

(** Subexpression spans, by group number. *)
Definition spans : Type := nat -> option (nat * nat).

Definition no_spans : spans := fun _ => None.

Definition set_span (i : nat) (v : nat * nat) (c : spans) : spans :=
  fun j => if Nat.eqb j i then Some v else c j.

(** A continuation takes the rest of the subject, its offset and the spans
    recorded so far. *)
Definition cont : Type := string -> nat -> spans -> option spans.

Fixpoint star_loop (step : cont -> cont) (k : cont) (fuel : nat) : cont :=
  fun s pos c =>
    match fuel with
    | O => k s pos c
    | S fuel' =>
        match step (fun s1 p1 c1 =>
                      if Nat.eqb p1 pos then None
                      else star_loop step k fuel' s1 p1 c1) s pos c with
        | Some res => Some res
        | None => k s pos c
        end
    end.

Fixpoint exec (r : regex) (k : cont) (s : string) (pos : nat) (c : spans)
    {struct r} : option spans :=
  match r with
  | Eps => k s pos c
  | Chr a =>
      match s with
      | String b s' => if Ascii.eqb a b then k s' (S pos) c else None
      | EmptyString => None
      end
  | Any =>
      match s with
      | String _ s' => k s' (S pos) c
      | EmptyString => None
      end
  | Bracket neg ranges =>
      match s with
      | String b s' =>
          if bracket_match neg ranges b then k s' (S pos) c else None
      | EmptyString => None
      end
  | Cat r1 r2 => exec r1 (exec r2 k) s pos c
  | Opt r1 =>
      match exec r1 k s pos c with
      | Some res => Some res
      | None => k s pos c
      end
  | Star r1 => star_loop (exec r1) k (S (String.length s)) s pos c
  | Plus r1 =>
      exec r1 (fun s1 p1 c1 =>
                 star_loop (exec r1) k (S (String.length s1)) s1 p1 c1)
           s pos c
  | Group i r1 =>
      exec r1 (fun s1 p1 c1 => k s1 p1 (set_span i (pos, p1) c1)) s pos c
  | Bol => if Nat.eqb pos 0 then k s pos c else None
  | Eol =>
      match s with
      | EmptyString => k s pos c
      | String _ _ => None
      end
  end.

(** The continuation that ends a match begun at [start]. *)
Definition accept (start : nat) : cont :=
  fun _ p c => Some (set_span 0 (start, p) c).

(** The leftmost start that matches. *)
Fixpoint search (r : regex) (s : string) (pos : nat) : option spans :=
  match exec r (accept pos) s pos no_spans with
  | Some res => Some res
  | None =>
      match s with
      | EmptyString => None
      | String _ s' => search r s' (S pos)
      end
  end.

(** [regmatch_t]: byte offsets, both -1 for a subexpression that took no
    part in the match. *)
Record regmatch_t : Type := { rm_so : Z; rm_eo : Z }.

Definition no_match : regmatch_t := {| rm_so := -1; rm_eo := -1 |}.

Definition to_regmatch (v : option (nat * nat)) : regmatch_t :=
  match v with
  | Some (so, eo) => {| rm_so := Z.of_nat so; rm_eo := Z.of_nat eo |}
  | None => no_match
  end.

(** [regexec(&preg, line, nmatch, matches, 0)]: the return code and the
    [nmatch] entries of [matches].  On REG_NOMATCH the array is unspecified;
    the callers do not read it.  The engine running out of memory
    (REG_ESPACE) is not modelled, so the code is 0 or REG_NOMATCH; the
    callers keep their branches for other codes. *)
Definition regexec (preg : regex_t) (line : string) (nmatch : nat)
    : Z * list regmatch_t :=
  match search (re_ast preg) line 0 with
  | Some c => (0%Z, map (fun i => to_regmatch (c i)) (seq 0 nmatch))
  | None => (REG_NOMATCH, repeat no_match nmatch)
  end.

(** [matches[i]]. *)
Definition sub (m : list regmatch_t) (i : nat) : regmatch_t :=
  nth i m no_match.

(** *** A declarative reading of the matcher *)

(** What a pattern can consume, declaratively: from subject [s] at offset
    [pos] with spans [c], leaving [s'] at [pos'] with spans [c']. *)
Inductive Matches
    : regex -> string -> nat -> spans -> string -> nat -> spans -> Prop :=
| M_eps s pos c : Matches Eps s pos c s pos c
| M_chr a s pos c : Matches (Chr a) (String a s) pos c s (S pos) c
| M_any a s pos c : Matches Any (String a s) pos c s (S pos) c
| M_bracket neg rs a s pos c :
    bracket_match neg rs a = true ->
    Matches (Bracket neg rs) (String a s) pos c s (S pos) c
| M_cat r1 r2 s pos c s1 p1 c1 s2 p2 c2 :
    Matches r1 s pos c s1 p1 c1 ->
    Matches r2 s1 p1 c1 s2 p2 c2 ->
    Matches (Cat r1 r2) s pos c s2 p2 c2
| M_opt_take r s pos c s1 p1 c1 :
    Matches r s pos c s1 p1 c1 -> Matches (Opt r) s pos c s1 p1 c1
| M_opt_skip r s pos c : Matches (Opt r) s pos c s pos c
| M_star_stop r s pos c : Matches (Star r) s pos c s pos c
| M_star_step r s pos c s1 p1 c1 s2 p2 c2 :
    Matches r s pos c s1 p1 c1 ->
    Matches (Star r) s1 p1 c1 s2 p2 c2 ->
    Matches (Star r) s pos c s2 p2 c2
| M_plus r s pos c s1 p1 c1 s2 p2 c2 :
    Matches r s pos c s1 p1 c1 ->
    Matches (Star r) s1 p1 c1 s2 p2 c2 ->
    Matches (Plus r) s pos c s2 p2 c2
| M_group i r s pos c s1 p1 c1 :
    Matches r s pos c s1 p1 c1 ->
    Matches (Group i r) s pos c s1 p1 (set_span i (pos, p1) c1)
| M_bol s c : Matches Bol s 0 c s 0 c
| M_eol pos c : Matches Eol "" pos c "" pos c.

(** A step function is sound for [r] when each of its results comes from a
    match of [r] followed by the continuation. *)
Definition sound_for (r : regex) (step : cont -> cont) : Prop :=
  forall k s pos c res,
    step k s pos c = Some res ->
    exists s' pos' c',
      Matches r s pos c s' pos' c' /\ k s' pos' c' = Some res.

(** The characters a pattern can consume and the groups it can set. *)
Fixpoint accepts (r : regex) (a : ascii) : bool :=
  match r with
  | Eps | Bol | Eol => false
  | Chr b => Ascii.eqb b a
  | Any => true
  | Bracket neg rs => bracket_match neg rs a
  | Cat r1 r2 => accepts r1 a || accepts r2 a
  | Opt r1 | Star r1 | Plus r1 | Group _ r1 => accepts r1 a
  end.

Fixpoint has_group (i : nat) (r : regex) : bool :=
  match r with
  | Eps | Bol | Eol | Chr _ | Any | Bracket _ _ => false
  | Cat r1 r2 => has_group i r1 || has_group i r2
  | Opt r1 | Star r1 | Plus r1 => has_group i r1
  | Group j r1 => Nat.eqb i j || has_group i r1
  end.

(** A pattern whose last piece is [$]. *)
Fixpoint ends_at_eol (r : regex) : bool :=
  match r with
  | Eol => true
  | Cat r1 Eps => ends_at_eol r1
  | Cat _ r2 => ends_at_eol r2
  | _ => false
  end.

(** Steps that consume exactly one character of a class. *)
Definition char_step (cls : ascii -> bool) (step : cont -> cont) : Prop :=
  forall k s pos c,
    step k s pos c =
    match s with
    | String a s' => if cls a then k s' (S pos) c else None
    | EmptyString => None
    end.

Definition all_in (cls : ascii -> bool) (u : string) : Prop :=
  forall a, In a (chars u) -> cls a = true.

(** The subject is at its end or at a character outside the class. *)
Definition stops (cls : ascii -> bool) (rest : string) : Prop :=
  match rest with
  | EmptyString => True
  | String a _ => cls a = false
  end.

End Regex.

Import Regex.

(** ** The program *)

(** <limits.h> on an LP64 platform. *)
Definition LONG_MAX : Z := 9223372036854775807.
Definition LONG_MIN : Z := - LONG_MAX - 1.

(** The digits at the head of [s], read in base 10 onto [acc], and how many
    there are. *)
Fixpoint read_digits (s : string) (acc : Z) : Z * nat :=
  match s with
  | String c s' =>
      if isdigit c
      then let (v, n) := read_digits s' (acc * 10 + digit_val c) in (v, S n)
      else (acc, O)
  | EmptyString => (acc, O)
  end.

Fixpoint count_space (s : string) : nat :=
  match s with
  | String c s' => if isspace c then S (count_space s') else O
  | EmptyString => O
  end.

(** [strtol(nptr, &endptr, 10)]: the value, the offset of [endptr] in
    [nptr], and whether [errno] was set to ERANGE. *)
Definition strtol (nptr : string) : Z * nat * bool :=
  let i := count_space nptr in
  let s1 := offset i nptr in
  let '(neg, j) :=
    match s1 with
    | String c _ =>
        if Ascii.eqb c "-" then (true, 1%nat)
        else if Ascii.eqb c "+" then (false, 1%nat)
        else (false, O)
    | EmptyString => (false, O)
    end in
  let (v, n) := read_digits (offset j s1) 0 in
  match n with
  | O => (0%Z, O, false)
  | S _ =>
      let v' := if neg then (- v)%Z else v in
      if (v' >? LONG_MAX)%Z then (LONG_MAX, (i + j + n)%nat, true)
      else if (v' <? LONG_MIN)%Z then (LONG_MIN, (i + j + n)%nat, true)
      else (v', (i + j + n)%nat, false)
  end.

(** Modelled from the spec: error.h is not among the sources.  An error
    object is either unset or one of the engine-level failures. *)
Inductive kyua_error_t : Type :=
| kyua_error_ok
| regex_error (original_code : Z) (description : string)
| libc_error (description : string).

Definition kyua_error_is_set (e : kyua_error_t) : bool :=
  match e with
  | kyua_error_ok => false
  | _ => true
  end.

Definition regex_error_new (original_code : Z) (description : string)
    : kyua_error_t :=
  regex_error original_code description.

(** Modelled from the spec: tap_parser.h is not among the sources.  The
    summary is the accumulator of one parse run; [parse_error = None] is the
    NULL pointer.  The bounds and counters are C longs, held in [Z]: the
    bounds come from [regex_match_too_long], which keeps them below
    LONG_MAX, and the counters grow by one per line (lemma
    [counters_bounded]). *)
Record kyua_tap_summary_t : Type := {
  parse_error : option string;
  bail_out : bool;
  first_index : Z;
  last_index : Z;
  ok_count : Z;
  not_ok_count : Z;
  skipped_all : bool
}.

(** Modelled from the spec: the initialiser macro of tap_parser.h; all
    counters zero, plan unset (the sentinel -1). *)
Definition kyua_tap_summary_new : kyua_tap_summary_t :=
  {| parse_error := None; bail_out := false;
     first_index := -1; last_index := -1;
     ok_count := 0; not_ok_count := 0; skipped_all := false |}.

Definition with_parse_error (e : string) (s : kyua_tap_summary_t) :=
  {| parse_error := Some e; bail_out := bail_out s;
     first_index := first_index s; last_index := last_index s;
     ok_count := ok_count s; not_ok_count := not_ok_count s;
     skipped_all := skipped_all s |}.

Definition with_bail_out (b : bool) (s : kyua_tap_summary_t) :=
  {| parse_error := parse_error s; bail_out := b;
     first_index := first_index s; last_index := last_index s;
     ok_count := ok_count s; not_ok_count := not_ok_count s;
     skipped_all := skipped_all s |}.

Definition with_plan (first last : Z) (s : kyua_tap_summary_t) :=
  {| parse_error := parse_error s; bail_out := bail_out s;
     first_index := first; last_index := last;
     ok_count := ok_count s; not_ok_count := not_ok_count s;
     skipped_all := skipped_all s |}.

Definition with_skipped_all (b : bool) (s : kyua_tap_summary_t) :=
  {| parse_error := parse_error s; bail_out := bail_out s;
     first_index := first_index s; last_index := last_index s;
     ok_count := ok_count s; not_ok_count := not_ok_count s;
     skipped_all := b |}.

Definition incr_ok_count (s : kyua_tap_summary_t) :=
  {| parse_error := parse_error s; bail_out := bail_out s;
     first_index := first_index s; last_index := last_index s;
     ok_count := ok_count s + 1; not_ok_count := not_ok_count s;
     skipped_all := skipped_all s |}.

Definition incr_not_ok_count (s : kyua_tap_summary_t) :=
  {| parse_error := parse_error s; bail_out := bail_out s;
     first_index := first_index s; last_index := last_index s;
     ok_count := ok_count s; not_ok_count := not_ok_count s + 1;
     skipped_all := skipped_all s |}.

Definition is_null {A : Type} (p : option A) : bool :=
  match p with
  | None => true
  | Some _ => false
  end.

(** [m.rm_so != -1 && m.rm_eo != -1]. *)
Definition is_set (m : regmatch_t) : bool :=
  negb (rm_so m =? -1)%Z && negb (rm_eo m =? -1)%Z.

(** The text of a match, as [regex_match_too_long] copies it out. *)
Definition match_text (line : string) (m : regmatch_t) : string :=
  slice (Z.to_nat (rm_so m)) (Z.to_nat (rm_eo m - rm_so m)) line.

Definition MSG_TOO_LONG : string := "Plan line too long".
Definition MSG_OUT_OF_RANGE : string :=
  "Plan line includes out of range numbers".
Definition MSG_TWO_PLANS : string := "Output includes two test plans".
Definition MSG_DESC_TOO_LONG : string :=
  "Description attached to plan too long".
Definition MSG_NO_PLAN : string := "No plan found in TAP output".
Definition MSG_REVERSED : string := "Test plan is reversed".
Definition MSG_MISMATCH : string :=
  "Reported plan differs from actual executed tests".

(** [regex_match_too_long]: [inl] is the returned error message, [inr] the
    value stored through [output] when NULL is returned.  The assertion that
    the buffer holds a number is lemma [plan_numbers_are_numbers] below. *)
Definition regex_match_too_long (line : string) (mtch : regmatch_t)
    : string + Z :=
  let length := (rm_eo mtch - rm_so mtch)%Z in
  if (length >? 64 - 1)%Z then inl MSG_TOO_LONG
  else
    let buffer := match_text line mtch in
    let '(tmp, _, erange) := strtol buffer in
    if erange || ((tmp =? LONG_MAX)%Z || (tmp =? LONG_MIN)%Z)
    then inl MSG_OUT_OF_RANGE
    else inr tmp.

Definition TAB : string := String (ascii_of_nat 9) EmptyString.

(** The three patterns, as the C compiler leaves the string literals: one
    backslash before each dot, a tab character for each [\t]. *)
Definition plan_pattern : string := "^([0-9]+)\.\.([0-9]+)(.*#.*)?$".
Definition simple_test_pattern : string :=
  "^(not )?ok[ " ++ TAB ++ "]+[0-9]+[ " ++ TAB ++ "]+([^#]+)?$".
Definition test_pattern : string :=
  "^(not )?ok[ " ++ TAB ++ "]*([0-9]+)?([^#]+)?(.*)?$".

(** [kyua_tap_try_parse_plan]: the returned error and the summary as the
    call leaves it. *)
Definition kyua_tap_try_parse_plan (line : string)
    (summary : kyua_tap_summary_t) : kyua_error_t * kyua_tap_summary_t :=
  let (code, preg) := regcomp plan_pattern in
  if negb (code =? 0)%Z then (regex_error_new code "regcomp failed", summary)
  else
    let (code, matches) := regexec preg line 4 in
    if negb (code =? 0)%Z then
      (if negb (code =? REG_NOMATCH)%Z
       then regex_error_new code "regexec failed" else kyua_error_ok,
       summary)
    else if negb (first_index summary =? -1)%Z then
      (kyua_error_ok, with_parse_error MSG_TWO_PLANS summary)
    else
      match regex_match_too_long line (sub matches 1) with
      | inl error => (kyua_error_ok, with_parse_error error summary)
      | inr first_index =>
          match regex_match_too_long line (sub matches 2) with
          | inl error => (kyua_error_ok, with_parse_error error summary)
          | inr last_index =>
              let summary := with_skipped_all false summary in
              let commit (summary : kyua_tap_summary_t) :=
                if negb (skipped_all summary) && (last_index <? first_index)%Z
                then with_parse_error MSG_REVERSED summary
                else with_plan first_index last_index summary in
              let m3 := sub matches 3 in
              if is_set m3 then
                if (rm_eo m3 - rm_so m3 >? 1024)%Z then
                  (kyua_error_ok, with_parse_error MSG_DESC_TOO_LONG summary)
                else if negb (is_null
                         (strstr (offset (Z.to_nat (rm_so m3)) line) "SKIP"))
                then
                  let summary :=
                    if negb (ok_count summary =? 0)%Z
                       || negb (not_ok_count summary =? 0)%Z
                       || bail_out summary
                    then with_parse_error MSG_NO_PLAN summary
                    else summary in
                  (kyua_error_ok, commit (with_skipped_all true summary))
                else (kyua_error_ok, commit summary)
              else (kyua_error_ok, commit summary)
          end
      end.

(** The body of the loop of [kyua_tap_parse] below the echo: the plan
    probe, the bail-out test and the two result grammars, with each
    [continue] an early result. *)
Definition classify_line (simple_test_reg test_reg : regex_t)
    (line : string) (summary : kyua_tap_summary_t)
    : kyua_error_t * kyua_tap_summary_t :=
  let (error, summary) := kyua_tap_try_parse_plan line summary in
  if kyua_error_is_set error then (error, summary)
  else if match strstr line "Bail out!" with Some O => true | _ => false end
  then (error, with_bail_out true summary)
  else
    let (code, simple_test_matches) := regexec simple_test_reg line 3 in
    let (error, summary) :=
      if (code =? 0)%Z then
        if is_set (sub simple_test_matches 1)
        then (error, incr_not_ok_count summary)
        else (error, incr_ok_count summary)
      else if negb (code =? REG_NOMATCH)%Z
      then (regex_error_new code "regexec failed", summary)
      else (error, summary) in
    if negb (code =? REG_NOMATCH)%Z then (error, summary)
    else
      let (code, test_matches) := regexec test_reg line 5 in
      if (code =? 0)%Z then
        let tail := offset (Z.to_nat (rm_so (sub test_matches 4))) line in
        if is_set (sub test_matches 1) && is_set (sub test_matches 4)
           && is_null (strcasestr tail "SKIP")
           && is_null (strcasestr tail "TODO")
        then (error, incr_not_ok_count summary)
        else (error, incr_ok_count summary)
      else if negb (code =? REG_NOMATCH)%Z
      then (regex_error_new code "regexec failed", summary)
      else (error, summary).

(** What the parse does to its two streams, in order: a line handed over by
    [kyua_text_fgets_no_newline], bytes printed to [output], and a line
    entering classification (the call of the plan probe). *)
Inductive io_event : Type :=
| ev_read (line : string)
| ev_write (bytes : string)
| ev_classify (line : string).

Definition NL : string := String (ascii_of_nat 10) EmptyString.

(** ** The input stream *)

(** How the bytes that a descriptor delivers come to an end: at the end of
    the file, or with a read failure. *)
Inductive stream_end : Type :=
| end_of_file
| read_failure.

(** A [FILE] open for reading: the bytes still to be read and how they
    end. *)
Record FILE : Type := {
  pending : string;
  closing : stream_end
}.

(** The bytes that [fgets] moves into a buffer with room for [room] of
    them: those up to and with the first newline, or the first [room] bytes
    when no newline comes that early.  The result is the bytes moved, the
    bytes left, and whether the newline or the room ended the move rather
    than the end of [s]. *)
Fixpoint take_line (room : nat) (s : string) : string * string * bool :=
  match room, s with
  | O, _ => (EmptyString, s, true)
  | S _, EmptyString => (EmptyString, EmptyString, false)
  | S room', String c s' =>
      if Ascii.eqb c (ascii_of_nat 10) then (String c EmptyString, s', true)
      else
        let '(line, rest, whole) := take_line room' s' in
        (String c line, rest, whole)
  end.

(** [fgets(buffer, size, input)]: at most [size - 1] bytes, ended by the
    first newline; NULL at the end of the file when nothing was read, and
    NULL on a read failure. *)
Definition fgets (size : nat) (input : FILE) : option string * FILE :=
  let '(buffer, rest, whole) := take_line (size - 1) (pending input) in
  if whole
  then (Some buffer, {| pending := rest; closing := closing input |})
  else
    match closing input with
    | read_failure =>
        (None, {| pending := EmptyString; closing := read_failure |})
    | end_of_file =>
        if String.eqb buffer ""
        then (None, {| pending := EmptyString; closing := end_of_file |})
        else (Some buffer,
              {| pending := EmptyString; closing := end_of_file |})
    end.

(** The C string that starts a buffer: the bytes ahead of the first NUL. *)
Fixpoint c_str (buffer : string) : string :=
  match buffer with
  | EmptyString => EmptyString
  | String c rest =>
      if Ascii.eqb c zero then EmptyString else String c (c_str rest)
  end.

(** A C string without its last byte when that is a newline. *)
Fixpoint chomp (s : string) : string :=
  match s with
  | EmptyString => EmptyString
  | String c EmptyString =>
      if Ascii.eqb c (ascii_of_nat 10) then EmptyString else s
  | String c s' => String c (chomp s')
  end.

(** Modelled from the spec: [kyua_text_fgets_no_newline] of text.c is not
    among the sources.  It is the Line Source: it yields the successive
    newline-delimited lines of the byte stream, without their newline and
    bounded by the buffer it is given, and NULL when the stream has ended,
    at the end of the file or with a read failure.  The caller passes the
    buffer with its size and tests the result against NULL only, which is
    the interface of [fgets]; so a line too long for the buffer with its
    newline arrives in pieces of [size - 1] bytes, one per call. *)
Definition kyua_text_fgets_no_newline (size : nat) (input : FILE)
    : option string * FILE :=
  let (result, input) := fgets size input in
  (option_map (fun buffer => chomp (c_str buffer)) result, input).

(** The [while] loop, with [char line[1024]] the buffer of every read.
    [fuel] bounds the number of rounds: a round takes at least one byte off
    the stream, so any [fuel] above the length of the stream is never used
    up (lemma [tap_loop_handed]).  The result is the error, the summary,
    the stream as the loop leaves it and the events of the loop. *)
Fixpoint tap_loop (fuel : nat) (simple_test_reg test_reg : regex_t)
    (input : FILE) (error : kyua_error_t) (summary : kyua_tap_summary_t)
    : kyua_error_t * kyua_tap_summary_t * FILE * list io_event :=
  match fuel with
  | O => (error, summary, input, [])
  | S fuel' =>
      if kyua_error_is_set error || negb (is_null (parse_error summary))
         || bail_out summary
      then (error, summary, input, [])
      else
        match kyua_text_fgets_no_newline 1024 input with
        | (None, input) => (error, summary, input, [])
        | (Some line, input) =>
            if String.eqb line "" then (error, summary, input, [ev_read line])
            else
              let (error, summary) :=
                classify_line simple_test_reg test_reg line summary in
              let '(error, summary, input, events) :=
                tap_loop fuel' simple_test_reg test_reg input error summary in
              (error, summary, input,
               ev_read line :: ev_write (line ++ NL) :: ev_classify line
                 :: events)
        end
  end.

(** The checks after the loop. *)
Definition check_plan (summary : kyua_tap_summary_t) : kyua_tap_summary_t :=
  if (first_index summary =? -1)%Z then with_parse_error MSG_NO_PLAN summary
  else if is_null (parse_error summary) && negb (bail_out summary) then
    let exp_count := (last_index summary - first_index summary + 1)%Z in
    let actual_count := (ok_count summary + not_ok_count summary)%Z in
    if negb (exp_count =? actual_count)%Z
    then with_parse_error MSG_MISMATCH summary
    else summary
  else summary.

(** A descriptor: one that [fdopen] refuses, or one open for reading,
    given by the stream that [fdopen] makes of it. *)
Inductive descriptor : Type :=
| bad_fd
| readable (input : FILE).

Definition fdopen (fd : descriptor) : option FILE :=
  match fd with
  | bad_fd => None
  | readable input => Some input
  end.

(** What a call leaves behind: the returned error, the summary, the part
    of the input never read (of a descriptor that cannot be opened,
    nothing), and the events, whose [ev_write] entries are the bytes
    printed to [output]. *)
Record parse_result (I : Type) : Type := {
  ret : kyua_error_t;
  summary_out : kyua_tap_summary_t;
  unread : I;
  events : list io_event
}.

Arguments Build_parse_result {I}.
Arguments ret {I}.
Arguments summary_out {I}.
Arguments unread {I}.
Arguments events {I}.

(** [kyua_tap_parse(fd, output, summary)]. *)
Definition kyua_tap_parse (fd : descriptor) (summary : kyua_tap_summary_t)
    : parse_result FILE :=
  match fdopen fd with
  | None =>
      {| ret := libc_error "fdopen(3) failed"; summary_out := summary;
         unread := {| pending := EmptyString; closing := read_failure |};
         events := [] |}
  | Some input =>
      let summary := kyua_tap_summary_new in
      let (code, simple_test_reg) := regcomp simple_test_pattern in
      if negb (code =? 0)%Z then
        {| ret := regex_error_new code "regcomp failed";
           summary_out := summary; unread := input; events := [] |}
      else
        let (code, test_reg) := regcomp test_pattern in
        if negb (code =? 0)%Z then
          {| ret := regex_error_new code "regcomp failed";
             summary_out := summary; unread := input; events := [] |}
        else
          let '(error, summary, rest, evs) :=
            tap_loop (S (String.length (pending input)))
              simple_test_reg test_reg input kyua_error_ok summary in
          {| ret := error; summary_out := check_plan summary;
             unread := rest; events := evs |}
  end.

(** ** Vocabulary of the statements *)

(** The three patterns as [regcomp] compiles them. *)
Definition digit_class : regex := Bracket false [("0"%char, "9"%char)].
Definition blank_class : regex :=
  Bracket false [(" "%char, " "%char); ("009"%char, "009"%char)].
Definition not_hash_class : regex := Bracket true [("#"%char, "#"%char)].

Definition not_marker : regex :=
  Opt (Group 1 (Cat (Chr "n") (Cat (Chr "o") (Cat (Chr "t")
                 (Cat (Chr " ") Eps))))).

Definition plan_tail : regex :=
  Cat (Opt (Group 3 (Cat (Star Any) (Cat (Chr "#") (Cat (Star Any) Eps)))))
      (Cat Eol Eps).

Definition plan_body : regex :=
  Cat (Group 1 (Cat (Plus digit_class) Eps))
      (Cat (Chr ".") (Cat (Chr ".")
         (Cat (Group 2 (Cat (Plus digit_class) Eps)) plan_tail))).

Definition plan_ast : regex := Cat Bol plan_body.

Definition simple_test_rest : regex :=
  Cat (Chr "k")
      (Cat (Plus blank_class)
         (Cat (Plus digit_class)
            (Cat (Plus blank_class)
               (Cat (Opt (Group 2 (Cat (Plus not_hash_class) Eps)))
                  (Cat Eol Eps))))).

Definition simple_test_ast : regex :=
  Cat Bol (Cat not_marker (Cat (Chr "o") simple_test_rest)).

Definition test_tail : regex :=
  Cat (Opt (Group 3 (Cat (Plus not_hash_class) Eps)))
      (Cat (Opt (Group 4 (Cat (Star Any) Eps))) (Cat Eol Eps)).

Definition test_head : regex :=
  Cat (Chr "k")
      (Cat (Star blank_class)
         (Opt (Group 2 (Cat (Plus digit_class) Eps)))).

Definition test_rest : regex :=
  Cat (Chr "k")
      (Cat (Star blank_class)
         (Cat (Opt (Group 2 (Cat (Plus digit_class) Eps))) test_tail)).

Definition test_ast : regex :=
  Cat Bol (Cat not_marker (Cat (Chr "o") test_rest)).

Definition plan_reg : regex_t := {| re_ast := plan_ast; re_nsub := 3 |}.
Definition simple_test_reg : regex_t :=
  {| re_ast := simple_test_ast; re_nsub := 2 |}.
Definition test_reg : regex_t := {| re_ast := test_ast; re_nsub := 4 |}.

(** The loop body with the two compiled result grammars. *)
Definition classify (line : string) (summary : kyua_tap_summary_t)
    : kyua_error_t * kyua_tap_summary_t :=
  classify_line simple_test_reg test_reg line summary.

(** The loop as a function of the strings that
    [kyua_text_fgets_no_newline] hands over, whatever they are: [input]
    holds them, one per call, and the call after the last returns NULL.
    On every stream [tap_loop] is this loop on the strings the reader makes
    of the stream (lemma [tap_loop_handed]). *)
Fixpoint loop (input : list string) (error : kyua_error_t)
    (summary : kyua_tap_summary_t)
    : kyua_error_t * kyua_tap_summary_t * list string * list io_event :=
  if kyua_error_is_set error || negb (is_null (parse_error summary))
     || bail_out summary
  then (error, summary, input, [])
  else
    match input with
    | [] => (error, summary, [], [])
    | line :: rest =>
        if String.eqb line "" then (error, summary, rest, [ev_read line])
        else
          let (error, summary) := classify line summary in
          let '(error, summary, unread, events) := loop rest error summary in
          (error, summary, unread,
           ev_read line :: ev_write (line ++ NL) :: ev_classify line
             :: events)
    end.

(** The call on a descriptor whose reads hand over [lines]: the loop and
    the checks after it.  On every stream [kyua_tap_parse] is this call on
    the strings the reader makes of the stream (lemma
    [kyua_tap_parse_handed]); of a stream of lines that fit the buffer with
    their newline those strings are the lines (lemma [handed_stream]). *)
Definition parse_lines (lines : list string) : parse_result (list string) :=
  let '(e, s, u, evs) := loop lines kyua_error_ok kyua_tap_summary_new in
  {| ret := e; summary_out := check_plan s; unread := u; events := evs |}.

(** The strings that successive calls of the reader hand over, up to the
    call that returns NULL.  A call that returns a string takes at least
    one byte, so the fuel is never used up. *)
Fixpoint handed_aux (fuel : nat) (input : FILE) : list string :=
  match fuel with
  | O => []
  | S fuel' =>
      match kyua_text_fgets_no_newline 1024 input with
      | (None, _) => []
      | (Some line, input') => line :: handed_aux fuel' input'
      end
  end.

Definition handed (input : FILE) : list string :=
  handed_aux (S (String.length (pending input))) input.

(** The bytes of a stream of lines, each ended by a newline. *)
Fixpoint unlines (lines : list string) : string :=
  match lines with
  | [] => EmptyString
  | line :: rest => line ++ NL ++ unlines rest
  end.

Definition stream (lines : list string) (ending : stream_end) : FILE :=
  {| pending := unlines lines; closing := ending |}.

(** A line that one read hands over whole: it fits the buffer together
    with its newline, and has no newline and no NUL in it. *)
Definition text_byte (c : ascii) : bool :=
  negb (Ascii.eqb c (ascii_of_nat 10)) && negb (Ascii.eqb c zero).

Definition fits_buffer (line : string) : bool :=
  (String.length line <? 1023)%nat && forallb text_byte (chars line).



(** The summary as the loop leaves it, before the final checks. *)
Definition loop_end (lines : list string) : kyua_tap_summary_t :=
  snd (fst (fst (loop lines kyua_error_ok kyua_tap_summary_new))).

(** The loop condition ahead of the read. *)
Definition reading (error : kyua_error_t) (summary : kyua_tap_summary_t)
    : bool :=
  negb (kyua_error_is_set error || negb (is_null (parse_error summary))
        || bail_out summary).

(** Projections of the event list. *)
Fixpoint reads (evs : list io_event) : list string :=
  match evs with
  | [] => []
  | ev_read l :: evs' => l :: reads evs'
  | _ :: evs' => reads evs'
  end.

Fixpoint writes (evs : list io_event) : list string :=
  match evs with
  | [] => []
  | ev_write b :: evs' => b :: writes evs'
  | _ :: evs' => writes evs'
  end.

Fixpoint classified (evs : list io_event) : list string :=
  match evs with
  | [] => []
  | ev_classify l :: evs' => l :: classified evs'
  | _ :: evs' => classified evs'
  end.

(** The bytes printed to [output]. *)
Definition sink (evs : list io_event) : string :=
  String.concat "" (writes evs).

(** The events of lines that go once round the loop: read, echoed, then
    classified. *)
Definition echoed (lines : list string) : list io_event :=
  flat_map (fun l => [ev_read l; ev_write (l ++ NL); ev_classify l]) lines.

(** The value of a string of digits, unbounded. *)
Definition decimal_value (d : string) : Z := fst (read_digits d 0).

Definition is_number (d : string) : Prop := d <> "" /\ all_in isdigit d.

(** A number [regex_match_too_long] lets through. *)
Definition number_ok (d : string) : Prop :=
  (String.length d <= 63)%nat /\ (decimal_value d < LONG_MAX)%Z.

(** The decimal numeral of a non-negative integer. *)
Definition digit_char (d : Z) : ascii := ascii_of_nat (48 + Z.to_nat d).

Fixpoint decimal_aux (fuel : nat) (n : Z) (acc : string) : string :=
  match fuel with
  | O => acc
  | S fuel' =>
      let acc' := String (digit_char (n mod 10)) acc in
      if (n <? 10)%Z then acc' else decimal_aux fuel' (n / 10) acc'
  end.

Definition decimal (n : Z) : string :=
  decimal_aux (S (Z.to_nat (Z.log2 n))) n "".

(** A line that matches one of the result grammars without the "not "
    marker. *)
Definition passing_result_line (line : string) : bool :=
  let (c1, m1) := regexec simple_test_reg line 3 in
  let (c2, m2) := regexec test_reg line 5 in
  ((c1 =? 0)%Z && negb (is_set (sub m1 1)))
  || ((c2 =? 0)%Z && negb (is_set (sub m2 1))).

(** The class of the description of a result line: anything but "#". *)
Definition not_hash (a : ascii) : bool :=
  bracket_match true [("#"%char, "#"%char)] a.

(** The general condition of the second result grammar: the marker, the
    fourth subexpression, and no SKIP or TODO from its start on. *)
Definition counts_as_failure (line : string) (m : list regmatch_t) : bool :=
  let tail := offset (Z.to_nat (rm_so (sub m 4))) line in
  is_set (sub m 1) && is_set (sub m 4)
  && is_null (strcasestr tail "SKIP") && is_null (strcasestr tail "TODO").

(** A summary marked skip-all has a plan. *)
Definition skip_has_plan (s : kyua_tap_summary_t) : Prop :=
  skipped_all s = true -> first_index s <> (-1)%Z.

(** A line one of the two result grammars matches. *)
Definition is_result_line (line : string) : bool :=
  (fst (regexec simple_test_reg line 3) =? 0)%Z
  || (fst (regexec test_reg line 5) =? 0)%Z.

(** The plan of a summary: unset, or two bounds that
    [regex_match_too_long] let through, in order unless the plan was a
    skip-all plan. *)
Definition plan_wf (s : kyua_tap_summary_t) : Prop :=
  (first_index s = (-1)%Z /\ last_index s = (-1)%Z) \/
  ((0 <= first_index s < LONG_MAX)%Z /\ (0 <= last_index s < LONG_MAX)%Z /\
   (skipped_all s = false -> (first_index s <= last_index s)%Z)).

(** The reasons a summary with a plan can carry out of the loop. *)
Definition loop_reason_wf (s : kyua_tap_summary_t) : Prop :=
  first_index s = (-1)%Z \/
  parse_error s = None \/ parse_error s = Some MSG_NO_PLAN \/
  parse_error s = Some MSG_TWO_PLANS.

(** The text of a plan line behind its second number. *)
Definition plan_rest (line : string) (m : list regmatch_t) : string :=
  offset (Z.to_nat (rm_eo (sub m 2))) line.

(** A string of [n] copies of a character. *)
Fixpoint filler (a : ascii) (n : nat) : string :=
  match n with
  | O => EmptyString
  | S n' => String a (filler a n')
  end.

(** * Facts about the matcher *)

Module RegexFacts.

Lemma star_loop_sound r step :
  sound_for r step ->
  forall fuel, sound_for (Star r) (fun k => star_loop step k fuel).
Proof.
  intros Hstep fuel. induction fuel as [|fuel IH]; intros k s pos c res H.
  - simpl in H. exists s, pos, c. split; [constructor | exact H].
  - simpl in H.
    destruct (step _ s pos c) as [res'|] eqn:E.
    + inversion H; subst res'; clear H.
      apply Hstep in E. destruct E as (s1 & p1 & c1 & HM & Hk).
      destruct (Nat.eqb p1 pos); [discriminate|].
      apply IH in Hk. destruct Hk as (s2 & p2 & c2 & HM2 & Hk2).
      exists s2, p2, c2. split; [eapply M_star_step; eassumption | exact Hk2].
    + exists s, pos, c. split; [constructor | exact H].
Qed.

Lemma exec_sound r : sound_for r (exec r).
Proof.
  induction r as [| a | | neg rs | r1 IH1 r2 IH2 | r IH | r IH | r IH
                 | i r IH | | ];
    intros k s pos c res H; cbn [exec] in H.
  - exists s, pos, c. split; [constructor | exact H].
  - destruct s as [|b s']; [discriminate|].
    destruct (Ascii.eqb a b) eqn:E; [|discriminate].
    apply Ascii.eqb_eq in E; subst b.
    exists s', (S pos), c. split; [constructor | exact H].
  - destruct s as [|b s']; [discriminate|].
    exists s', (S pos), c. split; [constructor | exact H].
  - destruct s as [|b s']; [discriminate|].
    destruct (bracket_match neg rs b) eqn:E; [|discriminate].
    exists s', (S pos), c. split; [constructor; exact E | exact H].
  - apply IH1 in H. destruct H as (s1 & p1 & c1 & HM1 & H).
    apply IH2 in H. destruct H as (s2 & p2 & c2 & HM2 & H).
    exists s2, p2, c2. split; [econstructor; eassumption | exact H].
  - destruct (exec r k s pos c) as [res'|] eqn:E.
    + inversion H; subst res'; clear H.
      apply IH in E. destruct E as (s1 & p1 & c1 & HM & Hk).
      exists s1, p1, c1. split; [apply M_opt_take; exact HM | exact Hk].
    + exists s, pos, c. split; [apply M_opt_skip | exact H].
  - exact (star_loop_sound r (exec r) IH _ k s pos c res H).
  - apply IH in H. destruct H as (s1 & p1 & c1 & HM1 & H).
    apply (star_loop_sound r (exec r) IH) in H.
    destruct H as (s2 & p2 & c2 & HM2 & H).
    exists s2, p2, c2. split; [eapply M_plus; eassumption | exact H].
  - apply IH in H. destruct H as (s1 & p1 & c1 & HM1 & H).
    exists s1, p1, (set_span i (pos, p1) c1).
    split; [constructor; exact HM1 | exact H].
  - destruct pos; [|discriminate].
    exists s, 0, c. split; [constructor | exact H].
  - destruct s; [|discriminate].
    exists "", pos, c. split; [constructor | exact H].
Qed.

Lemma chars_app u v : chars (u ++ v) = (chars u ++ chars v)%list.
Proof.
  induction u as [|a u IH]; simpl; [reflexivity|].
  unfold chars in *. simpl. now rewrite IH.
Qed.

Lemma length_app u v :
  String.length (u ++ v) = String.length u + String.length v.
Proof. induction u as [|a u IH]; simpl; [reflexivity | now rewrite IH]. Qed.

Lemma append_assoc (u v w : string) : (u ++ v) ++ w = u ++ (v ++ w).
Proof. induction u as [|a u IH]; simpl; [reflexivity | now rewrite IH]. Qed.

Lemma append_nil_r (u : string) : u ++ "" = u.
Proof. induction u as [|a u IH]; simpl; [reflexivity | now rewrite IH]. Qed.

Local Ltac nothing_consumed :=
  exists ""; simpl; repeat split; auto; try lia; try (intros ? []).

Local Ltac one_consumed a :=
  exists (String a ""); simpl; repeat split; auto; try lia;
  try (intros ? [<-|[]]).

(** A match consumes a prefix made of characters the pattern accepts, moves
    the offset by its length, and leaves the spans of foreign groups
    alone. *)
Lemma Matches_consumed r s pos c s' pos' c' :
  Matches r s pos c s' pos' c' ->
  exists u,
    s = u ++ s' /\ pos' = pos + String.length u /\
    (forall a, In a (chars u) -> accepts r a = true) /\
    (forall i, has_group i r = false -> c' i = c i).
Proof.
  induction 1.
  - nothing_consumed.
  - one_consumed a. apply Ascii.eqb_refl.
  - one_consumed a.
  - one_consumed a. assumption.
  - destruct IHMatches1 as (u1 & -> & -> & Ha1 & Hg1).
    destruct IHMatches2 as (u2 & -> & -> & Ha2 & Hg2).
    exists (u1 ++ u2). rewrite append_assoc, length_app.
    repeat split; [lia | |].
    + intros a Ha. rewrite chars_app in Ha. simpl.
      apply in_app_or in Ha. destruct Ha as [Ha|Ha].
      * rewrite (Ha1 a Ha). reflexivity.
      * rewrite (Ha2 a Ha). apply orb_true_r.
    + intros i Hi. simpl in Hi. apply orb_false_elim in Hi.
      destruct Hi as [Hi1 Hi2]. now rewrite (Hg2 i Hi2), (Hg1 i Hi1).
  - exact IHMatches.
  - nothing_consumed.
  - nothing_consumed.
  - destruct IHMatches1 as (u1 & -> & -> & Ha1 & Hg1).
    destruct IHMatches2 as (u2 & -> & -> & Ha2 & Hg2).
    exists (u1 ++ u2). rewrite append_assoc, length_app.
    repeat split; [lia | |].
    + intros a Ha. rewrite chars_app in Ha. simpl.
      apply in_app_or in Ha. destruct Ha as [Ha|Ha]; [auto|].
      exact (Ha2 a Ha).
    + intros i Hi. simpl in Hi. now rewrite (Hg2 i Hi), (Hg1 i Hi).
  - destruct IHMatches1 as (u1 & -> & -> & Ha1 & Hg1).
    destruct IHMatches2 as (u2 & -> & -> & Ha2 & Hg2).
    exists (u1 ++ u2). rewrite append_assoc, length_app.
    repeat split; [lia | |].
    + intros a Ha. rewrite chars_app in Ha. simpl.
      apply in_app_or in Ha. destruct Ha as [Ha|Ha]; [auto|].
      exact (Ha2 a Ha).
    + intros i Hi. simpl in Hi. now rewrite (Hg2 i Hi), (Hg1 i Hi).
  - destruct IHMatches as (u & -> & -> & Ha & Hg).
    exists u. repeat split; auto.
    intros j Hj. simpl in Hj. apply orb_false_elim in Hj.
    destruct Hj as [Hj1 Hj2]. unfold set_span. rewrite Hj1. auto.
  - nothing_consumed.
  - nothing_consumed.
Qed.

(** A pattern that begins with [^] matches at offset 0 or nowhere. *)
Lemma search_bol_later r s pos : search (Cat Bol r) s (S pos) = None.
Proof.
  revert pos. induction s as [|a s IH]; intros pos; simpl; auto.
Qed.

Lemma search_bol r s :
  search (Cat Bol r) s 0 = exec r (accept 0) s 0 no_spans.
Proof.
  destruct s as [|a s]; simpl.
  - destruct (exec r (accept 0) "" 0 no_spans); reflexivity.
  - destruct (exec r (accept 0) (String a s) 0 no_spans); [reflexivity|].
    apply search_bol_later.
Qed.

Lemma char_step_bracket neg rs :
  char_step (bracket_match neg rs) (exec (Bracket neg rs)).
Proof. intros k s pos c. reflexivity. Qed.

Lemma char_step_any : char_step (fun _ => true) (exec Any).
Proof. intros k s pos c. reflexivity. Qed.

(** A repetition of a character class runs to the end of the run first; if
    the continuation succeeds there, that is the match. *)
Lemma star_loop_run cls step (Hstep : char_step cls step) u :
  forall rest k fuel pos c res,
    all_in cls u -> stops cls rest ->
    String.length (u ++ rest) < fuel ->
    k rest (pos + String.length u) c = Some res ->
    star_loop step k fuel (u ++ rest) pos c = Some res.
Proof.
  induction u as [|a u IH]; intros rest k fuel pos c res Hall Hstop Hfuel Hk.
  - simpl in *. rewrite Nat.add_0_r in Hk.
    destruct fuel as [|fuel]; [lia|]. simpl. rewrite Hstep.
    destruct rest as [|b rest]; [exact Hk|].
    simpl in Hstop. rewrite Hstop. exact Hk.
  - destruct fuel as [|fuel]; [simpl in Hfuel; lia|].
    simpl. rewrite Hstep.
    rewrite (Hall a (or_introl eq_refl)).
    replace (Nat.eqb (S pos) pos) with false
      by (symmetry; apply Nat.eqb_neq; lia).
    rewrite (IH rest k fuel (S pos) c res); auto.
    + intros b Hb. apply Hall. right. exact Hb.
    + simpl in Hfuel. lia.
    + simpl in Hk. rewrite <- Hk. f_equal. lia.
Qed.

(** Every subject splits into its longest run of a class and the rest. *)
Lemma longest_run cls s :
  exists u rest, s = u ++ rest /\ all_in cls u /\ stops cls rest.
Proof.
  induction s as [|a s IH].
  - exists "", "". repeat split. intros a [].
  - destruct (cls a) eqn:E.
    + destruct IH as (u & rest & -> & Hall & Hstop).
      exists (String a u), rest. repeat split; auto.
      intros b [<-|Hb]; auto.
    + exists "", (String a s). repeat split; auto. intros b [].
Qed.

Lemma plus_run cls neg rs u :
  cls = bracket_match neg rs ->
  forall rest k pos c res,
    u <> "" -> all_in cls u -> stops cls rest ->
    k rest (pos + String.length u) c = Some res ->
    exec (Plus (Bracket neg rs)) k (u ++ rest) pos c = Some res.
Proof.
  intros -> rest k pos c res Hne Hall Hstop Hk.
  destruct u as [|a u]; [congruence|].
  cbn [exec append]. rewrite (Hall a (or_introl eq_refl)).
  apply (star_loop_run _ _ (char_step_bracket neg rs)); auto.
  - intros b Hb. apply Hall. right. exact Hb.
  - simpl in Hk. rewrite <- Hk. f_equal. lia.
Qed.

(** What [regexec] reports. *)
Lemma sub_map_seq (f : nat -> regmatch_t) n i :
  i < n -> sub (map f (seq 0 n)) i = f i.
Proof.
  intros Hi. unfold sub.
  rewrite (nth_indep _ no_match (f 0)) by (rewrite length_map, length_seq; lia).
  rewrite map_nth, seq_nth by lia. reflexivity.
Qed.

Lemma regexec_match preg line n m :
  regexec preg line n = (0%Z, m) ->
  exists c, search (re_ast preg) line 0 = Some c /\
            forall i, i < n -> sub m i = to_regmatch (c i).
Proof.
  unfold regexec. destruct (search (re_ast preg) line 0) as [c|]; intros H.
  - inversion H; subst m. exists c. split; [reflexivity|].
    intros i Hi. apply (sub_map_seq (fun i => to_regmatch (c i))). exact Hi.
  - discriminate.
Qed.

Lemma regexec_found preg line n c :
  search (re_ast preg) line 0 = Some c ->
  regexec preg line n = (0%Z, map (fun i => to_regmatch (c i)) (seq 0 n)).
Proof. unfold regexec. now intros ->. Qed.

Lemma regexec_not_found preg line n :
  search (re_ast preg) line 0 = None ->
  regexec preg line n = (REG_NOMATCH, repeat no_match n).
Proof. unfold regexec. now intros ->. Qed.

Lemma regexec_nomatch preg line n code m :
  regexec preg line n = (code, m) -> code <> 0%Z ->
  code = REG_NOMATCH /\ search (re_ast preg) line 0 = None.
Proof.
  unfold regexec. destruct (search (re_ast preg) line 0) as [c|]; intros H Hc;
    inversion H; subst; [congruence | auto].
Qed.

Lemma is_set_to_regmatch v :
  is_set (to_regmatch v) = negb (is_null v).
Proof.
  destruct v as [[so eo]|]; [|reflexivity].
  unfold is_set, to_regmatch; simpl.
  replace (Z.of_nat so =? -1)%Z with false by (symmetry; apply Z.eqb_neq; lia).
  replace (Z.of_nat eo =? -1)%Z with false by (symmetry; apply Z.eqb_neq; lia).
  reflexivity.
Qed.

End RegexFacts.

(** * Facts about the program *)

Lemma regcomp_plan : regcomp plan_pattern = (0%Z, plan_reg).
Proof. vm_compute. reflexivity. Qed.

Lemma regcomp_simple_test :
  regcomp simple_test_pattern = (0%Z, simple_test_reg).
Proof. vm_compute. reflexivity. Qed.

Lemma regcomp_test : regcomp test_pattern = (0%Z, test_reg).
Proof. vm_compute. reflexivity. Qed.

Import RegexFacts.

Lemma regexec_code preg line n :
  fst (regexec preg line n) = 0%Z \/ fst (regexec preg line n) = REG_NOMATCH.
Proof. unfold regexec. destruct (search _ _ _); simpl; auto. Qed.

Ltac open_probe :=
  unfold kyua_tap_try_parse_plan; rewrite regcomp_plan;
  change (negb (0 =? 0)%Z) with false; cbv iota.

Ltac split_ifs :=
  repeat match goal with
         | |- context [match ?x with _ => _ end] =>
             lazymatch x with
             | context [match _ with _ => _ end] => fail
             | _ => destruct x
             end
         end.

(** The probe never fails at the engine level: the pattern compiles and
    [regexec] answers 0 or REG_NOMATCH. *)
Lemma try_parse_plan_ok line s :
  fst (kyua_tap_try_parse_plan line s) = kyua_error_ok.
Proof.
  open_probe.
  destruct (regexec plan_reg line 4) as [code m] eqn:E.
  destruct (regexec_code plan_reg line 4) as [H|H]; rewrite E in H;
    simpl in H; subst code.
  - change (negb (0 =? 0)%Z) with false. cbv iota.
    split_ifs; reflexivity.
  - reflexivity.
Qed.

(** A line the plan grammar does not match leaves the summary alone. *)
Lemma try_parse_plan_nomatch line s :
  search plan_ast line 0 = None ->
  kyua_tap_try_parse_plan line s = (kyua_error_ok, s).
Proof.
  intros H. open_probe.
  rewrite (regexec_not_found plan_reg line 4 H). reflexivity.
Qed.

Lemma classify_ok line s : fst (classify line s) = kyua_error_ok.
Proof.
  unfold classify, classify_line.
  pose proof (try_parse_plan_ok line s) as Hp.
  destruct (kyua_tap_try_parse_plan line s) as [e s1]. simpl in Hp. subst e.
  cbn [kyua_error_is_set].
  destruct (strstr line "Bail out!") as [[|n]|]; try reflexivity.
  all: destruct (regexec simple_test_reg line 3) as [c1 m1] eqn:E1;
    destruct (regexec_code simple_test_reg line 3) as [H1|H1];
    rewrite E1 in H1; simpl in H1; subst c1;
    [ change (0 =? 0)%Z with true; cbv iota;
      destruct (is_set (sub m1 1)); reflexivity | ];
    change (REG_NOMATCH =? 0)%Z with false;
    change (negb (REG_NOMATCH =? REG_NOMATCH)%Z) with false; cbv iota;
    destruct (regexec test_reg line 5) as [c2 m2] eqn:E2;
    destruct (regexec_code test_reg line 5) as [H2|H2];
    rewrite E2 in H2; simpl in H2; subst c2;
    [ change (0 =? 0)%Z with true; cbv iota;
      match goal with |- context [if ?b then _ else _] => destruct b end;
      reflexivity
    | reflexivity ].
Qed.

Lemma classify_eq line s : classify line s = (kyua_error_ok, snd (classify line s)).
Proof.
  pose proof (classify_ok line s). destruct (classify line s); simpl in *.
  now subst.
Qed.

(** The four ways round the loop. *)
Lemma loop_stop input e s :
  reading e s = false -> loop input e s = (e, s, input, []).
Proof.
  unfold reading, loop. intros H. apply negb_false_iff in H.
  destruct input; simpl; rewrite H; reflexivity.
Qed.

Lemma loop_nil e s : loop [] e s = (e, s, [], []).
Proof.
  unfold loop. simpl. now destruct (_ || _).
Qed.

Lemma loop_empty_line rest e s :
  reading e s = true -> loop ("" :: rest) e s = (e, s, rest, [ev_read ""]).
Proof.
  unfold reading, loop. intros H. apply negb_true_iff in H.
  simpl. rewrite H. reflexivity.
Qed.

Lemma loop_cons line rest e s :
  reading e s = true -> line <> "" ->
  loop (line :: rest) e s =
  let '(e2, s2, u, evs) := loop rest kyua_error_ok (snd (classify line s)) in
  (e2, s2, u,
   ev_read line :: ev_write (line ++ NL) :: ev_classify line :: evs).
Proof.
  unfold reading. intros H Hne. apply negb_true_iff in H.
  cbn [loop]. rewrite H.
  apply String.eqb_neq in Hne. rewrite Hne.
  rewrite (classify_eq line s). reflexivity.
Qed.

Lemma parse_lines_eq lines :
  parse_lines lines =
  let '(e, s, u, evs) := loop lines kyua_error_ok kyua_tap_summary_new in
  {| ret := e; summary_out := check_plan s; unread := u; events := evs |}.
Proof.
  reflexivity.
Qed.

(** The loop never leaves an engine error behind. *)
Lemma loop_ret input : forall e s,
  e = kyua_error_ok ->
  fst (fst (fst (loop input e s))) = kyua_error_ok.
Proof.
  induction input as [|line rest IH]; intros e s ->.
  - now rewrite loop_nil.
  - destruct (reading kyua_error_ok s) eqn:R.
    + destruct (String.eqb_spec line "") as [->|Hne].
      * now rewrite loop_empty_line.
      * rewrite loop_cons by assumption.
        specialize (IH kyua_error_ok (snd (classify line s)) eq_refl).
        destruct (loop rest _ _) as [[[e2 s2] u] evs]. exact IH.
    + now rewrite loop_stop.
Qed.

(** The loop over a prefix that it reads to the end, followed by more. *)
Lemma loop_app pre : forall rest e s e1 s1 u1 ev1,
  Forall (fun l => l <> "") pre ->
  loop pre e s = (e1, s1, u1, ev1) ->
  reading e1 s1 = true ->
  u1 = [] /\
  loop (pre ++ rest)%list e s =
  (let '(e2, s2, u2, ev2) := loop rest e1 s1 in
   (e2, s2, u2, (ev1 ++ ev2)%list)).
Proof.
  induction pre as [|line pre IH]; intros rest e s e1 s1 u1 ev1 Hne H R.
  - rewrite loop_nil in H. inversion H; subst. split; [reflexivity|].
    simpl. now destruct (loop rest e1 s1) as [[[? ?] ?] ?].
  - inversion Hne as [|? ? Hl Hpre]; subst.
    destruct (reading e s) eqn:R0.
    + rewrite loop_cons in H by assumption.
      simpl app. rewrite loop_cons by assumption.
      destruct (loop pre kyua_error_ok (snd (classify line s)))
        as [[[e2 s2] u2] ev2] eqn:E.
      inversion H; subst.
      destruct (IH rest _ _ _ _ _ _ Hpre E R) as [-> ->].
      split; [reflexivity|].
      now destruct (loop rest e1 s1) as [[[? ?] ?] ?].
    + rewrite loop_stop in H by assumption. inversion H; subst. congruence.
Qed.

Lemma echoed_app a b : echoed (a ++ b)%list = (echoed a ++ echoed b)%list.
Proof. unfold echoed. apply flat_map_app. Qed.

Lemma classified_echoed done : classified (echoed done) = done.
Proof. induction done as [|l done IH]; simpl; [reflexivity | now rewrite IH]. Qed.

Lemma writes_echoed done :
  writes (echoed done) = map (fun l => l ++ NL) done.
Proof. induction done as [|l done IH]; simpl; [reflexivity | now rewrite IH]. Qed.


Lemma classified_app a b :
  classified (a ++ b)%list = (classified a ++ classified b)%list.
Proof.
  induction a as [|[l|l|l] a IH]; simpl; auto. now rewrite IH.
Qed.

Lemma writes_app a b : writes (a ++ b)%list = (writes a ++ writes b)%list.
Proof.
  induction a as [|[l|l|l] a IH]; simpl; auto. now rewrite IH.
Qed.


(** The shape of every run of the loop: some lines go round it in full,
    and the read that ends it, if it read anything, read an empty line. *)
Lemma loop_shape input : forall e s,
  exists done,
    Forall (fun l => l <> "") done /\
    let '(_, _, u, evs) := loop input e s in
    (input = (done ++ u)%list /\ evs = echoed done) \/
    (input = (done ++ "" :: u)%list /\
     evs = (echoed done ++ [ev_read ""])%list).
Proof.
  induction input as [|line rest IH]; intros e s.
  - exists []. split; [constructor|]. rewrite loop_nil. left. auto.
  - destruct (reading e s) eqn:R.
    + destruct (String.eqb_spec line "") as [->|Hne].
      * exists []. split; [constructor|]. rewrite loop_empty_line by assumption.
        right. auto.
      * destruct (IH kyua_error_ok (snd (classify line s)))
          as (done & Hdone & H).
        exists (line :: done). split; [constructor; assumption|].
        rewrite loop_cons by assumption.
        destruct (loop rest _ _) as [[[e2 s2] u] evs].
        destruct H as [[-> ->]|[-> ->]]; [left | right]; auto.
    + exists []. split; [constructor|]. rewrite loop_stop by assumption.
      left. auto.
Qed.

(** An empty line in the input against the end of the input. *)
Lemma loop_empty_as_eof pre post : forall e s,
  let '(e1, s1, u1, ev1) := loop (pre ++ "" :: post)%list e s in
  let '(e0, s0, u0, ev0) := loop pre e s in
  e1 = e0 /\ s1 = s0 /\ writes ev1 = writes ev0 /\
  classified ev1 = classified ev0 /\
  (exists q, u1 = (q ++ post)%list) /\
  (Forall (fun l => l <> "") pre -> reading e0 s0 = true ->
   u1 = post /\ ev1 = (ev0 ++ [ev_read ""])%list).
Proof.
  induction pre as [|line pre IH]; intros e s.
  - simpl app. rewrite loop_nil.
    destruct (reading e s) eqn:R.
    + rewrite loop_empty_line by assumption.
      repeat split; auto. now exists [].
    + rewrite loop_stop by assumption.
      repeat split; auto; try congruence. now exists [""].
  - simpl app. destruct (reading e s) eqn:R.
    + destruct (String.eqb_spec line "") as [->|Hne].
      * rewrite !loop_empty_line by assumption.
        repeat split; auto.
        -- now exists (pre ++ [""])%list; rewrite <- app_assoc.
        -- inversion H; congruence.
        -- inversion H; congruence.
      * rewrite !loop_cons by assumption.
        specialize (IH kyua_error_ok (snd (classify line s))).
        destruct (loop (pre ++ "" :: post)%list _ _) as [[[e1 s1] u1] ev1].
        destruct (loop pre _ _) as [[[e0 s0] u0] ev0].
        destruct IH as (-> & -> & Hw & Hc & Hq & Hr).
        simpl. rewrite Hw, Hc. repeat split; auto.
        -- inversion H; subst. apply Hr; assumption.
        -- inversion H; subst. f_equal. f_equal. f_equal.
           apply Hr; assumption.
    + rewrite !loop_stop by assumption.
      repeat split; auto; try congruence.
      now exists (line :: pre ++ [""])%list; simpl; rewrite <- app_assoc.
Qed.

Lemma append_NL_inv l : l ++ NL = NL -> l = "".
Proof.
  destruct l as [|a l]; [reflexivity|]. unfold NL. simpl. intros H.
  inversion H as [[Ha Hl]]. destruct l; discriminate.
Qed.

Lemma check_plan_overrides s :
  first_index s = (-1)%Z -> parse_error (check_plan s) = Some MSG_NO_PLAN.
Proof. unfold check_plan. intros ->. reflexivity. Qed.

(** ** Numbers *)

Ltac inv H := inversion H; subst; clear H.

Lemma digit_class_isdigit a :
  bracket_match false [("0"%char, "9"%char)] a = isdigit a.
Proof.
  unfold bracket_match, in_range, isdigit. cbn [existsb fst snd xorb].
  change (nat_of_ascii "0") with 48. change (nat_of_ascii "9") with 57.
  now rewrite orb_false_r.
Qed.

Lemma isdigit_bounds a :
  isdigit a = true -> 48 <= nat_of_ascii a <= 57.
Proof.
  unfold isdigit. intros H. apply andb_true_iff in H.
  destruct H as [H1 H2]. apply Nat.leb_le in H1, H2. lia.
Qed.

Lemma isdigit_not_space a : isdigit a = true -> isspace a = false.
Proof.
  intros H. apply isdigit_bounds in H. unfold isspace.
  apply orb_false_iff. split.
  - apply Nat.eqb_neq. lia.
  - apply andb_false_iff. right. apply Nat.leb_gt. lia.
Qed.

Lemma isdigit_not_char a b :
  isdigit a = true -> isdigit b = false -> Ascii.eqb a b = false.
Proof.
  intros Ha Hb. destruct (Ascii.eqb_spec a b); [congruence | reflexivity].
Qed.

Lemma digit_val_bounds a : isdigit a = true -> (0 <= digit_val a <= 9)%Z.
Proof. intros H. apply isdigit_bounds in H. unfold digit_val. lia. Qed.

Lemma read_digits_count d : forall acc,
  all_in isdigit d -> snd (read_digits d acc) = String.length d.
Proof.
  induction d as [|a d IH]; intros acc H; simpl; [reflexivity|].
  rewrite (H a (or_introl eq_refl)).
  specialize (IH (acc * 10 + digit_val a)%Z
                 (fun b Hb => H b (or_intror Hb))).
  destruct (read_digits d _) as [v n]. simpl in *. now rewrite IH.
Qed.

Lemma read_digits_nonneg d : forall acc,
  (0 <= acc)%Z -> (0 <= fst (read_digits d acc))%Z.
Proof.
  induction d as [|a d IH]; intros acc H; simpl; [exact H|].
  destruct (isdigit a) eqn:E; [|exact H].
  pose proof (digit_val_bounds a E).
  specialize (IH (acc * 10 + digit_val a)%Z ltac:(lia)).
  destruct (read_digits d _) as [v n]. exact IH.
Qed.

Lemma decimal_value_nonneg d : (0 <= decimal_value d)%Z.
Proof. apply read_digits_nonneg. lia. Qed.

(** On a string of digits [strtol] reads all of it, and clamps. *)
Lemma strtol_number d :
  is_number d ->
  strtol d =
  if (decimal_value d >? LONG_MAX)%Z
  then (LONG_MAX, String.length d, true)
  else (decimal_value d, String.length d, false).
Proof.
  intros [Hne Hall]. destruct d as [|a d]; [congruence|].
  pose proof (Hall a (or_introl eq_refl)) as Ha.
  unfold strtol.
  assert (Hsp : count_space (String a d) = 0)
    by (simpl; now rewrite (isdigit_not_space a Ha)).
  rewrite Hsp. cbn [offset].
  rewrite (isdigit_not_char a "-" Ha eq_refl).
  rewrite (isdigit_not_char a "+" Ha eq_refl). cbn [offset].
  pose proof (read_digits_count (String a d) 0 Hall) as Hn.
  pose proof (decimal_value_nonneg (String a d)) as Hv.
  unfold decimal_value in *.
  destruct (read_digits (String a d) 0) as [v n]. cbn [fst snd] in *.
  subst n. cbn [String.length].
  destruct (v >? LONG_MAX)%Z; [reflexivity|].
  replace (v <? LONG_MIN)%Z with false; [reflexivity|].
  symmetry. apply Z.ltb_ge. unfold LONG_MIN, LONG_MAX. lia.
Qed.

(** The assertion of [regex_match_too_long]: the buffer is not empty and
    [strtol] stops at its end. *)
Lemma strtol_reads_all d :
  is_number d -> d <> "" /\ snd (fst (strtol d)) = String.length d.
Proof.
  intros H. split; [apply H|]. rewrite (strtol_number d H).
  now destruct (decimal_value d >? LONG_MAX)%Z.
Qed.

Lemma regex_match_too_long_number line m d :
  match_text line m = d -> is_number d ->
  (rm_eo m - rm_so m)%Z = Z.of_nat (String.length d) ->
  regex_match_too_long line m =
  if (63 <? String.length d)%nat then inl MSG_TOO_LONG
  else if (LONG_MAX <=? decimal_value d)%Z then inl MSG_OUT_OF_RANGE
  else inr (decimal_value d).
Proof.
  intros Ht Hd Hlen. unfold regex_match_too_long. rewrite Hlen, Ht.
  destruct (Nat.ltb_spec 63 (String.length d)) as [Hl|Hl].
  - replace (Z.of_nat (String.length d) >? 64 - 1)%Z with true; auto.
    symmetry. rewrite Z.gtb_ltb. apply Z.ltb_lt. lia.
  - replace (Z.of_nat (String.length d) >? 64 - 1)%Z with false
      by (symmetry; rewrite Z.gtb_ltb; apply Z.ltb_ge; lia).
    rewrite (strtol_number d Hd).
    pose proof (decimal_value_nonneg d) as Hv.
    destruct (Z.gtb_spec (decimal_value d) LONG_MAX) as [Hg|Hg].
    + replace (LONG_MAX <=? decimal_value d)%Z with true
        by (symmetry; apply Z.leb_le; lia). reflexivity.
    + cbn [orb].
      replace (decimal_value d =? LONG_MIN)%Z with false
        by (symmetry; apply Z.eqb_neq; unfold LONG_MIN, LONG_MAX; lia).
      rewrite orb_false_r.
      destruct (Z.eqb_spec (decimal_value d) LONG_MAX) as [He|He].
      * replace (LONG_MAX <=? decimal_value d)%Z with true
          by (symmetry; apply Z.leb_le; lia). reflexivity.
      * replace (LONG_MAX <=? decimal_value d)%Z with false
          by (symmetry; apply Z.leb_gt; lia). reflexivity.
Qed.

(** ** The plan grammar *)

Lemma substring_prefix u b :
  substring 0 (String.length u) (u ++ b) = u.
Proof.
  induction u as [|a u IH]; simpl.
  - now destruct b.
  - now rewrite IH.
Qed.

Lemma substring_skip a n m s :
  substring (String.length a + n) m (a ++ s) = substring n m s.
Proof. induction a as [|x a IH]; simpl; auto. Qed.

Lemma offset_skip a s : offset (String.length a) (a ++ s) = s.
Proof. induction a as [|x a IH]; simpl; auto. Qed.

Lemma match_text_span line so eo :
  match_text line (to_regmatch (Some (so, eo))) = substring so (eo - so) line.
Proof.
  unfold match_text, slice, to_regmatch. cbn [rm_so rm_eo].
  f_equal; lia.
Qed.

Lemma Matches_plus_progress neg rs s pos c s' pos' c' :
  Matches (Cat (Plus (Bracket neg rs)) Eps) s pos c s' pos' c' ->
  pos < pos'.
Proof.
  intros H. inversion H; subst.
  match goal with
  | HE : Matches Eps _ _ _ _ _ _ |- _ => inversion HE; subst
  end.
  match goal with
  | HP : Matches (Plus _) _ _ _ _ _ _ |- _ => inversion HP; subst
  end.
  match goal with
  | HB : Matches (Bracket _ _) _ _ _ _ _ _,
    HS : Matches (Star _) _ _ _ _ _ _ |- _ =>
      inversion HB; subst;
      destruct (Matches_consumed _ _ _ _ _ _ _ HS) as (v & _ & Hv & _)
  end.
  lia.
Qed.

Lemma Matches_plus_class neg rs s pos c s' pos' c' :
  Matches (Cat (Plus (Bracket neg rs)) Eps) s pos c s' pos' c' ->
  exists u, s = u ++ s' /\ pos' = pos + String.length u /\ u <> "" /\
            all_in (bracket_match neg rs) u /\ forall i, c' i = c i.
Proof.
  intros H. pose proof (Matches_plus_progress _ _ _ _ _ _ _ _ H) as Hprog.
  destruct (Matches_consumed _ _ _ _ _ _ _ H) as (u & Hs & Hp & Ha & Hg).
  exists u. repeat split; auto.
  - intros ->. simpl in Hp. lia.
  - intros a Ha'. specialize (Ha a Ha'). simpl in Ha.
    now rewrite orb_false_r in Ha.
Qed.

Lemma Matches_cat_inv r1 r2 s pos c s2 p2 c2 :
  Matches (Cat r1 r2) s pos c s2 p2 c2 ->
  exists s1 p1 c1,
    Matches r1 s pos c s1 p1 c1 /\ Matches r2 s1 p1 c1 s2 p2 c2.
Proof. intros H. inv H. eauto. Qed.

Lemma Matches_group_inv i r s pos c s1 p1 c' :
  Matches (Group i r) s pos c s1 p1 c' ->
  exists c1, Matches r s pos c s1 p1 c1 /\ c' = set_span i (pos, p1) c1.
Proof. intros H. inv H. eauto. Qed.

Lemma Matches_chr_inv a s pos c s1 p1 c1 :
  Matches (Chr a) s pos c s1 p1 c1 ->
  s = String a s1 /\ p1 = S pos /\ c1 = c.
Proof. intros H. inv H. auto. Qed.

Lemma Matches_opt_inv r s pos c s1 p1 c1 :
  Matches (Opt r) s pos c s1 p1 c1 ->
  Matches r s pos c s1 p1 c1 \/ (s1 = s /\ p1 = pos /\ c1 = c).
Proof. intros H. inv H; auto. Qed.

Lemma Matches_ends r s pos c s' pos' c' :
  Matches r s pos c s' pos' c' -> ends_at_eol r = true -> s' = "".
Proof.
  induction 1; simpl; try discriminate; auto.
  destruct r2; auto.
  intros Hr. inv H0. auto.
Qed.

(** What a match of the plan grammar looks like. *)
Lemma plan_shape line c :
  search plan_ast line 0 = Some c ->
  exists d1 d2 rest,
    line = d1 ++ ".." ++ d2 ++ rest /\
    is_number d1 /\ is_number d2 /\
    c 1 = Some (0, String.length d1) /\
    c 2 = Some (String.length d1 + 2,
                String.length d1 + 2 + String.length d2).
Proof.
  unfold plan_ast. rewrite search_bol. intros H.
  apply exec_sound in H. destruct H as (s' & p' & c' & HM & Hacc).
  unfold accept in Hacc. inv Hacc. unfold plan_body in HM.
  apply Matches_cat_inv in HM. destruct HM as (s1 & p1 & c1 & HG1 & HM).
  apply Matches_group_inv in HG1. destruct HG1 as (c1' & HG1 & ->).
  apply Matches_plus_class in HG1.
  destruct HG1 as (d1 & -> & -> & Hne1 & Hd1 & Hc1).
  apply Matches_cat_inv in HM. destruct HM as (s2 & p2 & c2 & HD1 & HM).
  apply Matches_chr_inv in HD1. destruct HD1 as (-> & -> & ->).
  apply Matches_cat_inv in HM. destruct HM as (s3 & p3 & c3 & HD2 & HM).
  apply Matches_chr_inv in HD2. destruct HD2 as (-> & -> & ->).
  apply Matches_cat_inv in HM. destruct HM as (s4 & p4 & c4 & HG2 & HT).
  apply Matches_group_inv in HG2. destruct HG2 as (c4' & HG2 & ->).
  apply Matches_plus_class in HG2.
  destruct HG2 as (d2 & -> & -> & Hne2 & Hd2 & Hc2).
  destruct (Matches_consumed _ _ _ _ _ _ _ HT) as (u & Hu & Hp & _ & Hg).
  exists d1, d2, s4.
  assert (Hnum : forall d,
             all_in (bracket_match false [("0"%char, "9"%char)]) d ->
             all_in isdigit d).
  { intros d Hd a Ha. rewrite <- digit_class_isdigit. auto. }
  repeat split; auto.
  - unfold set_span at 1. cbn [Nat.eqb]. rewrite (Hg 1 eq_refl).
    unfold set_span. cbn [Nat.eqb]. rewrite Hc2.
    unfold set_span. cbn [Nat.eqb]. reflexivity.
  - unfold set_span at 1. cbn [Nat.eqb]. rewrite (Hg 2 eq_refl).
    unfold set_span. cbn [Nat.eqb]. f_equal. f_equal; lia.
Qed.

Lemma plan_match_shape line m :
  regexec plan_reg line 4 = (0%Z, m) ->
  exists d1 d2,
    is_number d1 /\ is_number d2 /\
    match_text line (sub m 1) = d1 /\ match_text line (sub m 2) = d2 /\
    (rm_eo (sub m 1) - rm_so (sub m 1))%Z = Z.of_nat (String.length d1) /\
    (rm_eo (sub m 2) - rm_so (sub m 2))%Z = Z.of_nat (String.length d2).
Proof.
  intros H. apply regexec_match in H. destruct H as (c & Hs & Hsub).
  apply plan_shape in Hs.
  destruct Hs as (d1 & d2 & rest & -> & Hd1 & Hd2 & Hc1 & Hc2).
  exists d1, d2.
  rewrite (Hsub 1), (Hsub 2), Hc1, Hc2 by lia.
  rewrite !match_text_span. cbn [to_regmatch rm_so rm_eo].
  split; [exact Hd1|]. split; [exact Hd2|].
  split; [|split; [|split; lia]].
  - rewrite Nat.sub_0_r. apply substring_prefix.
  - replace (String.length d1 + 2 + String.length d2 - (String.length d1 + 2))
      with (String.length d2) by lia.
    rewrite substring_skip. apply (substring_prefix d2 rest).
Qed.

(** The assertion in [regex_match_too_long] holds wherever the plan probe
    calls it: both captures of a match are numbers. *)
Lemma plan_numbers_are_numbers line m :
  regexec plan_reg line 4 = (0%Z, m) ->
  forall i, i = 1 \/ i = 2 ->
    let buffer := match_text line (sub m i) in
    buffer <> "" /\ snd (fst (strtol buffer)) = String.length buffer.
Proof.
  intros H i Hi. apply plan_match_shape in H.
  destruct H as (d1 & d2 & Hd1 & Hd2 & <- & <- & _).
  destruct Hi as [->| ->]; apply strtol_reads_all; assumption.
Qed.

(** ** The result grammars *)

(** Both result grammars open with the optional "not " marker and then
    "o": the first subexpression is set exactly on lines that begin with
    "not o", and unset exactly on lines that begin with "o". *)
Lemma marker_shape rest line c :
  has_group 1 rest = false ->
  search (Cat Bol (Cat not_marker (Cat (Chr "o") rest))) line 0 = Some c ->
  (c 1 = None /\ exists t, line = String "o" t) \/
  (c 1 = Some (0, 4) /\ exists t, line = "not o" ++ t).
Proof.
  intros Hrest. rewrite search_bol. intros H.
  apply exec_sound in H. destruct H as (s' & p' & c' & HM & Hacc).
  unfold accept in Hacc. inv Hacc.
  apply Matches_cat_inv in HM. destruct HM as (s1 & p1 & c1 & HN & HM).
  apply Matches_cat_inv in HM. destruct HM as (s2 & p2 & c2 & HO & HR).
  apply Matches_chr_inv in HO. destruct HO as (-> & -> & ->).
  destruct (Matches_consumed _ _ _ _ _ _ _ HR) as (_ & _ & _ & _ & Hg).
  change (set_span 0 (0, p') c' 1) with (c' 1). rewrite (Hg 1 Hrest).
  unfold not_marker in HN. apply Matches_opt_inv in HN.
  destruct HN as [HN|(E1 & E2 & E3)]; [|subst line p1 c1].
  - right. apply Matches_group_inv in HN. destruct HN as (c0 & HN & ->).
    apply Matches_cat_inv in HN. destruct HN as (? & ? & ? & H1 & HN).
    apply Matches_chr_inv in H1. destruct H1 as (-> & -> & ->).
    apply Matches_cat_inv in HN. destruct HN as (? & ? & ? & H1 & HN).
    apply Matches_chr_inv in H1. destruct H1 as (-> & -> & ->).
    apply Matches_cat_inv in HN. destruct HN as (? & ? & ? & H1 & HN).
    apply Matches_chr_inv in H1. destruct H1 as (-> & -> & ->).
    apply Matches_cat_inv in HN. destruct HN as (? & ? & ? & H1 & HN).
    apply Matches_chr_inv in H1. destruct H1 as (-> & -> & ->).
    inv HN. split; [reflexivity|]. now exists s2.
  - left. split; [reflexivity|]. now exists s2.
Qed.

Lemma simple_test_marker line c :
  search simple_test_ast line 0 = Some c ->
  (c 1 = None /\ exists t, line = String "o" t) \/
  (c 1 = Some (0, 4) /\ exists t, line = "not o" ++ t).
Proof. apply marker_shape. reflexivity. Qed.

Lemma test_marker line c :
  search test_ast line 0 = Some c ->
  (c 1 = None /\ exists t, line = String "o" t) \/
  (c 1 = Some (0, 4) /\ exists t, line = "not o" ++ t).
Proof. apply marker_shape. reflexivity. Qed.

(** A result line is no plan line and no bail-out line. *)
Lemma probe_result_line a t s :
  a = "o"%char \/ a = "n"%char ->
  kyua_tap_try_parse_plan (String a t) s = (kyua_error_ok, s).
Proof.
  intros [->| ->]; apply try_parse_plan_nomatch;
    unfold plan_ast; rewrite search_bol; reflexivity.
Qed.

Lemma bail_result_line a t :
  a = "o"%char \/ a = "n"%char ->
  match strstr (String a t) "Bail out!" with
  | Some 0 => true
  | _ => false
  end = false.
Proof.
  intros Ha. cbn [strstr].
  replace (prefix "Bail out!" (String a t)) with false
    by (destruct Ha as [->| ->]; reflexivity).
  now destruct (strstr t "Bail out!").
Qed.

(** The simple grammar has no place for a "#". *)
Lemma simple_test_no_hash line c :
  search simple_test_ast line 0 = Some c -> ~ In "#"%char (chars line).
Proof.
  unfold simple_test_ast. rewrite search_bol. intros H Hin.
  apply exec_sound in H. destruct H as (s' & p' & c' & HM & _).
  pose proof (Matches_ends _ _ _ _ _ _ _ HM eq_refl) as ->.
  destruct (Matches_consumed _ _ _ _ _ _ _ HM) as (u & Hu & _ & Ha & _).
  rewrite append_nil_r in Hu. subst u.
  specialize (Ha _ Hin). vm_compute in Ha. discriminate.
Qed.

Lemma star_loop_all cls step (Hstep : char_step cls step) s :
  forall k fuel pos c res,
    all_in cls s -> String.length s < fuel ->
    k "" (pos + String.length s) c = Some res ->
    star_loop step k fuel s pos c = Some res.
Proof.
  intros k fuel pos c res Hall Hfuel Hk.
  pose proof (star_loop_run cls step Hstep s "" k fuel pos c res Hall I)
    as H.
  rewrite append_nil_r in H. auto.
Qed.

Lemma plus_stop neg rs rest k pos c :
  stops (bracket_match neg rs) rest ->
  exec (Plus (Bracket neg rs)) k rest pos c = None.
Proof.
  intros H.
  change (exec (Plus (Bracket neg rs)) k rest pos c)
    with (exec (Bracket neg rs)
            (fun s1 p1 c1 =>
               star_loop (exec (Bracket neg rs)) k
                 (S (String.length s1)) s1 p1 c1) rest pos c).
  rewrite char_step_bracket. destruct rest as [|b rest]; [reflexivity|].
  simpl in H. now rewrite H.
Qed.

Lemma exec_opt_group_plus i r t k s p c :
  exec (Cat (Opt (Group i (Cat (Plus r) Eps))) t) k s p c =
  match exec (Plus r)
          (fun s1 p1 c1 => exec t k s1 p1 (set_span i (p, p1) c1)) s p c with
  | Some res => Some res
  | None => exec t k s p c
  end.
Proof. reflexivity. Qed.

(** The end of the general grammar, the optional group of any characters
    before the end anchor, takes whatever is left and always sets the fourth
    subexpression. *)
Lemma directive_tail s pos c0 :
  exec (Cat (Opt (Group 4 (Cat (Star Any) Eps))) (Cat Eol Eps))
       (accept 0) s pos c0
  = Some (set_span 0 (0, pos + String.length s)
            (set_span 4 (pos, pos + String.length s) c0)).
Proof.
  cbn [exec].
  erewrite (star_loop_all _ _ char_step_any s); [reflexivity | | | ].
  - intros a _. reflexivity.
  - lia.
  - reflexivity.
Qed.

Lemma offset_add a n s :
  offset (String.length a + n) (a ++ s) = offset n s.
Proof. induction a as [|x a IH]; simpl; auto. Qed.

Lemma offset_length s : offset (String.length s) s = "".
Proof. induction s as [|x s IH]; simpl; auto. Qed.

(** After the description, the fourth subexpression starts at the first
    "#" or at the end of the line, and runs to the end. *)
Lemma test_tail_spans s pos c0 res :
  exec test_tail (accept 0) s pos c0 = Some res ->
  exists n,
    n <= String.length s /\
    res 4 = Some (pos + n, pos + String.length s) /\
    stops not_hash (offset n s).
Proof.
  destruct (longest_run not_hash s) as (u & rest & -> & Hall & Hstop).
  unfold test_tail. rewrite exec_opt_group_plus.
  destruct u as [|a u].
  - replace (exec (Plus not_hash_class) _ ("" ++ rest) pos c0) with
      (@None spans).
    + rewrite directive_tail. intros H. inv H. exists 0.
      rewrite Nat.add_0_r. repeat split; auto. lia.
    + symmetry. apply plus_stop. exact Hstop.
  - unfold not_hash_class.
    erewrite (plus_run not_hash true _ (String a u) eq_refl rest);
      [ | discriminate | exact Hall | exact Hstop
        | cbv beta; rewrite directive_tail; reflexivity ].
    intros H. inv H. exists (String.length (String a u)).
    rewrite length_app. repeat split.
    + lia.
    + unfold set_span. cbn [Nat.eqb String.length]. f_equal. f_equal. lia.
    + rewrite offset_skip. exact Hstop.
Qed.

(** A match of the general grammar always sets the fourth subexpression;
    it ends at the end of the line and starts there too or at a "#". *)
Lemma test_shape line c :
  search test_ast line 0 = Some c ->
  exists so,
    so <= String.length line /\
    c 4 = Some (so, String.length line) /\
    stops not_hash (offset so line).
Proof.
  unfold test_ast. rewrite search_bol. unfold test_rest.
  change (exec (Cat not_marker (Cat (Chr "o") (Cat (Chr "k")
            (Cat (Star blank_class)
               (Cat (Opt (Group 2 (Cat (Plus digit_class) Eps)))
                  test_tail))))) (accept 0) line 0 no_spans)
    with (exec (Cat not_marker (Cat (Chr "o") test_head))
               (exec test_tail (accept 0)) line 0 no_spans).
  intros H. apply exec_sound in H.
  destruct H as (s5 & p5 & c5 & HM & HT).
  destruct (Matches_consumed _ _ _ _ _ _ _ HM) as (u & -> & -> & _ & _).
  apply test_tail_spans in HT. destruct HT as (n & Hn & H4 & Hstop).
  exists (String.length u + n). rewrite length_app, offset_add.
  repeat split; auto. lia.
Qed.

Lemma stops_not_hash t :
  stops not_hash t -> t <> "" -> In "#"%char (chars t).
Proof.
  destruct t as [|a t]; [congruence|]. simpl. intros H _. left.
  unfold not_hash, bracket_match, in_range in H. cbn in H.
  rewrite orb_false_r in H. apply negb_false_iff in H.
  apply andb_true_iff in H. destruct H as [H1 H2].
  apply Nat.leb_le in H1, H2.
  rewrite <- (ascii_nat_embedding a).
  replace (nat_of_ascii a) with 35 by lia. reflexivity.
Qed.

Lemma chars_offset n : forall s a,
  In a (chars (offset n s)) -> In a (chars s).
Proof.
  induction n as [|n IH]; intros s a H; [exact H|].
  destruct s as [|b s]; [exact H|]. right. apply IH. exact H.
Qed.

Lemma substring_to_end so : forall line,
  so <= String.length line ->
  substring so (String.length line - so) line = offset so line.
Proof.
  induction so as [|so IH]; intros line H.
  - rewrite Nat.sub_0_r. simpl.
    rewrite <- (append_nil_r line) at 2. apply substring_prefix.
  - destruct line as [|a line]; [reflexivity|]. simpl in *.
    apply IH. lia.
Qed.

(** The loop body on a line that begins like a result line. *)
Lemma classify_result a t s :
  a = "o"%char \/ a = "n"%char ->
  classify (String a t) s =
  let line := String a t in
  let (c1, m1) := regexec simple_test_reg line 3 in
  if (c1 =? 0)%Z then
    (kyua_error_ok,
     if is_set (sub m1 1) then incr_not_ok_count s else incr_ok_count s)
  else
    let (c2, m2) := regexec test_reg line 5 in
    if (c2 =? 0)%Z then
      (kyua_error_ok,
       if counts_as_failure line m2
       then incr_not_ok_count s else incr_ok_count s)
    else (kyua_error_ok, s).
Proof.
  intros Ha. unfold classify, classify_line, counts_as_failure.
  rewrite (probe_result_line a t s Ha). cbn [kyua_error_is_set].
  rewrite (bail_result_line a t Ha). cbv zeta.
  destruct (regexec simple_test_reg (String a t) 3) as [c1 m1] eqn:E1.
  destruct (regexec_code simple_test_reg (String a t) 3) as [H1|H1];
    rewrite E1 in H1; simpl in H1; subst c1.
  - change (0 =? 0)%Z with true. cbv iota.
    now destruct (is_set (sub m1 1)).
  - change (REG_NOMATCH =? 0)%Z with false.
    change (negb (REG_NOMATCH =? REG_NOMATCH)%Z) with false. cbv iota.
    destruct (regexec test_reg (String a t) 5) as [c2 m2] eqn:E2.
    destruct (regexec_code test_reg (String a t) 5) as [H2|H2];
      rewrite E2 in H2; simpl in H2; subst c2.
    + change (0 =? 0)%Z with true. cbv iota.
      now destruct (_ && _).
    + reflexivity.
Qed.

(** What [regexec] says of the marker on a matching result line. *)
Lemma simple_marker_set line m :
  regexec simple_test_reg line 3 = (0%Z, m) ->
  (is_set (sub m 1) = false /\ exists t, line = String "o" t) \/
  (is_set (sub m 1) = true /\ exists t, line = "not o" ++ t).
Proof.
  intros H. apply regexec_match in H. destruct H as (c & Hs & Hsub).
  rewrite (Hsub 1) by lia. rewrite is_set_to_regmatch.
  destruct (simple_test_marker line c Hs) as [[-> Ht]|[-> Ht]]; auto.
Qed.

Lemma test_marker_set line m :
  regexec test_reg line 5 = (0%Z, m) ->
  (is_set (sub m 1) = false /\ exists t, line = String "o" t) \/
  (is_set (sub m 1) = true /\ exists t, line = "not o" ++ t).
Proof.
  intros H. apply regexec_match in H. destruct H as (c & Hs & Hsub).
  rewrite (Hsub 1) by lia. rewrite is_set_to_regmatch.
  destruct (test_marker line c Hs) as [[-> Ht]|[-> Ht]]; auto.
Qed.

(** The fourth subexpression of the general grammar, as [regexec] reports
    it. *)
Lemma test_directive line m :
  regexec test_reg line 5 = (0%Z, m) ->
  exists so,
    so <= String.length line /\
    sub m 4 = {| rm_so := Z.of_nat so;
                 rm_eo := Z.of_nat (String.length line) |} /\
    stops not_hash (offset so line) /\
    match_text line (sub m 4) = offset so line.
Proof.
  intros H. apply regexec_match in H. destruct H as (c & Hs & Hsub).
  destruct (test_shape line c Hs) as (so & Hso & H4 & Hstop).
  exists so. rewrite (Hsub 4) by lia. rewrite H4.
  repeat split; auto.
  rewrite match_text_span. apply substring_to_end. exact Hso.
Qed.

(** A line the simple grammar matches has an empty fourth subexpression in
    the general grammar. *)
Lemma simple_then_no_directive line m1 m :
  regexec simple_test_reg line 3 = (0%Z, m1) ->
  regexec test_reg line 5 = (0%Z, m) ->
  offset (Z.to_nat (rm_so (sub m 4))) line = "".
Proof.
  intros H1 H. apply regexec_match in H1. destruct H1 as (c1 & Hs1 & _).
  destruct (test_directive line m H) as (so & Hso & -> & Hstop & _).
  cbn [rm_so]. rewrite Nat2Z.id.
  destruct (offset so line) as [|b t] eqn:E; [reflexivity|].
  exfalso. apply (simple_test_no_hash line c1 Hs1).
  apply (chars_offset so). rewrite E.
  apply stops_not_hash; [exact Hstop | discriminate].
Qed.

(** ** Decimal numerals *)

Lemma digit_char_spec d :
  (0 <= d <= 9)%Z ->
  isdigit (digit_char d) = true /\ digit_val (digit_char d) = d.
Proof.
  intros H. unfold isdigit, digit_val, digit_char.
  rewrite nat_ascii_embedding by lia. split.
  - apply andb_true_iff. split; apply Nat.leb_le; lia.
  - lia.
Qed.

Lemma decimal_aux_digits fuel : forall n acc,
  (0 <= n)%Z -> all_in isdigit acc -> all_in isdigit (decimal_aux fuel n acc).
Proof.
  induction fuel as [|fuel IH]; intros n acc Hn Hacc; simpl; [exact Hacc|].
  assert (Hacc' : all_in isdigit (String (digit_char (n mod 10)) acc)).
  { intros a [<-|Ha]; [|auto].
    apply digit_char_spec. pose proof (Z.mod_pos_bound n 10). lia. }
  destruct (n <? 10)%Z; [exact Hacc'|].
  apply IH; [|exact Hacc']. apply Z.div_pos; lia.
Qed.

Lemma decimal_aux_nonempty fuel : forall n acc,
  acc <> "" -> decimal_aux fuel n acc <> "".
Proof.
  induction fuel as [|fuel IH]; intros n acc Hacc; simpl; [exact Hacc|].
  destruct (n <? 10)%Z; [discriminate|]. apply IH. discriminate.
Qed.

Lemma read_digits_cons a d acc :
  isdigit a = true ->
  fst (read_digits (String a d) acc)
  = fst (read_digits d (acc * 10 + digit_val a)).
Proof.
  intros H. simpl. rewrite H. now destruct (read_digits d _).
Qed.

Lemma decimal_aux_value fuel : forall n acc,
  (0 <= n < 10 ^ Z.of_nat fuel)%Z ->
  fst (read_digits (decimal_aux fuel n acc) 0) = fst (read_digits acc n).
Proof.
  induction fuel as [|fuel IH]; intros n acc Hn.
  - simpl in *. replace n with 0%Z by lia. reflexivity.
  - cbn [decimal_aux]. pose proof (Z.mod_pos_bound n 10 ltac:(lia)) as Hm.
    destruct (digit_char_spec (n mod 10) ltac:(lia)) as [Hd Hv].
    destruct (Z.ltb_spec n 10) as [Hlt|Hge].
    + rewrite read_digits_cons by exact Hd. rewrite Hv.
      rewrite Z.mod_small by lia. reflexivity.
    + rewrite IH.
      * rewrite read_digits_cons by exact Hd. rewrite Hv.
        f_equal. f_equal. pose proof (Z.div_mod n 10). lia.
      * rewrite Nat2Z.inj_succ, Z.pow_succ_r in Hn by lia.
        split; [apply Z.div_pos; lia|].
        apply Z.div_lt_upper_bound; lia.
Qed.

Lemma decimal_aux_length fuel : forall n acc k,
  (0 <= n < 10 ^ Z.of_nat k)%Z -> 1 <= k ->
  String.length (decimal_aux fuel n acc) <= k + String.length acc.
Proof.
  induction fuel as [|fuel IH]; intros n acc k Hn Hk; simpl; [lia|].
  destruct (Z.ltb_spec n 10) as [Hlt|Hge]; [simpl; lia|].
  destruct k as [|[|k]]; [lia | simpl in Hn; lia |].
  specialize (IH (n / 10)%Z (String (digit_char (n mod 10)) acc) (S k)).
  simpl in IH. rewrite Nat2Z.inj_succ, Z.pow_succ_r in Hn by lia.
  assert (0 <= n / 10 < 10 ^ Z.of_nat (S k))%Z.
  { split; [apply Z.div_pos; lia|]. apply Z.div_lt_upper_bound; lia. }
  specialize (IH H ltac:(lia)). lia.
Qed.

Lemma decimal_fuel n :
  (1 <= n)%Z -> (0 <= n < 10 ^ Z.of_nat (S (Z.to_nat (Z.log2 n))))%Z.
Proof.
  intros H. pose proof (Z.log2_nonneg n) as Hl.
  destruct (Z.log2_spec n ltac:(lia)) as [_ Hu].
  rewrite Nat2Z.inj_succ, Z2Nat.id by lia.
  split; [lia|]. eapply Z.lt_le_trans; [exact Hu|].
  apply Z.pow_le_mono_l. lia.
Qed.

(** The numeral of a plan bound the parser accepts. *)
Lemma decimal_spec n :
  (1 <= n < LONG_MAX)%Z ->
  is_number (decimal n) /\ decimal_value (decimal n) = n /\
  number_ok (decimal n).
Proof.
  intros H. unfold decimal.
  assert (Hv : decimal_value
                 (decimal_aux (S (Z.to_nat (Z.log2 n))) n "") = n).
  { unfold decimal_value. rewrite decimal_aux_value by (apply decimal_fuel; lia).
    reflexivity. }
  split; [|split; [exact Hv|]].
  - split.
    + cbn [decimal_aux]. destruct (n <? 10)%Z; [discriminate|].
      apply decimal_aux_nonempty. discriminate.
    + apply decimal_aux_digits; [lia|]. intros a [].
  - split; [|rewrite Hv; lia].
    pose proof (decimal_aux_length (S (Z.to_nat (Z.log2 n))) n "" 19) as Hl.
    change (String.length "") with 0 in Hl.
    assert (Hn : (0 <= n < 10 ^ Z.of_nat 19)%Z)
      by (unfold LONG_MAX in H; simpl; lia).
    specialize (Hl Hn ltac:(lia)). lia.
Qed.

(** ** A plan line, forwards *)

Lemma is_number_class d :
  is_number d -> all_in (bracket_match false [("0"%char, "9"%char)]) d.
Proof. intros [_ H] a Ha. rewrite digit_class_isdigit. auto. Qed.

Lemma plan_line_search d1 d2 :
  is_number d1 -> is_number d2 ->
  exists c,
    search plan_ast (d1 ++ ".." ++ d2) 0 = Some c /\
    c 1 = Some (0, String.length d1) /\
    c 2 = Some (String.length d1 + 2,
                String.length d1 + 2 + String.length d2) /\
    c 3 = None.
Proof.
  intros H1 H2. unfold plan_ast. rewrite search_bol.
  eexists. split.
  - unfold plan_body.
    change (exec (Cat (Group 1 (Cat (Plus digit_class) Eps)) ?R) ?k ?s ?p ?c)
      with (exec (Plus digit_class)
              (fun s1 p1 c1 => exec R k s1 p1 (set_span 1 (p, p1) c1)) s p c).
    unfold digit_class at 1.
    erewrite (plus_run _ false _ d1 eq_refl);
      [ reflexivity | apply H1 | apply is_number_class; exact H1
        | reflexivity | ].
    cbv beta.
    change (exec (Cat (Chr ".") (Cat (Chr ".")
              (Cat (Group 2 (Cat (Plus digit_class) Eps)) ?T)))
              ?k (".." ++ d2) ?p ?c)
      with (exec (Plus digit_class)
              (fun s1 p1 c1 =>
                 exec T k s1 p1 (set_span 2 (S (S p), p1) c1))
              d2 (S (S p)) c).
    unfold digit_class.
    rewrite <- (append_nil_r d2) at 1.
    erewrite (plus_run _ false _ d2 eq_refl);
      [ reflexivity | apply H2 | apply is_number_class; exact H2
        | exact I | ].
    cbv beta. reflexivity.
  - unfold set_span. cbn [Nat.eqb]. repeat split; f_equal; f_equal; lia.
Qed.

(** The probe on a plain plan line with both numbers in range and in
    order: the plan is committed. *)
Lemma probe_plan_line d1 d2 s :
  is_number d1 -> is_number d2 -> number_ok d1 -> number_ok d2 ->
  first_index s = (-1)%Z ->
  (decimal_value d1 <= decimal_value d2)%Z ->
  kyua_tap_try_parse_plan (d1 ++ ".." ++ d2) s =
  (kyua_error_ok,
   with_plan (decimal_value d1) (decimal_value d2)
     (with_skipped_all false s)).
Proof.
  intros H1 H2 [L1 V1] [L2 V2] Hfirst Hle.
  destruct (plan_line_search d1 d2 H1 H2) as (c & Hs & Hc1 & Hc2 & Hc3).
  open_probe. rewrite (regexec_found plan_reg _ 4 c Hs).
  change (negb (0 =? 0)%Z) with false. cbv iota.
  rewrite Hfirst. change (negb (-1 =? -1)%Z) with false. cbv iota.
  rewrite !sub_map_seq by lia. rewrite Hc1, Hc2, Hc3.
  rewrite (regex_match_too_long_number _ _ d1);
    [ | rewrite match_text_span, Nat.sub_0_r; apply substring_prefix
      | exact H1 | cbn [to_regmatch rm_so rm_eo]; lia ].
  rewrite (regex_match_too_long_number _ _ d2);
    [ | rewrite match_text_span;
        replace (String.length d1 + 2 + String.length d2
                 - (String.length d1 + 2)) with (String.length d2) by lia;
        rewrite substring_skip;
        rewrite <- (append_nil_r d2) at 2; apply substring_prefix
      | exact H2 | cbn [to_regmatch rm_so rm_eo]; lia ].
  replace (63 <? String.length d1)%nat with false
    by (symmetry; apply Nat.ltb_ge; lia).
  replace (63 <? String.length d2)%nat with false
    by (symmetry; apply Nat.ltb_ge; lia).
  replace (LONG_MAX <=? decimal_value d1)%Z with false
    by (symmetry; apply Z.leb_gt; lia).
  replace (LONG_MAX <=? decimal_value d2)%Z with false
    by (symmetry; apply Z.leb_gt; lia).
  change (is_set (to_regmatch None)) with false. cbv iota.
  cbn [skipped_all with_skipped_all negb andb].
  replace (decimal_value d2 <? decimal_value d1)%Z with false
    by (symmetry; apply Z.ltb_ge; lia).
  reflexivity.
Qed.

(** The loop body on the plan line "1..N". *)
Lemma classify_plan_line n s :
  (1 <= n < LONG_MAX)%Z -> first_index s = (-1)%Z ->
  classify ("1.." ++ decimal n) s =
  (kyua_error_ok, with_plan 1 n (with_skipped_all false s)).
Proof.
  intros Hn Hfirst.
  destruct (decimal_spec n Hn) as (Hnum & Hval & Hok).
  unfold classify, classify_line.
  change ("1.." ++ decimal n) with ("1" ++ ".." ++ decimal n).
  rewrite (probe_plan_line "1" (decimal n) s); auto.
  - rewrite Hval. change (decimal_value "1") with 1%Z.
    cbn [kyua_error_is_set]. change ("1" ++ ".." ++ decimal n)
      with (String "1" (".." ++ decimal n)).
    replace (match strstr _ "Bail out!" with Some 0 => true | _ => false end)
      with false
      by (cbn [strstr];
          change (prefix "Bail out!" (String "1" (".." ++ decimal n)))
            with false;
          now destruct (strstr (".." ++ decimal n) "Bail out!")).
    rewrite (regexec_not_found simple_test_reg _ 3)
      by (cbn [re_ast simple_test_reg]; unfold simple_test_ast;
          rewrite search_bol; reflexivity).
    change (REG_NOMATCH =? 0)%Z with false.
    change (negb (REG_NOMATCH =? REG_NOMATCH)%Z) with false. cbv iota.
    rewrite (regexec_not_found test_reg _ 5)
      by (cbn [re_ast test_reg]; unfold test_ast;
          rewrite search_bol; reflexivity).
    reflexivity.
  - split; [discriminate|]. intros a [<-|[]]. reflexivity.
  - split; [simpl; lia | vm_compute; reflexivity].
  - change (decimal_value "1") with 1%Z. lia.
Qed.

(** The loop body on a result line without the marker. *)
Lemma classify_passing line s :
  passing_result_line line = true ->
  classify line s = (kyua_error_ok, incr_ok_count s).
Proof.
  unfold passing_result_line. intros H.
  destruct (regexec simple_test_reg line 3) as [c1 m1] eqn:E1.
  destruct (regexec test_reg line 5) as [c2 m2] eqn:E2.
  assert (Hline : exists t, line = String "o" t).
  { apply orb_true_iff in H. destruct H as [H|H];
      apply andb_true_iff in H; destruct H as [Hc Hm];
      apply Z.eqb_eq in Hc; subst; apply negb_true_iff in Hm.
    - destruct (simple_marker_set line m1 E1) as [[_ Ht]|[Hs _]];
        [exact Ht | congruence].
    - destruct (test_marker_set line m2 E2) as [[_ Ht]|[Hs _]];
        [exact Ht | congruence]. }
  destruct Hline as (t & ->).
  rewrite classify_result by auto. cbv zeta. rewrite E1.
  destruct (Z.eqb_spec c1 0) as [->|Hc1].
  - destruct (simple_marker_set _ m1 E1) as [[-> _]|[_ (t' & E)]];
      [reflexivity | discriminate].
  - rewrite E2. apply orb_true_iff in H. destruct H as [H|H];
      apply andb_true_iff in H; destruct H as [Hc Hm]; [discriminate|].
    apply Z.eqb_eq in Hc. subst c2.
    change (0 =? 0)%Z with true. cbv iota.
    apply negb_true_iff in Hm. unfold counts_as_failure. rewrite Hm.
    reflexivity.
Qed.

Lemma passing_nonempty line : passing_result_line line = true -> line <> "".
Proof. intros H ->. vm_compute in H. discriminate. Qed.

(** The loop over result lines without the marker: each is read and adds
    one to [ok_count]. *)
Lemma loop_passing lines : forall s,
  Forall (fun l => passing_result_line l = true) lines ->
  parse_error s = None -> bail_out s = false ->
  exists s' evs,
    loop lines kyua_error_ok s = (kyua_error_ok, s', [], evs) /\
    ok_count s' = (ok_count s + Z.of_nat (List.length lines))%Z /\
    not_ok_count s' = not_ok_count s /\
    parse_error s' = None /\ bail_out s' = false /\
    first_index s' = first_index s /\ last_index s' = last_index s.
Proof.
  induction lines as [|line lines IH]; intros s Hall Herr Hbail.
  - exists s, []. rewrite loop_nil. simpl. repeat split; auto. lia.
  - inversion Hall as [|? ? Hline Hrest]; subst.
    assert (R : reading kyua_error_ok s = true)
      by (unfold reading; rewrite Herr, Hbail; reflexivity).
    rewrite loop_cons by (auto using passing_nonempty).
    rewrite (classify_passing line s Hline). cbn [snd].
    destruct (IH (incr_ok_count s) Hrest Herr Hbail)
      as (s' & evs & -> & Hok & Hnot & He & Hb & Hf & Hl).
    eexists. eexists. split; [reflexivity|].
    cbn [ok_count incr_ok_count not_ok_count first_index last_index] in *.
    cbn [List.length]. repeat split; auto. lia.
Qed.

(** ** Invariants of the loop *)

Lemma classify_cases line s :
  let s1 := snd (kyua_tap_try_parse_plan line s) in
  let s2 := snd (classify line s) in
  s2 = s1 \/ s2 = with_bail_out true s1 \/
  s2 = incr_ok_count s1 \/ s2 = incr_not_ok_count s1.
Proof.
  unfold classify, classify_line.
  pose proof (try_parse_plan_ok line s) as Hp.
  destruct (kyua_tap_try_parse_plan line s) as [e s1]. simpl in Hp. subst e.
  cbn [kyua_error_is_set snd].
  destruct (strstr line "Bail out!") as [[|n]|]; auto.
  all: destruct (regexec simple_test_reg line 3) as [c1 m1];
    destruct (Z.eqb_spec c1 0) as [->|H1];
    [ change (negb (0 =? REG_NOMATCH)%Z) with true | ];
    split_ifs; cbn; auto.
Qed.

Lemma loop_invariant (P : kyua_tap_summary_t -> Prop) :
  (forall line s, P s -> P (snd (classify line s))) ->
  forall input e s, P s -> P (snd (fst (fst (loop input e s)))).
Proof.
  intros Hstep. induction input as [|line rest IH]; intros e s Hs.
  - now rewrite loop_nil.
  - destruct (reading e s) eqn:R.
    + destruct (String.eqb_spec line "") as [->|Hne].
      * now rewrite loop_empty_line.
      * rewrite loop_cons by assumption.
        specialize (IH kyua_error_ok _ (Hstep line s Hs)).
        now destruct (loop rest _ _) as [[[e2 s2] u] evs].
    + now rewrite loop_stop.
Qed.

Lemma probe_skip_has_plan line s :
  skip_has_plan s -> skip_has_plan (snd (kyua_tap_try_parse_plan line s)).
Proof.
  unfold skip_has_plan. intros Hs. open_probe.
  destruct (regexec plan_reg line 4) as [code m] eqn:Hm.
  destruct (Z.eqb_spec code 0) as [->|Hc]; [|exact Hs].
  cbv iota. cbn [negb].
  destruct (Z.eqb_spec (first_index s) (-1)) as [Hf|Hf]; [|exact Hs].
  cbn [negb].
  destruct (plan_match_shape line m Hm)
    as (d1 & d2 & Hd1 & Hd2 & Ht1 & Ht2 & Hl1 & Hl2).
  rewrite (regex_match_too_long_number line (sub m 1) d1 Ht1 Hd1 Hl1).
  rewrite (regex_match_too_long_number line (sub m 2) d2 Ht2 Hd2 Hl2).
  pose proof (decimal_value_nonneg d1) as Hv.
  cbn [skipped_all with_skipped_all negb andb].
  split_ifs; cbn; intros; try discriminate; auto; lia.
Qed.

Lemma classify_skip_has_plan line s :
  skip_has_plan s -> skip_has_plan (snd (classify line s)).
Proof.
  intros Hs. apply (probe_skip_has_plan line) in Hs.
  destruct (classify_cases line s) as [H|[H|[H|H]]]; rewrite H;
    exact Hs.
Qed.

Lemma loop_end_skip_has_plan lines : skip_has_plan (loop_end lines).
Proof.
  unfold loop_end. apply loop_invariant.
  - apply classify_skip_has_plan.
  - intros H. discriminate.
Qed.

Lemma summary_out_eq lines :
  summary_out (parse_lines lines) = check_plan (loop_end lines).
Proof.
  rewrite parse_lines_eq. unfold loop_end.
  now destruct (loop lines _ _) as [[[e s] u] evs].
Qed.

(** The counters are C longs, held here in [Z]: each line adds at most
    one to one of them, so on a stream of fewer than LONG_MAX lines no
    increment overflows. *)
Lemma probe_counters line s :
  ok_count (snd (kyua_tap_try_parse_plan line s)) = ok_count s /\
  not_ok_count (snd (kyua_tap_try_parse_plan line s)) = not_ok_count s.
Proof.
  open_probe. destruct (regexec plan_reg line 4) as [code m].
  cbv zeta. split_ifs; cbn; auto.
Qed.

Lemma classify_counters line s :
  let s' := snd (classify line s) in
  (ok_count s <= ok_count s')%Z /\ (not_ok_count s <= not_ok_count s')%Z /\
  (ok_count s' + not_ok_count s' <= ok_count s + not_ok_count s + 1)%Z.
Proof.
  cbv zeta. destruct (probe_counters line s) as [Hok Hnot].
  destruct (classify_cases line s) as [H|[H|[H|H]]]; rewrite H;
    cbn [ok_count not_ok_count with_bail_out incr_ok_count
         incr_not_ok_count];
    rewrite ?Hok, ?Hnot; lia.
Qed.

Lemma loop_counters input : forall e s,
  let s' := snd (fst (fst (loop input e s))) in
  (ok_count s <= ok_count s')%Z /\ (not_ok_count s <= not_ok_count s')%Z /\
  (ok_count s' + not_ok_count s'
   <= ok_count s + not_ok_count s + Z.of_nat (List.length input))%Z.
Proof.
  induction input as [|line rest IH]; intros e s; cbv zeta.
  - rewrite loop_nil. simpl. lia.
  - destruct (reading e s) eqn:R.
    + destruct (String.eqb_spec line "") as [->|Hne].
      * rewrite loop_empty_line by assumption. simpl fst. simpl snd.
        cbn [List.length]. lia.
      * rewrite loop_cons by assumption.
        specialize (IH kyua_error_ok (snd (classify line s))).
        pose proof (classify_counters line s) as Hc. cbv zeta in IH, Hc.
        destruct (loop rest _ _) as [[[e2 s2] u] evs].
        cbn [fst snd List.length] in *. lia.
    + rewrite loop_stop by assumption. cbn [fst snd List.length]. lia.
Qed.

Lemma counters_bounded lines :
  (0 <= ok_count (loop_end lines))%Z /\
  (0 <= not_ok_count (loop_end lines))%Z /\
  (ok_count (loop_end lines) + not_ok_count (loop_end lines)
   <= Z.of_nat (List.length lines))%Z.
Proof.
  pose proof (loop_counters lines kyua_error_ok kyua_tap_summary_new) as H.
  cbv zeta in H. unfold loop_end. simpl in H. lia.
Qed.

(** ** The reader and the stream *)

Lemma take_line_spec room : forall s,
  let '(line, rest, whole) := take_line room s in
  s = line ++ rest /\ String.length line <= room /\
  (whole = false -> rest = "") /\
  (whole = true -> 0 < room -> line <> "").
Proof.
  induction room as [|room IH]; intros s.
  - simpl. repeat split; intros; try congruence; lia.
  - destruct s as [|c s]; cbn [take_line].
    + repeat split; intros; try congruence; simpl; lia.
    + destruct (Ascii.eqb c (ascii_of_nat 10)).
      * simpl. repeat split; intros; try congruence; lia.
      * specialize (IH s). destruct (take_line room s) as [[line rest] whole].
        destruct IH as (-> & Hlen & Hrest & _).
        simpl. repeat split; intros; auto; try congruence; lia.
Qed.

Lemma c_str_length buffer : String.length (c_str buffer) <= String.length buffer.
Proof.
  induction buffer as [|c b IH]; simpl; [lia|].
  destruct (Ascii.eqb c zero); simpl; lia.
Qed.

Lemma chomp_length s : String.length (chomp s) <= String.length s.
Proof.
  induction s as [|c s IH]; [simpl; lia|].
  destruct s as [|c' s']; [simpl; destruct (Ascii.eqb _ _); simpl; lia|].
  change (chomp (String c (String c' s')))
    with (String c (chomp (String c' s'))).
  simpl in *. lia.
Qed.

(** A read that hands over a string takes at least one byte off the front
    of the stream and hands over at most 1023 bytes. *)
Lemma reader_some input line input' :
  kyua_text_fgets_no_newline 1024 input = (Some line, input') ->
  String.length (pending input') < String.length (pending input) /\
  (exists taken, pending input = taken ++ pending input') /\
  String.length line <= 1023 /\ closing input' = closing input.
Proof.
  unfold kyua_text_fgets_no_newline, fgets.
  change (1024 - 1) with 1023.
  pose proof (take_line_spec 1023 (pending input)) as H.
  destruct (take_line 1023 (pending input)) as [[buffer rest] whole].
  destruct H as (Hs & Hlen & Hrest & Hne).
  assert (Hl : String.length (chomp (c_str buffer)) <= 1023).
  { pose proof (chomp_length (c_str buffer)).
    pose proof (c_str_length buffer). lia. }
  destruct whole.
  - cbn. intros E. inversion E; subst line input'. cbn [pending closing].
    specialize (Hne eq_refl ltac:(lia)).
    rewrite Hs, length_app.
    destruct buffer as [|c b]; [congruence|]. simpl.
    repeat split; [lia | exists (String c b); reflexivity | exact Hl].
  - rewrite (Hrest eq_refl) in Hs.
    destruct (closing input) eqn:Hc; [|cbn; discriminate].
    destruct (String.eqb_spec buffer "") as [->|Hb]; [cbn; discriminate|].
    cbn. intros E. inversion E; subst line input'. cbn [pending closing].
    rewrite Hs, length_app.
    destruct buffer as [|c b]; [congruence|]. simpl.
    repeat split; [lia | exists (String c b); reflexivity | exact Hl].
Qed.

(** After the read that returns NULL nothing is left to read. *)
Lemma reader_none input input' :
  kyua_text_fgets_no_newline 1024 input = (None, input') ->
  pending input' = "".
Proof.
  unfold kyua_text_fgets_no_newline, fgets.
  destruct (take_line (1024 - 1) (pending input)) as [[buffer rest] whole].
  destruct whole; [cbn; discriminate|].
  destruct (closing input).
  - destruct (String.eqb buffer ""); cbn; [|discriminate].
    intros E. now inversion E.
  - cbn. intros E. now inversion E.
Qed.

Lemma reader_at_end input :
  pending input = "" -> fst (kyua_text_fgets_no_newline 1024 input) = None.
Proof.
  unfold kyua_text_fgets_no_newline, fgets. intros ->.
  change (take_line (1024 - 1) "") with ("", "", false).
  cbv iota beta. now destruct (closing input).
Qed.

Lemma handed_aux_fuel fuel1 : forall fuel2 input,
  String.length (pending input) < fuel1 ->
  String.length (pending input) < fuel2 ->
  handed_aux fuel1 input = handed_aux fuel2 input.
Proof.
  induction fuel1 as [|fuel1 IH]; intros fuel2 input H1 H2; [lia|].
  destruct fuel2 as [|fuel2]; [lia|]. cbn [handed_aux].
  destruct (kyua_text_fgets_no_newline 1024 input) as [[line|] input'] eqn:E;
    [|reflexivity].
  destruct (reader_some _ _ _ E) as (Hlt & _).
  f_equal. apply IH; lia.
Qed.

(** The strings handed over, one read at a time. *)
Lemma handed_eq input :
  handed input =
  match kyua_text_fgets_no_newline 1024 input with
  | (None, _) => []
  | (Some line, input') => line :: handed input'
  end.
Proof.
  unfold handed at 1. cbn [handed_aux].
  destruct (kyua_text_fgets_no_newline 1024 input) as [[line|] input'] eqn:E;
    [|reflexivity].
  destruct (reader_some _ _ _ E) as (Hlt & _).
  f_equal. apply handed_aux_fuel; lia.
Qed.

Lemma handed_at_end input : pending input = "" -> handed input = [].
Proof.
  intros H. rewrite handed_eq. pose proof (reader_at_end input H) as E.
  destruct (kyua_text_fgets_no_newline 1024 input) as [[line|] input'];
    [discriminate | reflexivity].
Qed.

(** Every string handed over costs the stream at least one byte, and none
    is longer than 1023 bytes. *)
Lemma handed_aux_bounds fuel : forall input,
  List.length (handed_aux fuel input) <= String.length (pending input) /\
  Forall (fun l => String.length l <= 1023) (handed_aux fuel input).
Proof.
  induction fuel as [|fuel IH]; intros input; cbn [handed_aux].
  - split; [simpl; lia | constructor].
  - destruct (kyua_text_fgets_no_newline 1024 input) as [[line|] input'] eqn:E;
      [|split; [simpl; lia | constructor]].
    destruct (reader_some _ _ _ E) as (Hlt & _ & Hl & _).
    destruct (IH input') as [Hn Hall].
    split; [simpl; lia | constructor; assumption].
Qed.

Lemma handed_bounds input :
  List.length (handed input) <= String.length (pending input) /\
  Forall (fun l => String.length l <= 1023) (handed input).
Proof. apply handed_aux_bounds. Qed.

(** The loop on a stream is the loop on the strings the reader makes of
    the stream, whatever fuel above the length of the stream it is given;
    what it leaves of the stream is the end of the stream. *)
Lemma tap_loop_handed fuel : forall input e s,
  String.length (pending input) < fuel ->
  let '(e1, s1, input1, ev1) :=
    tap_loop fuel simple_test_reg test_reg input e s in
  let '(e2, s2, u, ev2) := loop (handed input) e s in
  e1 = e2 /\ s1 = s2 /\ ev1 = ev2 /\ handed input1 = u /\
  exists taken, pending input = taken ++ pending input1.
Proof.
  induction fuel as [|fuel IH]; intros input e s Hfuel; [lia|].
  cbn [tap_loop].
  destruct (kyua_error_is_set e || negb (is_null (parse_error s))
            || bail_out s) eqn:C;
    [assert (R : reading e s = false) by (unfold reading; now rewrite C)
    |assert (R : reading e s = true) by (unfold reading; now rewrite C)].
  2: { rewrite handed_eq.
    destruct (kyua_text_fgets_no_newline 1024 input) as [[line|] input'] eqn:E.
    + destruct (reader_some _ _ _ E) as (Hlt & (taken & Ht) & _).
      destruct (String.eqb_spec line "") as [->|Hne].
      * rewrite loop_empty_line by assumption.
        repeat split; auto. now exists taken.
      * rewrite loop_cons by assumption.
        fold (classify line s). rewrite (classify_eq line s).
        specialize (IH input' kyua_error_ok (snd (classify line s))
                      ltac:(lia)).
        destruct (tap_loop fuel simple_test_reg test_reg input' _ _)
          as [[[e1 s1] input1] ev1].
        destruct (loop (handed input') _ _) as [[[e2 s2] u] ev2].
        destruct IH as (-> & -> & -> & Hu & (taken' & Ht')).
        repeat split; auto.
        exists (taken ++ taken'). rewrite Ht, Ht'.
        now rewrite <- append_assoc.
    + rewrite loop_nil. pose proof (reader_none _ _ E) as Hp.
      repeat split; auto; [now apply handed_at_end|].
      exists (pending input). rewrite Hp. now rewrite append_nil_r. }
  rewrite loop_stop by assumption.
  repeat split; auto. now exists "".
Qed.

(** The call on a stream is the call on the strings the reader makes of
    it. *)
Lemma kyua_tap_parse_handed input s0 :
  let r := kyua_tap_parse (readable input) s0 in
  let r' := parse_lines (handed input) in
  ret r = ret r' /\ summary_out r = summary_out r' /\
  events r = events r' /\ handed (unread r) = unread r' /\
  exists taken, pending input = taken ++ pending (unread r).
Proof.
  cbv zeta. unfold kyua_tap_parse, fdopen, parse_lines.
  rewrite regcomp_simple_test, regcomp_test. cbv iota beta.
  change (negb (0 =? 0)%Z) with false. cbv iota.
  pose proof (tap_loop_handed (S (String.length (pending input))) input
                kyua_error_ok kyua_tap_summary_new ltac:(lia)) as H.
  destruct (tap_loop _ _ _ input _ _) as [[[e1 s1] input1] ev1].
  destruct (loop (handed input) _ _) as [[[e2 s2] u] ev2].
  destruct H as (-> & -> & -> & Hu & Ht). cbn. auto.
Qed.

(** A line that fits the buffer with its newline is handed over whole and
    without the newline. *)
Lemma take_line_whole line : forall room rest,
  String.length line < room ->
  forallb text_byte (chars line) = true ->
  take_line room (line ++ NL ++ rest) = (line ++ NL, rest, true).
Proof.
  induction line as [|c line IH]; intros room rest Hlen Hall.
  - destruct room as [|room]; [simpl in Hlen; lia|]. reflexivity.
  - destruct room as [|room]; [simpl in Hlen; lia|].
    simpl in Hall. apply andb_true_iff in Hall. destruct Hall as [Hc Hall].
    unfold text_byte in Hc. apply andb_true_iff in Hc.
    destruct Hc as [Hc _]. apply negb_true_iff in Hc.
    change (take_line (S room) (String c line ++ NL ++ rest))
      with (if Ascii.eqb c (ascii_of_nat 10)
            then (String c EmptyString, line ++ NL ++ rest, true)
            else let '(l, r, w) := take_line room (line ++ NL ++ rest) in
                 (String c l, r, w)).
    rewrite Hc. rewrite IH by (simpl in Hlen; try lia; assumption).
    reflexivity.
Qed.

Lemma c_str_text line :
  forallb text_byte (chars line) = true -> c_str (line ++ NL) = line ++ NL.
Proof.
  induction line as [|c line IH]; intros Hall; [reflexivity|].
  simpl in Hall. apply andb_true_iff in Hall. destruct Hall as [Hc Hall].
  unfold text_byte in Hc. apply andb_true_iff in Hc.
  destruct Hc as [_ Hc]. apply negb_true_iff in Hc.
  simpl. rewrite Hc. now rewrite IH.
Qed.

Lemma chomp_NL line : chomp (line ++ NL) = line.
Proof.
  induction line as [|c line IH]; [reflexivity|].
  change (String c line ++ NL) with (String c (line ++ NL)).
  destruct (line ++ NL) as [|c' t] eqn:E.
  - destruct line; discriminate.
  - change (chomp (String c (String c' t)))
      with (String c (chomp (String c' t))).
    now rewrite IH.
Qed.

Lemma reader_whole line lines ending :
  fits_buffer line = true ->
  kyua_text_fgets_no_newline 1024 (stream (line :: lines) ending)
  = (Some line, stream lines ending).
Proof.
  unfold fits_buffer. intros H. apply andb_true_iff in H.
  destruct H as [Hlen Hall]. apply Nat.ltb_lt in Hlen.
  unfold kyua_text_fgets_no_newline, fgets, stream.
  cbn [pending closing unlines]. change (1024 - 1) with 1023.
  rewrite take_line_whole by assumption. cbv iota beta.
  cbn [option_map]. rewrite c_str_text by assumption.
  now rewrite chomp_NL.
Qed.

(** Of a stream of lines that fit the buffer the reader hands over the
    lines. *)
Lemma handed_stream lines ending :
  Forall (fun l => fits_buffer l = true) lines ->
  handed (stream lines ending) = lines.
Proof.
  induction lines as [|line lines IH]; intros Hall.
  - now apply handed_at_end.
  - inversion Hall as [|? ? Hl Hrest]; subst.
    rewrite handed_eq, reader_whole by assumption.
    now rewrite IH.
Qed.

(** So the call on a stream of lines that fit the buffer is the call on
    those lines, however the stream ends. *)
Lemma kyua_tap_parse_stream lines ending s0 :
  Forall (fun l => fits_buffer l = true) lines ->
  let r := kyua_tap_parse (readable (stream lines ending)) s0 in
  let r' := parse_lines lines in
  ret r = ret r' /\ summary_out r = summary_out r' /\
  events r = events r' /\ handed (unread r) = unread r'.
Proof.
  intros Hfit. cbv zeta.
  destruct (kyua_tap_parse_handed (stream lines ending) s0)
    as (H1 & H2 & H3 & H4 & _).
  rewrite handed_stream in * by exact Hfit. auto.
Qed.

(** ** Sample runs *)

Example plan_with_directive :
  regexec plan_reg "1..5 # SKIP foo" 4
  = (0%Z, [ {| rm_so := 0; rm_eo := 15 |}; {| rm_so := 0; rm_eo := 1 |};
            {| rm_so := 3; rm_eo := 4 |}; {| rm_so := 4; rm_eo := 15 |} ]).
Proof. vm_compute. reflexivity. Qed.

Example result_with_directive :
  regexec test_reg "not ok 1 # TODO known issue" 5
  = (0%Z, [ {| rm_so := 0; rm_eo := 27 |}; {| rm_so := 0; rm_eo := 4 |};
            {| rm_so := 7; rm_eo := 8 |}; {| rm_so := 8; rm_eo := 9 |};
            {| rm_so := 9; rm_eo := 27 |} ]).
Proof. vm_compute. reflexivity. Qed.

Example simple_needs_blank_after_number :
  fst (regexec simple_test_reg "ok 12" 3) = REG_NOMATCH /\
  fst (regexec simple_test_reg "ok 12 " 3) = 0%Z /\
  fst (regexec simple_test_reg "ok 12 # SKIP" 3) = REG_NOMATCH.
Proof. vm_compute. repeat split. Qed.

(** A run with diagnostics between the results and the plan in the
    middle. *)
Example mixed_run :
  summary_out
    (parse_lines
       [ "garbage line"; "not ok - 1 This test failed";
         "ok - 2 This test passed"; "not ok - 3 This test failed"; "1..5";
         "ok - 4 This test passed"; "not ok - 5 This test failed";
         "garbage line" ])
  = {| parse_error := None; bail_out := false;
       first_index := 1; last_index := 5;
       ok_count := 2; not_ok_count := 3; skipped_all := false |}.
Proof. vm_compute. reflexivity. Qed.

Example short_run :
  parse_error (summary_out (parse_lines ["1..3"; "ok 1"; "ok 2"]))
  = Some MSG_MISMATCH.
Proof. vm_compute. reflexivity. Qed.

(** The largest plan bound: LONG_MAX itself is refused. *)
Example largest_plan_bound :
  first_index (loop_end ["1..9223372036854775806"]) = 1%Z /\
  last_index (loop_end ["1..9223372036854775806"]) = (LONG_MAX - 1)%Z /\
  parse_error (loop_end ["1..9223372036854775807"]) = Some MSG_OUT_OF_RANGE.
Proof. vm_compute. repeat split. Qed.

(** The same run as [mixed_run], read from the bytes of the stream. *)
Example mixed_run_stream :
  summary_out
    (kyua_tap_parse
       (readable
          (stream
             [ "garbage line"; "not ok - 1 This test failed";
               "ok - 2 This test passed"; "not ok - 3 This test failed";
               "1..5"; "ok - 4 This test passed";
               "not ok - 5 This test failed"; "garbage line" ]
             end_of_file))
       kyua_tap_summary_new)
  = {| parse_error := None; bail_out := false;
       first_index := 1; last_index := 5;
       ok_count := 2; not_ok_count := 3; skipped_all := false |}.
Proof. vm_compute. reflexivity. Qed.

(** A last line without a newline is handed over at the end of the file,
    and lost when the stream ends with a read failure. *)
Example last_line_without_newline :
  let bytes := "1..1" ++ NL ++ "ok 1" in
  let at_end :=
    kyua_tap_parse (readable {| pending := bytes; closing := end_of_file |})
      kyua_tap_summary_new in
  let failed :=
    kyua_tap_parse (readable {| pending := bytes; closing := read_failure |})
      kyua_tap_summary_new in
  ok_count (summary_out at_end) = 1%Z /\
  parse_error (summary_out at_end) = None /\
  ok_count (summary_out failed) = 0%Z /\
  parse_error (summary_out failed) = Some MSG_MISMATCH /\
  ret failed = kyua_error_ok.
Proof. vm_compute. repeat split. Qed.

(** A descriptor that cannot be opened. *)
Example bad_descriptor s0 :
  ret (kyua_tap_parse bad_fd s0) = libc_error "fdopen(3) failed" /\
  summary_out (kyua_tap_parse bad_fd s0) = s0.
Proof. split; reflexivity. Qed.

(** * The claims *)

(** C3 (defect in the code).  The plan probe records "Test plan is
    reversed" for the stream "5..1", but it leaves the plan unset, and the
    check after the loop then overwrites the recorded reason with "No plan
    found in TAP output": the reason set first does not survive the run. *)
Theorem reversed_plan_reason_overwritten :
  parse_error (snd (kyua_tap_try_parse_plan "5..1" kyua_tap_summary_new))
  = Some MSG_REVERSED /\
  parse_error (loop_end ["5..1"]) = Some MSG_REVERSED /\
  parse_error (summary_out (parse_lines ["5..1"])) = Some MSG_NO_PLAN.
Proof. vm_compute. repeat split. Qed.

(** C8.  Once a plan is accepted, the probe answers every further line
    that matches the plan grammar with "Output includes two test plans" and
    leaves the plan bounds as they are; the stream "1..3", "1..3" ends with
    that reason. *)
Theorem second_plan_rejected :
  (forall line s m,
     first_index s <> (-1)%Z ->
     regexec plan_reg line 4 = (0%Z, m) ->
     let s' := snd (kyua_tap_try_parse_plan line s) in
     parse_error s' = Some MSG_TWO_PLANS /\
     first_index s' = first_index s /\ last_index s' = last_index s) /\
  parse_error (summary_out (parse_lines ["1..3"; "1..3"]))
  = Some MSG_TWO_PLANS.
Proof.
  split; [|vm_compute; reflexivity].
  intros line s m Hplan Hm. open_probe. rewrite Hm.
  change (negb (0 =? 0)%Z) with false. cbv iota.
  apply Z.eqb_neq in Hplan. rewrite Hplan. simpl. auto.
Qed.

Lemma second_plan_rejected_witness :
  let s := with_plan 1 3 kyua_tap_summary_new in
  let s' := snd (kyua_tap_try_parse_plan "1..3" s) in
  parse_error s' = Some MSG_TWO_PLANS /\
  first_index s' = 1%Z /\ last_index s' = 3%Z.
Proof.
  refine (proj1 second_plan_rejected "1..3"
            (with_plan 1 3 kyua_tap_summary_new)
            (snd (regexec plan_reg "1..3" 4)) _ _).
  - simpl. lia.
  - vm_compute. reflexivity.
Defined.

(** C10.  An empty line ends the loop the way the end of the stream does:
    the run over [pre], an empty line and [post] returns the same error and
    summary and writes and classifies the same lines as the run over [pre]
    alone; the empty line is neither echoed nor classified; nothing of
    [post] is read; and where the loop gets as far as the empty line, that
    line is the last one read. *)
Theorem empty_line_ends_loop pre post :
  let r := parse_lines (pre ++ "" :: post)%list in
  let r0 := parse_lines pre in
  ret r = ret r0 /\ summary_out r = summary_out r0 /\
  writes (events r) = writes (events r0) /\
  classified (events r) = classified (events r0) /\
  ~ In "" (classified (events r)) /\ ~ In NL (writes (events r)) /\
  (exists q, unread r = (q ++ post)%list) /\
  (Forall (fun l => l <> "") pre ->
   reading (ret r0) (loop_end pre) = true ->
   unread r = post /\ events r = (events r0 ++ [ev_read ""])%list).
Proof.
  cbv zeta. rewrite !parse_lines_eq. unfold loop_end.
  pose proof (loop_empty_as_eof pre post kyua_error_ok kyua_tap_summary_new)
    as H.
  pose proof (loop_shape (pre ++ "" :: post)%list kyua_error_ok
                kyua_tap_summary_new) as (done & Hdone & Hs).
  destruct (loop (pre ++ "" :: post)%list _ _) as [[[e1 s1] u1] ev1].
  destruct (loop pre _ _) as [[[e0 s0] u0] ev0].
  destruct H as (-> & -> & Hw & Hc & Hq & Hr). simpl.
  assert (Hcl : classified ev1 = done).
  { destruct Hs as [[_ ->]|[_ ->]];
      rewrite ?classified_app, classified_echoed; simpl;
      rewrite ?app_nil_r; reflexivity. }
  assert (Hwr : writes ev1 = map (fun l => l ++ NL) done).
  { destruct Hs as [[_ ->]|[_ ->]];
      rewrite ?writes_app, writes_echoed; simpl;
      rewrite ?app_nil_r; reflexivity. }
  repeat split; auto.
  - rewrite Hcl. intros Hin. rewrite Forall_forall in Hdone.
    exact (Hdone "" Hin eq_refl).
  - rewrite Hwr. intros Hin. apply in_map_iff in Hin.
    destruct Hin as (l & Hl & Hin). rewrite Forall_forall in Hdone.
    apply (Hdone l Hin). apply append_NL_inv. exact Hl.
  - apply Hr; assumption.
  - apply Hr; assumption.
Qed.

Lemma empty_line_ends_loop_witness :
  let r := parse_lines (["1..2"; "ok 1"] ++ "" :: ["ok 2"])%list in
  unread r = ["ok 2"] /\
  events r = (events (parse_lines ["1..2"; "ok 1"]) ++ [ev_read ""])%list.
Proof.
  refine (proj2 (proj2 (proj2 (proj2 (proj2 (proj2 (proj2
            (empty_line_ends_loop ["1..2"; "ok 1"] ["ok 2"]))))))) _ _).
  - repeat constructor; discriminate.
  - vm_compute. reflexivity.
Defined.


Lemma unlines_app a b : unlines (a ++ b)%list = unlines a ++ unlines b.
Proof.
  induction a as [|l a IH]; simpl; [reflexivity|].
  rewrite IH. now rewrite !append_assoc.
Qed.


(** A line longer than the buffer is not echoed verbatim: of a line of
    1024 bytes the first 1023 are written with a newline of their own, and
    the last byte on a line by itself. *)
Lemma long_line_echoed_in_pieces :
  let long := "ok 1 " ++ filler "x" 1019 in
  let r :=
    kyua_tap_parse (readable (stream ["1..1"; long] end_of_file))
      kyua_tap_summary_new in
  String.length long = 1024 /\
  writes (events r)
  = ["1..1" ++ NL; ("ok 1 " ++ filler "x" 1018) ++ NL; "x" ++ NL] /\
  sink (events r) <> unlines ["1..1"; long].
Proof. vm_compute. repeat split. discriminate. Qed.



(** A bail-out line sets [bail_out] and nothing else. *)
Lemma prefix_bail line :
  prefix "Bail out!" line = true -> exists rest, line = String "B" rest.
Proof.
  destruct line as [|a rest]; [discriminate|].
  change (prefix "Bail out!" (String a rest))
    with (if ascii_dec "B" a then prefix "ail out!" rest else false).
  destruct (ascii_dec "B" a) as [<-|]; [|discriminate].
  intros _. now exists rest.
Qed.

Lemma strstr_prefix hay needle :
  prefix needle hay = true -> strstr hay needle = Some 0.
Proof. intros H. destruct hay; cbn [strstr]; now rewrite H. Qed.

Lemma classify_bail line s :
  prefix "Bail out!" line = true ->
  classify line s = (kyua_error_ok, with_bail_out true s).
Proof.
  intros H. unfold classify, classify_line.
  destruct (prefix_bail line H) as (rest & ->).
  rewrite try_parse_plan_nomatch
    by (unfold plan_ast; rewrite search_bol; reflexivity).
  cbn [kyua_error_is_set]. rewrite (strstr_prefix _ _ H). reflexivity.
Qed.

(** C7.  When the loop, having gone through [pre], reads a line that begins
    with "Bail out!", it sets [bail_out] and stops: the counters and the
    plan bounds stay as [pre] left them, no line of [post] is read or
    classified, and the check after the loop does not record a count
    mismatch. *)
Theorem bail_out_stops_classification pre line post :
  prefix "Bail out!" line = true ->
  Forall (fun l => l <> "") pre ->
  parse_error (loop_end pre) = None ->
  bail_out (loop_end pre) = false ->
  let r := parse_lines (pre ++ line :: post)%list in
  let s0 := loop_end pre in
  ret r = kyua_error_ok /\
  bail_out (summary_out r) = true /\
  ok_count (summary_out r) = ok_count s0 /\
  not_ok_count (summary_out r) = not_ok_count s0 /\
  first_index (summary_out r) = first_index s0 /\
  last_index (summary_out r) = last_index s0 /\
  unread r = post /\
  classified (events r) = (pre ++ [line])%list /\
  parse_error (summary_out r) <> Some MSG_MISMATCH.
Proof.
  intros Hbail Hpre Herr Hb. cbv zeta. rewrite parse_lines_eq.
  unfold loop_end in *.
  pose proof (loop_ret pre kyua_error_ok kyua_tap_summary_new eq_refl) as He.
  pose proof (loop_shape pre kyua_error_ok kyua_tap_summary_new)
    as (done & _ & Hshape).
  destruct (loop pre kyua_error_ok kyua_tap_summary_new)
    as [[[e1 s1] u1] ev1] eqn:E.
  simpl in He, Herr, Hb. subst e1.
  assert (R : reading kyua_error_ok s1 = true).
  { unfold reading. rewrite Herr, Hb. reflexivity. }
  destruct (loop_app pre (line :: post) _ _ _ _ _ _ Hpre E R) as [-> ->].
  assert (Hline : line <> "").
  { destruct (prefix_bail line Hbail) as (rest & ->). discriminate. }
  rewrite loop_cons by assumption.
  rewrite (classify_bail line s1 Hbail). cbn [snd].
  rewrite loop_stop by (unfold reading; simpl; now rewrite orb_true_r).
  cbn [ret summary_out unread events fst snd].
  assert (Hcl : classified ev1 = pre).
  { destruct Hshape as [[Hin ->]|[Hin ->]].
    - rewrite app_nil_r in Hin. subst done. apply classified_echoed.
    - exfalso. rewrite Forall_forall in Hpre.
      apply (Hpre ""); [|reflexivity]. rewrite Hin.
      apply in_or_app. right. left. reflexivity. }
  rewrite classified_app, Hcl. simpl.
  unfold check_plan. cbn [first_index parse_error bail_out with_bail_out].
  rewrite Herr.
  destruct (first_index s1 =? -1)%Z; simpl; rewrite ?Herr;
    repeat split; auto; unfold MSG_NO_PLAN, MSG_MISMATCH; discriminate.
Qed.

Lemma bail_out_stops_classification_witness :
  let r := parse_lines ["1..5"; "ok 1"; "Bail out! crashed"; "ok 2"] in
  bail_out (summary_out r) = true /\
  ok_count (summary_out r) = 1%Z /\
  unread r = ["ok 2"] /\
  classified (events r) = ["1..5"; "ok 1"; "Bail out! crashed"] /\
  parse_error (summary_out r) <> Some MSG_MISMATCH.
Proof.
  assert (H1 : prefix "Bail out!" "Bail out! crashed" = true)
    by reflexivity.
  assert (H2 : Forall (fun l => l <> "") ["1..5"; "ok 1"])
    by (repeat constructor; discriminate).
  assert (H3 : parse_error (loop_end ["1..5"; "ok 1"]) = None)
    by (vm_compute; reflexivity).
  assert (H4 : bail_out (loop_end ["1..5"; "ok 1"]) = false)
    by (vm_compute; reflexivity).
  pose proof (bail_out_stops_classification
                ["1..5"; "ok 1"] "Bail out! crashed" ["ok 2"] H1 H2 H3 H4)
    as (_ & Hb & Hok & _ & _ & _ & Hu & Hc & Hm).
  repeat split; assumption.
Defined.

(** C9.  On a line that matches the plan grammar, [regex_match_too_long]
    answers a number longer than 63 characters with "Plan line too long"
    and a shorter one whose value is beyond LONG_MAX with "Plan line
    includes out of range numbers", for the first number and for the
    second.  With no plan accepted yet the probe records that answer: for
    the first number, and with the first number accepted for the second.
    Whenever either number is refused the plan bounds stay as they were,
    and whenever the bounds change they are the two numbers as written,
    never a wrapped or cut value. *)
Theorem plan_numbers_checked line s m :
  regexec plan_reg line 4 = (0%Z, m) ->
  first_index s = (-1)%Z ->
  let d1 := match_text line (sub m 1) in
  let d2 := match_text line (sub m 2) in
  let s' := snd (kyua_tap_try_parse_plan line s) in
  (forall i, i = 1 \/ i = 2 ->
     let d := match_text line (sub m i) in
     (63 < String.length d ->
      regex_match_too_long line (sub m i) = inl MSG_TOO_LONG) /\
     (String.length d <= 63 -> (LONG_MAX < decimal_value d)%Z ->
      regex_match_too_long line (sub m i) = inl MSG_OUT_OF_RANGE)) /\
  (63 < String.length d1 -> parse_error s' = Some MSG_TOO_LONG) /\
  (String.length d1 <= 63 -> (LONG_MAX < decimal_value d1)%Z ->
   parse_error s' = Some MSG_OUT_OF_RANGE) /\
  (number_ok d1 -> 63 < String.length d2 ->
   parse_error s' = Some MSG_TOO_LONG) /\
  (number_ok d1 -> String.length d2 <= 63 ->
   (LONG_MAX < decimal_value d2)%Z ->
   parse_error s' = Some MSG_OUT_OF_RANGE) /\
  (~ number_ok d1 \/ ~ number_ok d2 ->
   first_index s' = first_index s /\ last_index s' = last_index s) /\
  (first_index s' <> first_index s \/ last_index s' <> last_index s ->
   first_index s' = decimal_value d1 /\ last_index s' = decimal_value d2).
Proof.
  intros Hm Hfirst. cbv zeta.
  destruct (plan_match_shape line m Hm)
    as (d1 & d2 & Hd1 & Hd2 & Ht1 & Ht2 & Hl1 & Hl2).
  split.
  { intros i [->| ->];
      [ rewrite (regex_match_too_long_number line (sub m 1) d1 Ht1 Hd1 Hl1),
          Ht1
      | rewrite (regex_match_too_long_number line (sub m 2) d2 Ht2 Hd2 Hl2),
          Ht2 ];
      (split;
       [ intros H; apply Nat.ltb_lt in H; now rewrite H
       | intros H1 H2; apply Nat.ltb_ge in H1; rewrite H1;
         replace (LONG_MAX <=? _)%Z with true
           by (symmetry; apply Z.leb_le; lia);
         reflexivity ]). }
  open_probe. rewrite Hm. change (negb (0 =? 0)%Z) with false. cbv iota.
  rewrite Hfirst. change (negb (-1 =? -1)%Z) with false. cbv iota.
  rewrite (regex_match_too_long_number line (sub m 1) d1 Ht1 Hd1 Hl1).
  rewrite (regex_match_too_long_number line (sub m 2) d2 Ht2 Hd2 Hl2).
  rewrite Ht1, Ht2. unfold number_ok.
  destruct (Nat.ltb_spec 63 (String.length d1)) as [L1|L1];
    [cbn; repeat split; intros; try lia; tauto|].
  destruct (Z.leb_spec LONG_MAX (decimal_value d1)) as [V1|V1];
    [cbn; repeat split; intros; try lia; tauto|].
  destruct (Nat.ltb_spec 63 (String.length d2)) as [L2|L2];
    [cbn; repeat split; intros; try lia; tauto|].
  destruct (Z.leb_spec LONG_MAX (decimal_value d2)) as [V2|V2];
    [cbn; repeat split; intros; try lia; tauto|].
  split_ifs; cbn; repeat split; intros; try lia; tauto.
Qed.

Lemma plan_numbers_checked_witness :
  let beyond := "9223372036854775808..1" in
  let long :=
    "0000000000000000000000000000000000000000000000000000000000000001..1" in
  (parse_error (snd (kyua_tap_try_parse_plan beyond kyua_tap_summary_new))
   = Some MSG_OUT_OF_RANGE /\
   first_index (snd (kyua_tap_try_parse_plan beyond kyua_tap_summary_new))
   = (-1)%Z) /\
  parse_error (snd (kyua_tap_try_parse_plan long kyua_tap_summary_new))
  = Some MSG_TOO_LONG.
Proof.
  cbv zeta. split.
  - assert (Hm : regexec plan_reg "9223372036854775808..1" 4
                 = (0%Z, snd (regexec plan_reg "9223372036854775808..1" 4)))
      by (vm_compute; reflexivity).
    pose proof (plan_numbers_checked "9223372036854775808..1"
                  kyua_tap_summary_new _ Hm eq_refl)
      as (_ & _ & Hrange & _ & _ & Hkeep & _).
    split.
    + apply Hrange; [vm_compute; lia | vm_compute; reflexivity].
    + apply Hkeep. left. intros [_ H]. vm_compute in H. discriminate.
  - match goal with
    | |- parse_error (snd (kyua_tap_try_parse_plan ?l _)) = _ =>
        assert (Hm : regexec plan_reg l 4 = (0%Z, snd (regexec plan_reg l 4)))
          by (vm_compute; reflexivity);
        pose proof (plan_numbers_checked l kyua_tap_summary_new _ Hm eq_refl)
          as (_ & Hlong & _)
    end.
    apply Hlong. vm_compute. lia.
Defined.

(** C4, as stated, fails: the check after the loop never looks at
    [skipped_all].  The stream "1..5 # SKIP no tests" ends the loop with
    [skipped_all] set and the run with the count mismatch recorded. *)
Lemma skip_plan_count_checked_counterexample :
  skipped_all (loop_end ["1..5 # SKIP no tests"]) = true /\
  parse_error (summary_out (parse_lines ["1..5 # SKIP no tests"]))
  = Some MSG_MISMATCH.
Proof. vm_compute. split; reflexivity. Qed.

(** C4, amended.  A run that ends the loop with [skipped_all] set, no
    reason recorded and no bail-out is still put through the count check:
    it ends without a reason when the plan range has as many entries as
    result lines were counted, and with "Reported plan differs from actual
    executed tests" otherwise.  The stream "1..0 # SKIP no tests" ends with
    [skipped_all] set and no reason, its empty range agreeing with its zero
    results. *)
Theorem skip_plan_count_checked :
  (forall lines,
     let s := loop_end lines in
     skipped_all s = true -> parse_error s = None -> bail_out s = false ->
     parse_error (summary_out (parse_lines lines)) =
     if (last_index s - first_index s + 1 =? ok_count s + not_ok_count s)%Z
     then None else Some MSG_MISMATCH) /\
  (skipped_all (summary_out (parse_lines ["1..0 # SKIP no tests"])) = true /\
   parse_error (summary_out (parse_lines ["1..0 # SKIP no tests"])) = None).
Proof.
  split; [|vm_compute; split; reflexivity].
  intros lines s Hskip Herr Hbail. rewrite summary_out_eq.
  pose proof (loop_end_skip_has_plan lines Hskip) as Hplan.
  subst s. set (s := loop_end lines) in *.
  unfold check_plan. apply Z.eqb_neq in Hplan. rewrite Hplan, Herr, Hbail.
  cbn [is_null negb andb].
  destruct (Z.eqb_spec (last_index s - first_index s + 1)
              (ok_count s + not_ok_count s));
    cbn; [exact Herr | reflexivity].
Qed.

Lemma skip_plan_count_checked_witness :
  parse_error (summary_out (parse_lines ["1..5 # SKIP no tests"]))
  = Some MSG_MISMATCH.
Proof.
  refine (proj1 skip_plan_count_checked ["1..5 # SKIP no tests"] _ _ _);
    vm_compute; reflexivity.
Defined.

(** C5.  A line that matches the general grammar with the "not " marker
    and a non-empty fourth capture that contains SKIP or TODO, in any case,
    adds one to [ok_count] and leaves [not_ok_count] alone; the simple
    grammar cannot take such a line first, since the capture begins with a
    "#".  The stream "1..1", "not ok 1 # TODO known issue" ends with one
    pass and no failure. *)
Theorem todo_skip_counts_as_pass :
  (forall line s m,
     regexec test_reg line 5 = (0%Z, m) ->
     is_set (sub m 1) = true ->
     (rm_so (sub m 4) < rm_eo (sub m 4))%Z ->
     strcasestr (match_text line (sub m 4)) "SKIP" <> None \/
     strcasestr (match_text line (sub m 4)) "TODO" <> None ->
     classify line s = (kyua_error_ok, incr_ok_count s)) /\
  (ok_count (summary_out
               (parse_lines ["1..1"; "not ok 1 # TODO known issue"])) = 1%Z /\
   not_ok_count (summary_out
                   (parse_lines ["1..1"; "not ok 1 # TODO known issue"]))
   = 0%Z).
Proof.
  split; [|vm_compute; split; reflexivity].
  intros line s m Hm Hnot Hlen Hdir.
  destruct (test_marker_set line m Hm) as [[Hf _]|[_ (t & ->)]];
    [congruence|].
  destruct (test_directive _ m Hm) as (so & Hso & H4 & Hstop & Htext).
  rewrite Htext in Hdir. rewrite H4 in Hlen. cbn [rm_so rm_eo] in Hlen.
  change ("not o" ++ t) with (String "n" ("ot o" ++ t)) in *.
  rewrite classify_result by auto. cbv zeta.
  destruct (regexec simple_test_reg _ 3) as [c1 m1] eqn:E1.
  destruct (Z.eqb_spec c1 0) as [->|Hc1].
  - exfalso. apply regexec_match in E1. destruct E1 as (c & Hs & _).
    apply (simple_test_no_hash _ c Hs). apply (chars_offset so).
    apply stops_not_hash; [exact Hstop|].
    intros E. apply (f_equal String.length) in E.
    revert E. generalize (String "n" ("ot o" ++ t)) Hso Hlen.
    clear. intros l. revert so.
    induction l as [|a l IH]; intros so Hso Hlen; simpl in *; [lia|].
    destruct so as [|so]; simpl; [discriminate|].
    apply IH; lia.
  - rewrite Hm. change (0 =? 0)%Z with true. cbv iota.
    unfold counts_as_failure. rewrite H4. cbn [rm_so]. rewrite Nat2Z.id.
    destruct Hdir as [Hd|Hd].
    + destruct (strcasestr (offset so _) "SKIP"); [|congruence].
      cbn [is_null]. now rewrite andb_false_r.
    + destruct (strcasestr (offset so _) "TODO"); [|congruence].
      cbn [is_null]. now rewrite andb_false_r.
Qed.

Lemma todo_skip_counts_as_pass_witness :
  classify "not ok 7 # skip no network" kyua_tap_summary_new
  = (kyua_error_ok, incr_ok_count kyua_tap_summary_new).
Proof.
  refine (proj1 todo_skip_counts_as_pass "not ok 7 # skip no network"
            kyua_tap_summary_new
            (snd (regexec test_reg "not ok 7 # skip no network" 5))
            _ _ _ _).
  - vm_compute. reflexivity.
  - vm_compute. reflexivity.
  - vm_compute. reflexivity.
  - left. vm_compute. discriminate.
Defined.

(** C6, as stated, fails: the fourth capture of "not ok 1" is empty, the
    simple grammar does not match the line, and the line is counted as a
    failure. *)
Lemma not_ok_without_directive_counterexample :
  let line := "not ok 1" in
  let m := snd (regexec test_reg line 5) in
  fst (regexec simple_test_reg line 3) = REG_NOMATCH /\
  fst (regexec test_reg line 5) = 0%Z /\
  is_set (sub m 1) = true /\
  rm_so (sub m 4) = rm_eo (sub m 4) /\
  classify line kyua_tap_summary_new
  = (kyua_error_ok, incr_not_ok_count kyua_tap_summary_new) /\
  not_ok_count (summary_out (parse_lines ["1..1"; "not ok 1"])) = 1%Z /\
  ok_count (summary_out (parse_lines ["1..1"; "not ok 1"])) = 0%Z.
Proof. vm_compute. repeat split. Qed.

(** C6, amended.  On every line that matches the general grammar the
    fourth capture is present, empty or not, and runs to the end of the
    line; the line adds one to [not_ok_count] exactly when the "not "
    marker is present and the capture contains neither SKIP nor TODO in
    any case, and adds one to [ok_count] otherwise.  A "not ok" line with
    nothing after it is a failure. *)
Theorem general_grammar_classification line s m :
  regexec test_reg line 5 = (0%Z, m) ->
  let directive := match_text line (sub m 4) in
  is_set (sub m 4) = true /\
  rm_eo (sub m 4) = Z.of_nat (String.length line) /\
  classify line s =
  (kyua_error_ok,
   if is_set (sub m 1) && is_null (strcasestr directive "SKIP")
      && is_null (strcasestr directive "TODO")
   then incr_not_ok_count s else incr_ok_count s).
Proof.
  intros Hm. cbv zeta.
  destruct (test_directive line m Hm) as (so & Hso & H4 & Hstop & Htext).
  rewrite Htext.
  assert (Hset : is_set (sub m 4) = true).
  { rewrite H4. apply (is_set_to_regmatch (Some (so, String.length line))). }
  split; [exact Hset|]. split; [now rewrite H4|].
  assert (Hline : exists a t, line = String a t /\
                              (a = "o"%char \/ a = "n"%char)).
  { destruct (test_marker_set line m Hm) as [[_ (t & E)]|[_ (t & E)]].
    - exists "o"%char, t. auto.
    - exists "n"%char, ("ot o" ++ t). auto. }
  destruct Hline as (a & t & -> & Ha).
  rewrite classify_result by exact Ha. cbv zeta.
  destruct (regexec simple_test_reg _ 3) as [c1 m1] eqn:E1.
  destruct (Z.eqb_spec c1 0) as [->|Hc1].
  - pose proof (simple_then_no_directive _ m1 m E1 Hm) as Hempty.
    rewrite H4 in Hempty. cbn [rm_so] in Hempty.
    rewrite Nat2Z.id in Hempty. rewrite Hempty.
    change (is_null (strcasestr "" "SKIP")) with true.
    change (is_null (strcasestr "" "TODO")) with true.
    rewrite !andb_true_r.
    destruct (simple_marker_set _ m1 E1) as [[-> (t1 & E)]|[-> (t1 & E)]];
      destruct (test_marker_set _ m Hm) as [[-> (t2 & E')]|[-> (t2 & E')]];
      try reflexivity; rewrite E in E'; discriminate.
  - rewrite Hm. change (0 =? 0)%Z with true. cbv iota.
    unfold counts_as_failure. rewrite Hset, H4. cbn [rm_so].
    rewrite Nat2Z.id, andb_true_r. reflexivity.
Qed.

Lemma general_grammar_classification_witness :
  classify "not ok 1" kyua_tap_summary_new
  = (kyua_error_ok, incr_not_ok_count kyua_tap_summary_new).
Proof.
  refine (proj2 (proj2 (general_grammar_classification "not ok 1"
            kyua_tap_summary_new (snd (regexec test_reg "not ok 1" 5)) _))).
  vm_compute. reflexivity.
Defined.

(** The run whose reader hands over the plan line "1..N" and N passing
    result lines. *)
Lemma passing_lines_counted N lines :
  (1 <= N < LONG_MAX)%Z ->
  Z.of_nat (List.length lines) = N ->
  Forall (fun l => passing_result_line l = true) lines ->
  let r := parse_lines (("1.." ++ decimal N) :: lines) in
  ret r = kyua_error_ok /\
  ok_count (summary_out r) = N /\
  not_ok_count (summary_out r) = 0%Z /\
  parse_error (summary_out r) = None.
Proof.
  intros HN Hlen Hall. cbv zeta. rewrite parse_lines_eq.
  rewrite loop_cons by (reflexivity || discriminate).
  rewrite (classify_plan_line N kyua_tap_summary_new HN eq_refl). cbn [snd].
  destruct (loop_passing lines
              (with_plan 1 N (with_skipped_all false kyua_tap_summary_new))
              Hall eq_refl eq_refl)
    as (s' & evs & -> & Hok & Hnot & He & Hb & Hf & Hl).
  cbn [ret summary_out].
  cbn [ok_count not_ok_count first_index last_index with_plan
       with_skipped_all kyua_tap_summary_new] in Hok, Hnot, Hf, Hl.
  unfold check_plan. rewrite Hf, Hl, He, Hb, Hok, Hnot.
  change (1 =? -1)%Z with false. cbn [is_null negb andb].
  replace (N - 1 + 1 =? 0 + Z.of_nat (List.length lines) + 0)%Z with true
    by (symmetry; apply Z.eqb_eq; lia).
  cbn [negb]. repeat split; auto. lia.
Qed.

Lemma isdigit_text_byte a : isdigit a = true -> text_byte a = true.
Proof.
  unfold text_byte.
  destruct (Ascii.eqb_spec a (ascii_of_nat 10)) as [->|_]; [discriminate|].
  destruct (Ascii.eqb_spec a zero) as [->|_]; [discriminate|].
  reflexivity.
Qed.

(** The plan line of a bound the parser accepts fits the buffer. *)
Lemma plan_line_fits N :
  (1 <= N < LONG_MAX)%Z -> fits_buffer ("1.." ++ decimal N) = true.
Proof.
  intros HN. destruct (decimal_spec N HN) as ((_ & Hdig) & _ & (Hlen & _)).
  unfold fits_buffer. apply andb_true_iff. split.
  - apply Nat.ltb_lt. rewrite length_app. simpl. lia.
  - rewrite chars_app. rewrite forallb_app. apply andb_true_iff.
    split; [reflexivity|].
    apply forallb_forall. intros a Ha. apply isdigit_text_byte.
    now apply Hdig.
Qed.

(** The largest number a plan line can hold is refused: whatever follows
    the plan line "1..9223372036854775807", the run ends without a plan. *)
Lemma largest_plan_refused lines ending s0 :
  let r :=
    kyua_tap_parse
      (readable (stream ("1..9223372036854775807" :: lines) ending)) s0 in
  ok_count (summary_out r) = 0%Z /\
  parse_error (summary_out r) = Some MSG_NO_PLAN.
Proof.
  cbv zeta.
  destruct (kyua_tap_parse_handed
              (stream ("1..9223372036854775807" :: lines) ending) s0)
    as (_ & -> & _).
  rewrite handed_eq, reader_whole by reflexivity.
  rewrite parse_lines_eq.
  rewrite loop_cons by (reflexivity || discriminate).
  replace (snd (classify "1..9223372036854775807" kyua_tap_summary_new))
    with (with_parse_error MSG_OUT_OF_RANGE kyua_tap_summary_new)
    by (vm_compute; reflexivity).
  rewrite loop_stop by reflexivity. cbn. auto.
Qed.

(** C1, as stated, fails: the loop reads into a buffer of 1024 bytes, so of
    a result line of 1023 bytes the read takes everything but the newline,
    and the next read hands over the empty string, which ends the loop.
    The stream "1..2", a passing line of 1023 bytes, "ok 2" ends with one
    result counted and the mismatch recorded. *)
Lemma long_result_line_counterexample :
  let long := "ok 1 " ++ filler "x" 1018 in
  let r :=
    kyua_tap_parse (readable (stream ["1..2"; long; "ok 2"] end_of_file))
      kyua_tap_summary_new in
  String.length long = 1023 /\
  passing_result_line long = true /\ passing_result_line "ok 2" = true /\
  reads (events r) = ["1..2"; long; ""] /\
  ok_count (summary_out r) = 1%Z /\
  parse_error (summary_out r) = Some MSG_MISMATCH.
Proof. vm_compute. repeat split. Qed.

(** C1, amended.  For every N from 1 up to the largest plan bound the
    parser accepts, the stream made of the plan line "1..N" and N result
    lines, each short enough to fit the line buffer with its newline (less
    than 1023 bytes) and each matching one of the result grammars without
    the "not " marker, ends with [ok_count] N, [not_ok_count] 0 and no
    reason recorded, and the call returns without an error, whether the
    stream ends at the end of the file or with a read failure. *)
Theorem passing_run_counts N lines ending s0 :
  (1 <= N < LONG_MAX)%Z ->
  Z.of_nat (List.length lines) = N ->
  Forall (fun l => passing_result_line l = true) lines ->
  Forall (fun l => fits_buffer l = true) lines ->
  let r :=
    kyua_tap_parse (readable (stream (("1.." ++ decimal N) :: lines) ending))
      s0 in
  ret r = kyua_error_ok /\
  ok_count (summary_out r) = N /\
  not_ok_count (summary_out r) = 0%Z /\
  parse_error (summary_out r) = None.
Proof.
  intros HN Hlen Hall Hfit. cbv zeta.
  destruct (kyua_tap_parse_handed
              (stream (("1.." ++ decimal N) :: lines) ending) s0)
    as (-> & -> & _).
  rewrite handed_stream
    by (constructor; [apply plan_line_fits; exact HN | exact Hfit]).
  exact (passing_lines_counted N lines HN Hlen Hall).
Qed.

Lemma passing_run_counts_witness :
  let r :=
    kyua_tap_parse
      (readable (stream ["1..3"; "ok 1"; "ok 2 - second"; "ok"] end_of_file))
      kyua_tap_summary_new in
  ret r = kyua_error_ok /\
  ok_count (summary_out r) = 3%Z /\
  not_ok_count (summary_out r) = 0%Z /\
  parse_error (summary_out r) = None.
Proof.
  refine (passing_run_counts 3 ["ok 1"; "ok 2 - second"; "ok"] end_of_file
            kyua_tap_summary_new _ _ _ _).
  - unfold LONG_MAX. lia.
  - reflexivity.
  - repeat constructor.
  - repeat constructor.
Defined.

(** * Further properties *)

(** ** Which lines are plan lines *)

Lemma star_loop_some cls step (Hstep : char_step cls step) u :
  forall rest k fuel pos c,
    all_in cls u -> String.length (u ++ rest) < fuel ->
    (exists r, k rest (pos + String.length u) c = Some r) ->
    exists r, star_loop step k fuel (u ++ rest) pos c = Some r.
Proof.
  induction u as [|a u IH]; intros rest k fuel pos c Hall Hfuel [r Hk].
  - simpl in *. rewrite Nat.add_0_r in Hk.
    destruct fuel as [|fuel]; [lia|]. simpl.
    destruct (step _ rest pos c) as [r'|]; eauto.
  - destruct fuel as [|fuel]; [simpl in Hfuel; lia|].
    simpl. rewrite Hstep. rewrite (Hall a (or_introl eq_refl)).
    replace (Nat.eqb (S pos) pos) with false
      by (symmetry; apply Nat.eqb_neq; lia).
    destruct (IH rest k fuel (S pos) c) as [r' Hr'].
    + intros b Hb. apply Hall. right. exact Hb.
    + simpl in Hfuel. lia.
    + exists r. rewrite <- Hk. f_equal. simpl. lia.
    + rewrite Hr'. eauto.
Qed.

Lemma plus_some neg rs u :
  forall rest k pos c,
    u <> "" -> all_in (bracket_match neg rs) u ->
    (exists r, k rest (pos + String.length u) c = Some r) ->
    exists r, exec (Plus (Bracket neg rs)) k (u ++ rest) pos c = Some r.
Proof.
  intros rest k pos c Hne Hall [r Hk].
  destruct u as [|a u]; [congruence|].
  cbn [exec append]. rewrite (Hall a (or_introl eq_refl)).
  apply (star_loop_some _ _ (char_step_bracket neg rs)).
  - intros b Hb. apply Hall. right. exact Hb.
  - lia.
  - exists r. rewrite <- Hk. f_equal. simpl. lia.
Qed.

Lemma in_chars_split a s :
  In a (chars s) -> exists u v, s = u ++ String a v.
Proof.
  induction s as [|b s IH]; intros H; [destruct H|].
  destruct H as [->|H].
  - exists "", s. reflexivity.
  - destruct (IH H) as (u & v & ->). exists (String b u), v. reflexivity.
Qed.

Lemma in_chars_middle a u v : In a (chars (u ++ String a v)).
Proof.
  rewrite chars_app. apply in_or_app. right. left. reflexivity.
Qed.

(** The end of the plan grammar succeeds on an empty rest and on a rest
    with a "#" in it. *)
Lemma plan_tail_some rest pos c :
  rest = "" \/ In "#"%char (chars rest) ->
  exists r, exec plan_tail (accept 0) rest pos c = Some r.
Proof.
  intros [->|Hin].
  - eexists. reflexivity.
  - destruct (in_chars_split _ _ Hin) as (u & v & ->).
    unfold plan_tail.
    change (exec (Cat (Opt (Group 3 (Cat (Star Any) ?R))) ?T) ?k ?s ?p ?c0)
      with (match star_loop (exec Any)
                    (exec R (fun s1 p1 c1 =>
                               exec T k s1 p1 (set_span 3 (p, p1) c1)))
                    (S (String.length s)) s p c0 with
            | Some res => Some res
            | None => exec T k s p c0
            end).
    destruct (star_loop_some _ _ char_step_any u (String "#" v)
                (exec (Cat (Chr "#") (Cat (Star Any) Eps))
                   (fun s1 p1 c1 =>
                      exec (Cat Eol Eps) (accept 0) s1 p1
                        (set_span 3 (pos, p1) c1)))
                (S (String.length (u ++ String "#" v))) pos c) as [r Hr].
    + intros a _. reflexivity.
    + lia.
    + cbn [exec]. change (Ascii.eqb "#" "#") with true. cbv iota.
      eexists.
      apply (star_loop_all _ _ char_step_any v); [intros a _; reflexivity
                                                 | lia | reflexivity].
    + rewrite Hr. eauto.
Qed.

(** The rest of a matched plan line. *)
Lemma Matches_plan_tail s pos c s' pos' c' :
  Matches plan_tail s pos c s' pos' c' ->
  s' = "" /\
  ((s = "" /\ c' 3 = c 3) \/
   (In "#"%char (chars s) /\
    c' 3 = Some (pos, pos + String.length s))).
Proof.
  intros H. pose proof (Matches_ends _ _ _ _ _ _ _ H eq_refl) as ->.
  split; [reflexivity|].
  unfold plan_tail in H.
  apply Matches_cat_inv in H. destruct H as (s1 & p1 & c1 & HO & HE).
  destruct (Matches_consumed _ _ _ _ _ _ _ HE)
    as (ue & Hue & _ & Hae & Hge).
  assert (ue = "").
  { destruct ue as [|a ue]; [reflexivity|].
    specialize (Hae a (or_introl eq_refl)). discriminate. }
  subst ue. simpl in Hue. subst s1.
  rewrite (Hge 3 eq_refl).
  apply Matches_opt_inv in HO. destruct HO as [HG|(E1 & E2 & E3)].
  - right. apply Matches_group_inv in HG. destruct HG as (c0 & HG & ->).
    destruct (Matches_consumed _ _ _ _ _ _ _ HG) as (u & Hu & Hp & _ & _).
    rewrite append_nil_r in Hu. subst u.
    split; [|unfold set_span; cbn [Nat.eqb]; now rewrite Hp].
    apply Matches_cat_inv in HG. destruct HG as (s2 & p2 & c2 & HS & HG).
    destruct (Matches_consumed _ _ _ _ _ _ _ HS) as (u1 & -> & _ & _ & _).
    apply Matches_cat_inv in HG. destruct HG as (s3 & p3 & c3 & HC & _).
    apply Matches_chr_inv in HC. destruct HC as (-> & _ & _).
    apply in_chars_middle.
  - left. subst. auto.
Qed.

Lemma plan_shape_rest line c :
  search plan_ast line 0 = Some c ->
  exists d1 d2 rest,
    line = d1 ++ ".." ++ d2 ++ rest /\
    is_number d1 /\ is_number d2 /\
    c 1 = Some (0, String.length d1) /\
    c 2 = Some (String.length d1 + 2,
                String.length d1 + 2 + String.length d2) /\
    ((rest = "" /\ c 3 = None) \/
     (In "#"%char (chars rest) /\
      c 3 = Some (String.length d1 + 2 + String.length d2,
                  String.length d1 + 2 + String.length d2
                  + String.length rest))).
Proof.
  unfold plan_ast. rewrite search_bol. intros H.
  apply exec_sound in H. destruct H as (s' & p' & c' & HM & Hacc).
  unfold accept in Hacc. inv Hacc. unfold plan_body in HM.
  apply Matches_cat_inv in HM. destruct HM as (s1 & p1 & c1 & HG1 & HM).
  apply Matches_group_inv in HG1. destruct HG1 as (c1' & HG1 & ->).
  apply Matches_plus_class in HG1.
  destruct HG1 as (d1 & -> & -> & Hne1 & Hd1 & Hc1).
  apply Matches_cat_inv in HM. destruct HM as (s2 & p2 & c2 & HD1 & HM).
  apply Matches_chr_inv in HD1. destruct HD1 as (-> & -> & ->).
  apply Matches_cat_inv in HM. destruct HM as (s3 & p3 & c3 & HD2 & HM).
  apply Matches_chr_inv in HD2. destruct HD2 as (-> & -> & ->).
  apply Matches_cat_inv in HM. destruct HM as (s4 & p4 & c4 & HG2 & HT).
  apply Matches_group_inv in HG2. destruct HG2 as (c4' & HG2 & ->).
  apply Matches_plus_class in HG2.
  destruct HG2 as (d2 & -> & -> & Hne2 & Hd2 & Hc2).
  destruct (Matches_consumed _ _ _ _ _ _ _ HT) as (u & Hu & Hp & _ & Hg).
  destruct (Matches_plan_tail _ _ _ _ _ _ HT) as (_ & Hrest).
  exists d1, d2, s4.
  assert (Hnum : forall d,
             all_in (bracket_match false [("0"%char, "9"%char)]) d ->
             all_in isdigit d).
  { intros d Hd a Ha. rewrite <- digit_class_isdigit. auto. }
  split; [reflexivity|]. split; [split; auto|]. split; [split; auto|].
  split; [|split].
  - unfold set_span at 1. cbn [Nat.eqb]. rewrite (Hg 1 eq_refl).
    unfold set_span. cbn [Nat.eqb]. rewrite Hc2.
    unfold set_span. cbn [Nat.eqb]. reflexivity.
  - unfold set_span at 1. cbn [Nat.eqb]. rewrite (Hg 2 eq_refl).
    unfold set_span. cbn [Nat.eqb]. f_equal. f_equal; lia.
  - change (set_span 0 (0, p') c' 3) with (c' 3).
    destruct Hrest as [[-> H3]|[Hin H3]]; [left | right].
    + split; [reflexivity|]. rewrite H3. unfold set_span. cbn [Nat.eqb].
      rewrite Hc2. unfold set_span. cbn [Nat.eqb]. apply Hc1.
    + split; [exact Hin|]. rewrite H3. f_equal. f_equal; lia.
Qed.

Lemma plan_line_matches d1 d2 rest :
  is_number d1 -> is_number d2 ->
  rest = "" \/ In "#"%char (chars rest) ->
  exists c, search plan_ast (d1 ++ ".." ++ d2 ++ rest) 0 = Some c.
Proof.
  intros H1 H2 Hrest. unfold plan_ast. rewrite search_bol.
  unfold plan_body.
  change (exec (Cat (Group 1 (Cat (Plus digit_class) Eps)) ?R) ?k ?s ?p ?c)
    with (exec (Plus digit_class)
            (fun s1 p1 c1 => exec R k s1 p1 (set_span 1 (p, p1) c1)) s p c).
  unfold digit_class at 1.
  assert (Hin : exists r,
             exec (Plus digit_class)
               (fun s1 p1 c1 =>
                  exec plan_tail (accept 0) s1 p1
                    (set_span 2 (S (S (0 + String.length d1)), p1) c1))
               (d2 ++ rest) (S (S (0 + String.length d1)))
               (set_span 1 (0, 0 + String.length d1) no_spans) = Some r).
  { unfold digit_class. apply plus_some.
    - apply H2.
    - apply is_number_class. exact H2.
    - apply plan_tail_some. exact Hrest. }
  destruct Hin as [r Hr]. exists r.
  apply (plus_run _ false _ d1 eq_refl).
  - apply H1.
  - apply is_number_class. exact H1.
  - reflexivity.
  - exact Hr.
Qed.

(** X1.  The lines the plan probe takes for plan lines are exactly those
    made of a number, two dots, a number, and then either nothing or any
    text with a "#" in it. *)
Theorem plan_line_characterised line :
  fst (regexec plan_reg line 4) = 0%Z <->
  exists d1 d2 rest,
    line = d1 ++ ".." ++ d2 ++ rest /\ is_number d1 /\ is_number d2 /\
    (rest = "" \/ In "#"%char (chars rest)).
Proof.
  split.
  - intros H. destruct (regexec plan_reg line 4) as [code m] eqn:E.
    simpl in H. subst code. apply regexec_match in E.
    destruct E as (c & Hs & _). apply plan_shape_rest in Hs.
    destruct Hs as (d1 & d2 & rest & -> & Hd1 & Hd2 & _ & _ & Hr).
    exists d1, d2, rest. repeat split; try apply Hd1; try apply Hd2.
    destruct Hr as [[-> _]|[Hin _]]; auto.
  - intros (d1 & d2 & rest & -> & Hd1 & Hd2 & Hr).
    destruct (plan_line_matches d1 d2 rest Hd1 Hd2 Hr) as [c Hc].
    now rewrite (regexec_found plan_reg _ 4 c Hc).
Qed.

Lemma plan_line_characterised_witness :
  fst (regexec plan_reg "1..12 tests # not run" 4) = 0%Z.
Proof.
  apply (proj2 (plan_line_characterised "1..12 tests # not run")).
  exists "1", "12", " tests # not run".
  split; [reflexivity|].
  split; [split; [discriminate | intros a [<-|[]]; reflexivity]|].
  split; [split; [discriminate
                 | intros a [<-|[<-|[]]]; reflexivity]|].
  right. vm_compute. tauto.
Defined.

(** ** The probe on a line it matches, with no plan yet *)

Lemma offset_plan_rest d1 d2 rest :
  offset (String.length d1 + 2 + String.length d2) (d1 ++ ".." ++ d2 ++ rest)
  = rest.
Proof.
  replace (String.length d1 + 2 + String.length d2)
    with (String.length d1 + (2 + String.length d2)) by lia.
  rewrite offset_add. simpl. apply offset_skip.
Qed.

(** What [regexec] reports of a matched plan line: the two numbers, and of
    the text behind them either nothing, or all of it as the third
    subexpression. *)
Lemma plan_match_rest line m :
  regexec plan_reg line 4 = (0%Z, m) ->
  exists d1 d2,
    is_number d1 /\ is_number d2 /\
    match_text line (sub m 1) = d1 /\ match_text line (sub m 2) = d2 /\
    (rm_eo (sub m 1) - rm_so (sub m 1))%Z = Z.of_nat (String.length d1) /\
    (rm_eo (sub m 2) - rm_so (sub m 2))%Z = Z.of_nat (String.length d2) /\
    line = d1 ++ ".." ++ d2 ++ plan_rest line m /\
    ((plan_rest line m = "" /\ is_set (sub m 3) = false) \/
     (In "#"%char (chars (plan_rest line m)) /\
      is_set (sub m 3) = true /\
      offset (Z.to_nat (rm_so (sub m 3))) line = plan_rest line m /\
      (rm_eo (sub m 3) - rm_so (sub m 3))%Z
      = Z.of_nat (String.length (plan_rest line m)))).
Proof.
  intros H. apply regexec_match in H. destruct H as (c & Hs & Hsub).
  apply plan_shape_rest in Hs.
  destruct Hs as (d1 & d2 & rest & -> & Hd1 & Hd2 & Hc1 & Hc2 & Hc3).
  exists d1, d2. unfold plan_rest.
  rewrite (Hsub 1), (Hsub 2), (Hsub 3), Hc1, Hc2 by lia.
  rewrite !match_text_span. cbn [to_regmatch rm_so rm_eo].
  rewrite Nat2Z.id, offset_plan_rest.
  split; [exact Hd1|]. split; [exact Hd2|].
  split; [rewrite Nat.sub_0_r; apply substring_prefix|].
  split.
  { replace (String.length d1 + 2 + String.length d2 - (String.length d1 + 2))
      with (String.length d2) by lia.
    rewrite substring_skip. apply (substring_prefix d2 rest). }
  split; [lia|]. split; [lia|]. split; [reflexivity|].
  destruct Hc3 as [[-> ->]|[Hin ->]]; [left; auto | right].
  split; [exact Hin|]. split; [apply (is_set_to_regmatch (Some _))|].
  cbn [to_regmatch rm_so rm_eo]. rewrite Nat2Z.id, offset_plan_rest.
  split; [reflexivity | lia].
Qed.

Lemma strstr_empty needle :
  needle <> "" -> strstr "" needle = None.
Proof. destruct needle; [congruence|]. reflexivity. Qed.

(** The probe, on a line it matches, in a summary without a plan, with
    both numbers let through. *)
Lemma probe_fresh line s m :
  regexec plan_reg line 4 = (0%Z, m) ->
  first_index s = (-1)%Z ->
  number_ok (match_text line (sub m 1)) ->
  number_ok (match_text line (sub m 2)) ->
  kyua_tap_try_parse_plan line s =
  (kyua_error_ok,
   let v1 := decimal_value (match_text line (sub m 1)) in
   let v2 := decimal_value (match_text line (sub m 2)) in
   let rest := plan_rest line m in
   let s0 := with_skipped_all false s in
   if (1024 <? String.length rest)%nat
   then with_parse_error MSG_DESC_TOO_LONG s0
   else if is_null (strstr rest "SKIP") then
     if (v2 <? v1)%Z then with_parse_error MSG_REVERSED s0
     else with_plan v1 v2 s0
   else
     with_plan v1 v2
       (with_skipped_all true
          (if negb (ok_count s =? 0)%Z || negb (not_ok_count s =? 0)%Z
              || bail_out s
           then with_parse_error MSG_NO_PLAN s0 else s0))).
Proof.
  intros Hm Hfirst Hok1 Hok2. cbv zeta.
  destruct (plan_match_rest line m Hm)
    as (d1 & d2 & Hd1 & Hd2 & Ht1 & Ht2 & Hl1 & Hl2 & _ & Hrest).
  open_probe. rewrite Hm. change (negb (0 =? 0)%Z) with false. cbv iota.
  rewrite Hfirst. change (negb (-1 =? -1)%Z) with false. cbv iota.
  rewrite (regex_match_too_long_number line (sub m 1) d1 Ht1 Hd1 Hl1).
  rewrite (regex_match_too_long_number line (sub m 2) d2 Ht2 Hd2 Hl2).
  rewrite Ht1, Ht2 in *. destruct Hok1 as [L1 V1]. destruct Hok2 as [L2 V2].
  replace (63 <? String.length d1)%nat with false
    by (symmetry; apply Nat.ltb_ge; lia).
  replace (63 <? String.length d2)%nat with false
    by (symmetry; apply Nat.ltb_ge; lia).
  replace (LONG_MAX <=? decimal_value d1)%Z with false
    by (symmetry; apply Z.leb_gt; lia).
  replace (LONG_MAX <=? decimal_value d2)%Z with false
    by (symmetry; apply Z.leb_gt; lia).
  cbv iota. cbn [skipped_all with_skipped_all negb andb ok_count
                 not_ok_count bail_out with_parse_error].
  destruct Hrest as [[-> ->]|(_ & -> & Hoff & Hlen)].
  - cbv iota. change (1024 <? String.length "")%nat with false.
    rewrite strstr_empty by discriminate. reflexivity.
  - cbv iota. rewrite Hoff, Hlen.
    destruct (Nat.ltb_spec 1024 (String.length (plan_rest line m)))
      as [Hlong|Hshort].
    + replace (Z.of_nat (String.length (plan_rest line m)) >? 1024)%Z
        with true by (symmetry; rewrite Z.gtb_ltb; apply Z.ltb_lt; lia).
      reflexivity.
    + replace (Z.of_nat (String.length (plan_rest line m)) >? 1024)%Z
        with false by (symmetry; rewrite Z.gtb_ltb; apply Z.ltb_ge; lia).
      destruct (strstr (plan_rest line m) "SKIP"); reflexivity.
Qed.

(** X2.  A plan line with SKIP, in capitals, anywhere behind its second
    number is a skip-all plan: with no plan accepted yet and both numbers
    let through, the probe sets [skipped_all] and commits the two bounds
    whatever their order; the only reason it can record is "No plan found
    in TAP output", when results or a bail-out came before. *)
Theorem skip_plan_committed line s m :
  regexec plan_reg line 4 = (0%Z, m) ->
  first_index s = (-1)%Z ->
  number_ok (match_text line (sub m 1)) ->
  number_ok (match_text line (sub m 2)) ->
  String.length (plan_rest line m) <= 1024 ->
  strstr (plan_rest line m) "SKIP" <> None ->
  let s' := snd (kyua_tap_try_parse_plan line s) in
  skipped_all s' = true /\
  first_index s' = decimal_value (match_text line (sub m 1)) /\
  last_index s' = decimal_value (match_text line (sub m 2)) /\
  parse_error s' =
  (if negb (ok_count s =? 0)%Z || negb (not_ok_count s =? 0)%Z || bail_out s
   then Some MSG_NO_PLAN else parse_error s).
Proof.
  intros Hm Hfirst Hok1 Hok2 Hlen Hskip. cbv zeta.
  rewrite (probe_fresh line s m Hm Hfirst Hok1 Hok2). cbv zeta. cbn [snd].
  replace (1024 <? String.length (plan_rest line m))%nat with false
    by (symmetry; apply Nat.ltb_ge; lia).
  destruct (strstr (plan_rest line m) "SKIP"); [|congruence].
  cbn [is_null]. cbv iota.
  destruct (negb (ok_count s =? 0)%Z || negb (not_ok_count s =? 0)%Z
            || bail_out s); cbn; auto.
Qed.

Lemma skip_plan_committed_witness :
  let s' := snd (kyua_tap_try_parse_plan "5..1 # SKIP" kyua_tap_summary_new) in
  skipped_all s' = true /\ first_index s' = 5%Z /\ last_index s' = 1%Z /\
  parse_error s' = None.
Proof.
  assert (Hm : regexec plan_reg "5..1 # SKIP" 4
               = (0%Z, snd (regexec plan_reg "5..1 # SKIP" 4)))
    by (vm_compute; reflexivity).
  refine (skip_plan_committed "5..1 # SKIP" kyua_tap_summary_new _ Hm
            eq_refl _ _ _ _).
  - split; [vm_compute; lia | vm_compute; reflexivity].
  - split; [vm_compute; lia | vm_compute; reflexivity].
  - vm_compute. lia.
  - vm_compute. discriminate.
Defined.

(** X3.  A plan line without SKIP in capitals behind its second number is
    an ordinary plan: with no plan accepted yet and both numbers let
    through, the probe clears [skipped_all], commits the bounds when they
    are in order and records nothing, and when they are reversed records
    "Test plan is reversed" and leaves the plan unset. *)
Theorem plain_plan_committed_or_reversed line s m :
  regexec plan_reg line 4 = (0%Z, m) ->
  first_index s = (-1)%Z ->
  number_ok (match_text line (sub m 1)) ->
  number_ok (match_text line (sub m 2)) ->
  String.length (plan_rest line m) <= 1024 ->
  strstr (plan_rest line m) "SKIP" = None ->
  let v1 := decimal_value (match_text line (sub m 1)) in
  let v2 := decimal_value (match_text line (sub m 2)) in
  let s' := snd (kyua_tap_try_parse_plan line s) in
  skipped_all s' = false /\
  ((v1 <= v2)%Z ->
   first_index s' = v1 /\ last_index s' = v2 /\
   parse_error s' = parse_error s) /\
  ((v2 < v1)%Z ->
   parse_error s' = Some MSG_REVERSED /\
   first_index s' = (-1)%Z /\ last_index s' = last_index s).
Proof.
  intros Hm Hfirst Hok1 Hok2 Hlen Hskip. cbv zeta.
  rewrite (probe_fresh line s m Hm Hfirst Hok1 Hok2). cbv zeta. cbn [snd].
  replace (1024 <? String.length (plan_rest line m))%nat with false
    by (symmetry; apply Nat.ltb_ge; lia).
  rewrite Hskip. cbn [is_null]. cbv iota.
  destruct (Z.ltb_spec (decimal_value (match_text line (sub m 2)))
              (decimal_value (match_text line (sub m 1))));
    cbn; repeat split; intros; auto; lia.
Qed.

Lemma plain_plan_committed_or_reversed_witness :
  let s' := snd (kyua_tap_try_parse_plan "1..0 # skip all"
                   kyua_tap_summary_new) in
  skipped_all s' = false /\ parse_error s' = Some MSG_REVERSED /\
  first_index s' = (-1)%Z.
Proof.
  assert (Hm : regexec plan_reg "1..0 # skip all" 4
               = (0%Z, snd (regexec plan_reg "1..0 # skip all" 4)))
    by (vm_compute; reflexivity).
  assert (Hok1 : number_ok (match_text "1..0 # skip all"
                   (sub (snd (regexec plan_reg "1..0 # skip all" 4)) 1)))
    by (split; [vm_compute; lia | vm_compute; reflexivity]).
  assert (Hok2 : number_ok (match_text "1..0 # skip all"
                   (sub (snd (regexec plan_reg "1..0 # skip all" 4)) 2)))
    by (split; [vm_compute; lia | vm_compute; reflexivity]).
  assert (Hlen : String.length
                   (plan_rest "1..0 # skip all"
                      (snd (regexec plan_reg "1..0 # skip all" 4))) <= 1024)
    by (vm_compute; lia).
  destruct (plain_plan_committed_or_reversed "1..0 # skip all"
              kyua_tap_summary_new _ Hm eq_refl Hok1 Hok2 Hlen eq_refl)
    as (Hs & _ & Hrev).
  split; [exact Hs|].
  destruct Hrev as (He & Hf & _); [vm_compute; reflexivity|]. auto.
Defined.

(** X4.  A plan line with more than 1024 characters behind its second
    number is refused with "Description attached to plan too long": the
    plan stays unset and [skipped_all] is cleared, whatever the text
    says. *)
Theorem long_description_refused line s m :
  regexec plan_reg line 4 = (0%Z, m) ->
  first_index s = (-1)%Z ->
  number_ok (match_text line (sub m 1)) ->
  number_ok (match_text line (sub m 2)) ->
  1024 < String.length (plan_rest line m) ->
  let s' := snd (kyua_tap_try_parse_plan line s) in
  parse_error s' = Some MSG_DESC_TOO_LONG /\
  first_index s' = (-1)%Z /\ last_index s' = last_index s /\
  skipped_all s' = false.
Proof.
  intros Hm Hfirst Hok1 Hok2 Hlen. cbv zeta.
  rewrite (probe_fresh line s m Hm Hfirst Hok1 Hok2). cbv zeta. cbn [snd].
  apply Nat.ltb_lt in Hlen. rewrite Hlen. cbn. auto.
Qed.

Lemma long_description_refused_witness :
  let line := "1..2 # SKIP " ++ filler "x" 1020 in
  let s' := snd (kyua_tap_try_parse_plan line kyua_tap_summary_new) in
  parse_error s' = Some MSG_DESC_TOO_LONG /\ first_index s' = (-1)%Z /\
  skipped_all s' = false.
Proof.
  cbv zeta.
  set (line := "1..2 # SKIP " ++ filler "x" 1020).
  assert (Hm : regexec plan_reg line 4 = (0%Z, snd (regexec plan_reg line 4)))
    by (vm_compute; reflexivity).
  destruct (long_description_refused line kyua_tap_summary_new _ Hm eq_refl)
    as (He & Hf & _ & Hs).
  - split; [vm_compute; lia | vm_compute; reflexivity].
  - split; [vm_compute; lia | vm_compute; reflexivity].
  - vm_compute. lia.
  - auto.
Defined.

(** ** Numerals *)

Lemma decimal_spec_nonneg n :
  (0 <= n < LONG_MAX)%Z ->
  is_number (decimal n) /\ decimal_value (decimal n) = n /\
  number_ok (decimal n).
Proof.
  intros H. destruct (Z.eq_dec n 0) as [->|Hn].
  - split; [split; [discriminate | intros a [<-|[]]; reflexivity]|].
    split; [reflexivity|].
    split; [vm_compute; lia | vm_compute; reflexivity].
  - apply decimal_spec. lia.
Qed.

(** X5.  Round trip of the plan bounds: the plan line written from two
    numbers in order, each from 0 to LONG_MAX - 1, in decimal, is read back
    by the probe as exactly those bounds, with no reason recorded. *)
Theorem plan_numerals_round_trip a b s :
  (0 <= a)%Z -> (a <= b)%Z -> (b < LONG_MAX)%Z ->
  first_index s = (-1)%Z ->
  kyua_tap_try_parse_plan (decimal a ++ ".." ++ decimal b) s =
  (kyua_error_ok, with_plan a b (with_skipped_all false s)).
Proof.
  intros Ha Hab Hb Hfirst.
  destruct (decimal_spec_nonneg a ltac:(lia)) as (Hna & Hva & Hoa).
  destruct (decimal_spec_nonneg b ltac:(lia)) as (Hnb & Hvb & Hob).
  rewrite (probe_plan_line (decimal a) (decimal b) s); auto.
  - now rewrite Hva, Hvb.
  - rewrite Hva, Hvb. exact Hab.
Qed.

Lemma plan_numerals_round_trip_witness :
  kyua_tap_try_parse_plan "0..9223372036854775806" kyua_tap_summary_new =
  (kyua_error_ok,
   with_plan 0 9223372036854775806
     (with_skipped_all false kyua_tap_summary_new)).
Proof.
  refine (plan_numerals_round_trip 0 9223372036854775806
            kyua_tap_summary_new _ _ _ _).
  - lia.
  - lia.
  - unfold LONG_MAX. lia.
  - reflexivity.
Defined.

(** ** Result lines and other lines *)

(** X6.  On a line the simple grammar matches, only the marker counts: the
    line adds one to [not_ok_count] when it begins with "not " and one to
    [ok_count] otherwise, whatever words follow the test number. *)
Theorem simple_grammar_classification line s m :
  regexec simple_test_reg line 3 = (0%Z, m) ->
  classify line s =
  (kyua_error_ok,
   if prefix "not " line then incr_not_ok_count s else incr_ok_count s).
Proof.
  intros Hm.
  destruct (simple_marker_set line m Hm) as [[Hset (t & ->)]|[Hset (t & ->)]].
  - rewrite classify_result by auto. cbv zeta. rewrite Hm.
    change (0 =? 0)%Z with true. cbv iota. rewrite Hset. reflexivity.
  - change ("not o" ++ t) with (String "n" ("ot o" ++ t)) in *.
    rewrite classify_result by auto. cbv zeta. rewrite Hm.
    change (0 =? 0)%Z with true. cbv iota. rewrite Hset. reflexivity.
Qed.

Lemma simple_grammar_classification_witness :
  classify "not ok 3 TODO later" kyua_tap_summary_new
  = (kyua_error_ok, incr_not_ok_count kyua_tap_summary_new).
Proof.
  refine (simple_grammar_classification "not ok 3 TODO later"
            kyua_tap_summary_new
            (snd (regexec simple_test_reg "not ok 3 TODO later" 3)) _).
  vm_compute. reflexivity.
Defined.

Lemma plan_nomatch_nondigit a t :
  isdigit a = false -> search plan_ast (String a t) 0 = None.
Proof.
  intros Ha. unfold plan_ast. rewrite search_bol. unfold plan_body.
  change (exec (Cat (Group 1 (Cat (Plus digit_class) Eps)) ?R) ?k ?s ?p ?c)
    with (exec (Plus digit_class)
            (fun s1 p1 c1 => exec R k s1 p1 (set_span 1 (p, p1) c1)) s p c).
  unfold digit_class at 1. apply plus_stop.
  change (bracket_match false [("0"%char, "9"%char)] a = false).
  now rewrite digit_class_isdigit.
Qed.

Lemma result_nomatch_other rest a t :
  a <> "o"%char -> a <> "n"%char ->
  search (Cat Bol (Cat not_marker (Cat (Chr "o") rest))) (String a t) 0
  = None.
Proof.
  intros Ho Hn. rewrite search_bol. unfold not_marker. cbn [exec].
  replace (Ascii.eqb "n" a) with false
    by (symmetry; apply Ascii.eqb_neq; congruence).
  replace (Ascii.eqb "o" a) with false
    by (symmetry; apply Ascii.eqb_neq; congruence).
  reflexivity.
Qed.

(** X7.  A line that begins with anything but a digit, "B", "o" or "n" (a
    diagnostic, a comment, an indented line) is inert: the loop body
    returns without an error and leaves the summary as it was. *)
Theorem other_lines_ignored a t s :
  isdigit a = false ->
  a <> "B"%char -> a <> "o"%char -> a <> "n"%char ->
  classify (String a t) s = (kyua_error_ok, s).
Proof.
  intros Hd HB Ho Hn. unfold classify, classify_line.
  rewrite (try_parse_plan_nomatch _ s (plan_nomatch_nondigit a t Hd)).
  cbn [kyua_error_is_set]. cbn [strstr].
  change (prefix "Bail out!" (String a t))
    with (if ascii_dec "B" a then prefix "ail out!" t else false).
  destruct (ascii_dec "B" a) as [E|_]; [congruence|].
  replace (match option_map S (strstr t "Bail out!") with
           | Some 0 => true
           | _ => false
           end) with false by (now destruct (strstr t "Bail out!")).
  rewrite (regexec_not_found simple_test_reg _ 3)
    by (apply result_nomatch_other; assumption).
  change (REG_NOMATCH =? 0)%Z with false.
  change (negb (REG_NOMATCH =? REG_NOMATCH)%Z) with false. cbv iota.
  rewrite (regexec_not_found test_reg _ 5)
    by (apply result_nomatch_other; assumption).
  reflexivity.
Qed.

Lemma other_lines_ignored_witness :
  classify "# Looks like you failed 1 test of 3." kyua_tap_summary_new
  = (kyua_error_ok, kyua_tap_summary_new).
Proof.
  refine (other_lines_ignored "#" " Looks like you failed 1 test of 3."
            kyua_tap_summary_new _ _ _ _).
  - reflexivity.
  - discriminate.
  - discriminate.
  - discriminate.
Defined.

(** ** The run as a whole *)

Lemma reading_true e s :
  reading e s = true ->
  e = kyua_error_ok /\ parse_error s = None /\ bail_out s = false.
Proof.
  unfold reading. intros H. apply negb_true_iff in H.
  apply orb_false_iff in H. destruct H as [H Hb].
  apply orb_false_iff in H. destruct H as [He Hp].
  destruct e; try discriminate. destruct (parse_error s); try discriminate.
  auto.
Qed.

Lemma loop_invariant_reading (P : kyua_tap_summary_t -> Prop) :
  (forall line s,
     parse_error s = None -> bail_out s = false ->
     P s -> P (snd (classify line s))) ->
  forall input e s, P s -> P (snd (fst (fst (loop input e s)))).
Proof.
  intros Hstep. induction input as [|line rest IH]; intros e s Hs.
  - now rewrite loop_nil.
  - destruct (reading e s) eqn:R.
    + destruct (String.eqb_spec line "") as [->|Hne].
      * now rewrite loop_empty_line.
      * rewrite loop_cons by assumption.
        destruct (reading_true e s R) as (_ & Hp & Hb).
        specialize (IH kyua_error_ok _ (Hstep line s Hp Hb Hs)).
        now destruct (loop rest _ _) as [[[e2 s2] u] evs].
    + now rewrite loop_stop.
Qed.

Lemma check_plan_fields s :
  first_index (check_plan s) = first_index s /\
  last_index (check_plan s) = last_index s /\
  ok_count (check_plan s) = ok_count s /\
  not_ok_count (check_plan s) = not_ok_count s /\
  skipped_all (check_plan s) = skipped_all s /\
  bail_out (check_plan s) = bail_out s.
Proof. unfold check_plan. split_ifs; cbn; auto 7. Qed.

Lemma result_line_start line :
  is_result_line line = true ->
  exists a t, line = String a t /\ (a = "o"%char \/ a = "n"%char).
Proof.
  unfold is_result_line. intros H. apply orb_true_iff in H.
  destruct H as [H|H]; apply Z.eqb_eq in H.
  - destruct (regexec simple_test_reg line 3) as [c m] eqn:E.
    simpl in H. subst c.
    destruct (simple_marker_set line m E) as [[_ (t & ->)]|[_ (t & ->)]].
    + exists "o"%char, t. auto.
    + exists "n"%char, ("ot o" ++ t). auto.
  - destruct (regexec test_reg line 5) as [c m] eqn:E.
    simpl in H. subst c.
    destruct (test_marker_set line m E) as [[_ (t & ->)]|[_ (t & ->)]].
    + exists "o"%char, t. auto.
    + exists "n"%char, ("ot o" ++ t). auto.
Qed.

(** The loop body adds one to exactly one counter on a result line and
    nothing on any other line. *)
Lemma classify_counts line s :
  (ok_count (snd (classify line s)) + not_ok_count (snd (classify line s))
   = ok_count s + not_ok_count s
     + (if is_result_line line then 1 else 0))%Z.
Proof.
  destruct (is_result_line line) eqn:Hres.
  - destruct (result_line_start line Hres) as (a & t & -> & Ha).
    rewrite classify_result by exact Ha. cbv zeta.
    unfold is_result_line in Hres.
    destruct (regexec simple_test_reg (String a t) 3) as [c1 m1].
    destruct (regexec test_reg (String a t) 5) as [c2 m2].
    cbn [fst] in Hres.
    destruct (c1 =? 0)%Z; [destruct (is_set (sub m1 1)); cbn; lia|].
    cbn [orb] in Hres. rewrite Hres.
    destruct (counts_as_failure (String a t) m2); cbn; lia.
  - unfold is_result_line in Hres. apply orb_false_iff in Hres.
    destruct Hres as [H1 H2].
    destruct (probe_counters line s) as [Hok Hnot].
    unfold classify, classify_line.
    pose proof (try_parse_plan_ok line s) as Hp.
    destruct (kyua_tap_try_parse_plan line s) as [e s1].
    cbn [fst snd] in *. subst e. cbn [kyua_error_is_set].
    destruct (strstr line "Bail out!") as [[|n]|];
      [cbn; lia | |];
      destruct (regexec simple_test_reg line 3) as [c1 m1] eqn:E1;
      destruct (regexec test_reg line 5) as [c2 m2] eqn:E2;
      cbn [fst] in H1, H2; rewrite H1;
      destruct (regexec_nomatch _ _ _ _ _ E1) as [-> _];
      try (apply Z.eqb_neq; exact H1);
      change (negb (REG_NOMATCH =? REG_NOMATCH)%Z) with false; cbv iota;
      rewrite H2;
      destruct (regexec_nomatch _ _ _ _ _ E2) as [-> _];
      try (apply Z.eqb_neq; exact H2);
      change (negb (REG_NOMATCH =? REG_NOMATCH)%Z) with false;
      cbn; lia.
Qed.

Lemma loop_counts input : forall e s,
  let '(_, s', _, evs) := loop input e s in
  (ok_count s' + not_ok_count s'
   = ok_count s + not_ok_count s
     + Z.of_nat (List.length (filter is_result_line (classified evs))))%Z.
Proof.
  induction input as [|line rest IH]; intros e s.
  - rewrite loop_nil. simpl. lia.
  - destruct (reading e s) eqn:R.
    + destruct (String.eqb_spec line "") as [->|Hne].
      * rewrite loop_empty_line by assumption. simpl. lia.
      * rewrite loop_cons by assumption.
        specialize (IH kyua_error_ok (snd (classify line s))).
        pose proof (classify_counts line s) as Hc.
        destruct (loop rest _ _) as [[[e2 s2] u] evs].
        cbn [classified filter].
        destruct (is_result_line line); cbn [List.length]; lia.
    + rewrite loop_stop by assumption. simpl. lia.
Qed.

Lemma parse_lines_counters lines :
  let r := parse_lines lines in
  (ok_count (summary_out r) + not_ok_count (summary_out r)
   = Z.of_nat
       (List.length (filter is_result_line (classified (events r)))))%Z /\
  (0 <= ok_count (summary_out r))%Z /\
  (0 <= not_ok_count (summary_out r))%Z /\
  (ok_count (summary_out r) + not_ok_count (summary_out r)
   <= Z.of_nat (List.length lines))%Z.
Proof.
  cbv zeta. rewrite parse_lines_eq.
  pose proof (loop_counts lines kyua_error_ok kyua_tap_summary_new) as H.
  pose proof (loop_counters lines kyua_error_ok kyua_tap_summary_new) as Hb.
  cbv zeta in Hb.
  destruct (loop lines _ _) as [[[e s] u] evs].
  cbn [summary_out events fst snd] in *.
  destruct (check_plan_fields s) as (_ & _ & -> & -> & _).
  cbn [ok_count not_ok_count kyua_tap_summary_new] in *. lia.
Qed.

(** X8.  At the end of every run the two counters together count exactly
    the strings that went through classification and match one of the two
    result grammars; plan lines, bail-out lines and all other lines are
    counted in neither.  Neither counter is negative, and together they
    never exceed the number of bytes of the stream. *)
Theorem counters_count_result_lines input s0 :
  let r := kyua_tap_parse (readable input) s0 in
  (ok_count (summary_out r) + not_ok_count (summary_out r)
   = Z.of_nat
       (List.length (filter is_result_line (classified (events r)))))%Z /\
  (0 <= ok_count (summary_out r))%Z /\
  (0 <= not_ok_count (summary_out r))%Z /\
  (ok_count (summary_out r) + not_ok_count (summary_out r)
   <= Z.of_nat (String.length (pending input)))%Z.
Proof.
  cbv zeta.
  destruct (kyua_tap_parse_handed input s0) as (_ & -> & -> & _).
  destruct (parse_lines_counters (handed input)) as (H1 & H2 & H3 & H4).
  destruct (handed_bounds input) as [Hn _].
  repeat split; auto. lia.
Qed.

Lemma probe_plan_wf line s :
  plan_wf s -> plan_wf (snd (kyua_tap_try_parse_plan line s)).
Proof.
  intros Hwf. open_probe.
  destruct (regexec plan_reg line 4) as [code m] eqn:Hm.
  destruct (Z.eqb_spec code 0) as [->|Hc]; [|exact Hwf].
  cbn [negb]. cbv iota.
  destruct (Z.eqb_spec (first_index s) (-1)) as [Hf|Hf]; cbn [negb];
    [|exact Hwf].
  assert (Hl : last_index s = (-1)%Z)
    by (destruct Hwf as [[_ H]|[H _]]; [exact H | lia]).
  destruct (plan_match_shape line m Hm)
    as (d1 & d2 & Hd1 & Hd2 & Ht1 & Ht2 & Hl1 & Hl2).
  rewrite (regex_match_too_long_number line (sub m 1) d1 Ht1 Hd1 Hl1).
  rewrite (regex_match_too_long_number line (sub m 2) d2 Ht2 Hd2 Hl2).
  pose proof (decimal_value_nonneg d1) as Hv1.
  pose proof (decimal_value_nonneg d2) as Hv2.
  destruct (63 <? String.length d1)%nat; [left; cbn; auto|].
  destruct (Z.leb_spec LONG_MAX (decimal_value d1)) as [V1|V1];
    [left; cbn; auto|].
  destruct (63 <? String.length d2)%nat; [left; cbn; auto|].
  destruct (Z.leb_spec LONG_MAX (decimal_value d2)) as [V2|V2];
    [left; cbn; auto|].
  cbn [skipped_all with_skipped_all negb andb].
  destruct (Z.ltb_spec (decimal_value d2) (decimal_value d1)) as [Hr|Hr];
    split_ifs; unfold plan_wf; cbn;
    first [ left; split; assumption
          | right; repeat split; intros; try discriminate; lia ].
Qed.

Lemma classify_plan_wf line s :
  plan_wf s -> plan_wf (snd (classify line s)).
Proof.
  intros Hs. apply (probe_plan_wf line) in Hs.
  destruct (classify_cases line s) as [H|[H|[H|H]]]; rewrite H; exact Hs.
Qed.

(** X9.  The plan of every finished run is well formed: either both
    bounds are still the sentinel -1, or both lie from 0 to LONG_MAX - 1
    and are in order unless the plan was a skip-all plan; so the expected
    count [last_index - first_index + 1] that the final check computes is
    within the range of a long, and a plan that is not skip-all expects at
    least one result. *)
Theorem plan_bounds_well_formed lines :
  let s := summary_out (parse_lines lines) in
  plan_wf s /\
  (skipped_all s = true -> first_index s <> (-1)%Z) /\
  (- LONG_MAX < last_index s - first_index s + 1 <= LONG_MAX)%Z /\
  (skipped_all s = false -> (1 <= last_index s - first_index s + 1)%Z).
Proof.
  cbv zeta. rewrite summary_out_eq.
  assert (Hwf : plan_wf (loop_end lines)).
  { unfold loop_end. apply loop_invariant.
    - apply classify_plan_wf.
    - left. split; reflexivity. }
  pose proof (loop_end_skip_has_plan lines) as Hskip.
  unfold skip_has_plan in Hskip.
  destruct (check_plan_fields (loop_end lines))
    as (Hf & Hl & _ & _ & Hs & _).
  unfold plan_wf in *. rewrite Hf, Hl, Hs.
  split; [exact Hwf|]. split; [exact Hskip|].
  destruct Hwf as [[-> ->]|(H1 & H2 & H3)]; unfold LONG_MAX in *;
    split; intros; try lia.
  specialize (H3 H). lia.
Qed.

(** The loop body never touches an accepted plan. *)
Lemma probe_keeps_plan line s :
  first_index s <> (-1)%Z ->
  first_index (snd (kyua_tap_try_parse_plan line s)) = first_index s /\
  last_index (snd (kyua_tap_try_parse_plan line s)) = last_index s.
Proof.
  intros Hf. open_probe.
  destruct (regexec plan_reg line 4) as [code m].
  destruct (code =? 0)%Z; cbn [negb]; cbv iota; [|auto].
  apply Z.eqb_neq in Hf. rewrite Hf. cbn. auto.
Qed.

Lemma classify_keeps_plan line s :
  first_index s <> (-1)%Z ->
  first_index (snd (classify line s)) = first_index s /\
  last_index (snd (classify line s)) = last_index s.
Proof.
  intros Hf. destruct (probe_keeps_plan line s Hf) as [H1 H2].
  destruct (classify_cases line s) as [H|[H|[H|H]]]; rewrite H; cbn; auto.
Qed.

Lemma loop_keeps_plan input e s :
  first_index s <> (-1)%Z ->
  first_index (snd (fst (fst (loop input e s)))) = first_index s /\
  last_index (snd (fst (fst (loop input e s)))) = last_index s.
Proof.
  intros Hf.
  apply (loop_invariant
           (fun s' => first_index s' = first_index s /\
                      last_index s' = last_index s)); [|auto].
  intros line s' [H1 H2].
  destruct (classify_keeps_plan line s' ltac:(congruence)) as [H3 H4].
  split; congruence.
Qed.

(** The run over a stream and more, against the run over the stream. *)
Lemma loop_app_any pre post : forall e s,
  exists rest',
    fst (fst (loop (pre ++ post)%list e s))
    = fst (fst (loop rest' (fst (fst (fst (loop pre e s))))
                  (snd (fst (fst (loop pre e s)))))).
Proof.
  induction pre as [|line pre IH]; intros e s.
  - exists post. rewrite loop_nil. reflexivity.
  - simpl app. destruct (reading e s) eqn:R.
    + destruct (String.eqb_spec line "") as [->|Hne].
      * exists []. rewrite !loop_empty_line by assumption.
        cbn [fst snd]. now rewrite loop_nil.
      * rewrite !loop_cons by assumption.
        destruct (IH kyua_error_ok (snd (classify line s))) as [rest' H].
        exists rest'.
        destruct (loop (pre ++ post)%list _ _) as [[[e1 s1] u1] ev1].
        destruct (loop pre _ _) as [[[e0 s0] u0] ev0].
        exact H.
    + exists []. rewrite (loop_stop (line :: pre ++ post)%list e s R).
      rewrite (loop_stop (line :: pre) e s R).
      cbn [fst snd]. now rewrite loop_nil.
Qed.

(** X10.  A plan, once accepted, is never replaced: when the run over a
    stream ends its loop with a plan, the run over that stream followed by
    any further lines ends with the same two bounds. *)
Theorem accepted_plan_is_kept pre post :
  first_index (loop_end pre) <> (-1)%Z ->
  first_index (summary_out (parse_lines (pre ++ post)%list))
  = first_index (loop_end pre) /\
  last_index (summary_out (parse_lines (pre ++ post)%list))
  = last_index (loop_end pre).
Proof.
  intros Hf. rewrite summary_out_eq.
  destruct (check_plan_fields (loop_end (pre ++ post)%list))
    as (-> & -> & _).
  unfold loop_end in *.
  destruct (loop_app_any pre post kyua_error_ok kyua_tap_summary_new)
    as [rest' H].
  replace (snd (fst (fst (loop (pre ++ post)%list kyua_error_ok
                            kyua_tap_summary_new))))
    with (snd (fst (fst (loop rest'
                           (fst (fst (fst (loop pre kyua_error_ok
                                             kyua_tap_summary_new))))
                           (snd (fst (fst (loop pre kyua_error_ok
                                             kyua_tap_summary_new))))))))
    by (now rewrite <- H).
  apply loop_keeps_plan. exact Hf.
Qed.

Lemma accepted_plan_is_kept_witness :
  first_index (summary_out (parse_lines (["1..2"; "ok 1"]
                                         ++ ["3..9"; "ok 2"])%list)) = 1%Z /\
  last_index (summary_out (parse_lines (["1..2"; "ok 1"]
                                        ++ ["3..9"; "ok 2"])%list)) = 2%Z.
Proof.
  refine (accepted_plan_is_kept ["1..2"; "ok 1"] ["3..9"; "ok 2"] _).
  vm_compute. discriminate.
Defined.

Lemma plan_bounds_well_formed_witness :
  first_index (summary_out (parse_lines ["5..1 # SKIP"])) <> (-1)%Z.
Proof.
  refine (proj1 (proj2 (plan_bounds_well_formed ["5..1 # SKIP"])) _).
  vm_compute. reflexivity.
Defined.

Lemma probe_reason_wf line s :
  parse_error s = None ->
  loop_reason_wf (snd (kyua_tap_try_parse_plan line s)).
Proof.
  intros Hp. unfold loop_reason_wf. open_probe.
  destruct (regexec plan_reg line 4) as [code m].
  destruct (code =? 0)%Z; cbn [negb]; cbv iota; [|auto].
  destruct (Z.eqb_spec (first_index s) (-1)) as [Hf|Hf]; cbn [negb];
    [|cbn; auto].
  destruct (regex_match_too_long line (sub m 1)) as [e1|v1]; [cbn; auto|].
  destruct (regex_match_too_long line (sub m 2)) as [e2|v2]; [cbn; auto|].
  cbv zeta. split_ifs; cbn; rewrite ?Hp; auto.
Qed.

Lemma classify_reason_wf line s :
  parse_error s = None -> bail_out s = false ->
  loop_reason_wf s -> loop_reason_wf (snd (classify line s)).
Proof.
  intros Hp _ _. pose proof (probe_reason_wf line s Hp) as H.
  destruct (classify_cases line s) as [E|[E|[E|E]]]; rewrite E; exact H.
Qed.

(** X11.  What a finished run can say: its reason is unset, "No plan found
    in TAP output", "Output includes two test plans" or "Reported plan
    differs from actual executed tests", and nothing else.  It is "No plan
    found in TAP output" whenever no plan was committed, and it is unset
    only when a plan was committed and either the run bailed out or the
    plan range has as many entries as results were counted. *)
Theorem final_reason_taxonomy lines :
  let s := summary_out (parse_lines lines) in
  (parse_error s = None \/ parse_error s = Some MSG_NO_PLAN \/
   parse_error s = Some MSG_TWO_PLANS \/ parse_error s = Some MSG_MISMATCH) /\
  (first_index s = (-1)%Z -> parse_error s = Some MSG_NO_PLAN) /\
  (parse_error s = None ->
   first_index s <> (-1)%Z /\
   (bail_out s = true \/
    (last_index s - first_index s + 1 = ok_count s + not_ok_count s)%Z)).
Proof.
  cbv zeta. rewrite summary_out_eq.
  assert (Hwf : loop_reason_wf (loop_end lines)).
  { unfold loop_end. apply loop_invariant_reading.
    - apply classify_reason_wf.
    - left. reflexivity. }
  unfold loop_reason_wf in Hwf. unfold check_plan.
  destruct (Z.eqb_spec (first_index (loop_end lines)) (-1)) as [Hf|Hf].
  - cbn. repeat split; auto; discriminate.
  - destruct Hwf as [H|Hwf]; [contradiction|].
    destruct (parse_error (loop_end lines)) as [e|] eqn:Hp.
    + cbn [is_null andb]. rewrite Hp.
      split; [destruct Hwf as [H|[H|H]]; [discriminate | auto | auto]|].
      split; [intros; contradiction | discriminate].
    + cbn [is_null andb].
      destruct (bail_out (loop_end lines)) eqn:Hb; cbn [negb].
      * rewrite Hp, Hb. repeat split; auto. intros; contradiction.
      * destruct (Z.eqb_spec
                    (last_index (loop_end lines)
                     - first_index (loop_end lines) + 1)
                    (ok_count (loop_end lines)
                     + not_ok_count (loop_end lines))) as [He|He];
          cbn [negb].
        -- rewrite Hp. repeat split; auto. intros; contradiction.
        -- cbn. repeat split; auto; try discriminate.
           intros; contradiction.
Qed.

Lemma final_reason_taxonomy_witness :
  parse_error (summary_out (parse_lines ["64..3"; "ok 1"]))
  = Some MSG_NO_PLAN.
Proof.
  refine (proj1 (proj2 (final_reason_taxonomy ["64..3"; "ok 1"])) _).
  vm_compute. reflexivity.
Defined.

(** Why the loop leaves bytes unread. *)
Lemma tap_loop_stop_cause fuel : forall input e s,
  String.length (pending input) < fuel ->
  let '(e1, s1, input1, evs) :=
    tap_loop fuel simple_test_reg test_reg input e s in
  reading e1 s1 = false \/ pending input1 = "" \/
  exists done, reads evs = (done ++ [""])%list.
Proof.
  induction fuel as [|fuel IH]; intros input e s Hfuel; [lia|].
  cbn [tap_loop].
  destruct (kyua_error_is_set e || negb (is_null (parse_error s))
            || bail_out s) eqn:C;
    [left; unfold reading; now rewrite C|].
  destruct (kyua_text_fgets_no_newline 1024 input) as [[line|] input'] eqn:E.
  - destruct (reader_some _ _ _ E) as (Hlt & _).
    destruct (String.eqb_spec line "") as [->|Hne].
    + right. right. now exists [].
    + fold (classify line s). rewrite (classify_eq line s).
      specialize (IH input' kyua_error_ok (snd (classify line s))
                    ltac:(lia)).
      destruct (tap_loop fuel simple_test_reg test_reg input' _ _)
        as [[[e1 s1] input1] ev1].
      destruct IH as [H|[H|(done & H)]]; auto.
      right. right. exists (line :: done). simpl. now rewrite H.
  - right. left. exact (reader_none _ _ E).
Qed.

(** X12.  The loop gives up reading only for a cause: if any bytes of the
    stream are left unread, they are the end of the stream, and the loop
    recorded a reason, or saw a bail-out, or the last string the reader
    handed over was empty (an empty line, or the newline left behind by a
    line that filled the buffer). *)
Theorem lines_left_unread_for_a_cause input s0 :
  let r := kyua_tap_parse (readable input) s0 in
  pending (unread r) <> "" ->
  (exists taken, pending input = taken ++ pending (unread r)) /\
  (parse_error (loop_end (handed input)) <> None \/
   bail_out (loop_end (handed input)) = true \/
   exists done, reads (events r) = (done ++ [""])%list).
Proof.
  cbv zeta. intros Hleft.
  destruct (kyua_tap_parse_handed input s0) as (_ & _ & _ & _ & Htaken).
  split; [exact Htaken|]. clear Htaken. revert Hleft.
  unfold kyua_tap_parse, fdopen, loop_end.
  rewrite regcomp_simple_test, regcomp_test. cbv iota beta.
  change (negb (0 =? 0)%Z) with false. cbv iota.
  pose proof (tap_loop_handed (S (String.length (pending input))) input
                kyua_error_ok kyua_tap_summary_new ltac:(lia)) as Hb.
  pose proof (tap_loop_stop_cause (S (String.length (pending input))) input
                kyua_error_ok kyua_tap_summary_new ltac:(lia)) as Hc.
  pose proof (loop_ret (handed input) kyua_error_ok kyua_tap_summary_new
                eq_refl) as He.
  destruct (tap_loop _ _ _ input _ _) as [[[e1 s1] input1] ev1].
  destruct (loop (handed input) _ _) as [[[e2 s2] u] ev2].
  destruct Hb as (-> & -> & _). cbn [fst snd] in He. subst e2.
  cbn [unread events fst snd]. intros Hleft.
  destruct Hc as [H|[H|H]]; [|contradiction|auto].
  unfold reading in H. apply negb_false_iff in H.
  cbn [kyua_error_is_set orb] in H. apply orb_true_iff in H.
  destruct H as [H|H]; [left | right; left; exact H].
  destruct (parse_error s2); [discriminate | discriminate].
Qed.

Lemma lines_left_unread_for_a_cause_witness :
  let input := stream ["1..2"; "1..2"; "ok 1"; "ok 2"] end_of_file in
  let r := kyua_tap_parse (readable input) kyua_tap_summary_new in
  (exists taken, pending input = taken ++ pending (unread r)) /\
  (parse_error (loop_end (handed input)) <> None \/
   bail_out (loop_end (handed input)) = true \/
   exists done, reads (events r) = (done ++ [""])%list).
Proof.
  refine (lines_left_unread_for_a_cause
            (stream ["1..2"; "1..2"; "ok 1"; "ok 2"] end_of_file)
            kyua_tap_summary_new _).
  vm_compute. discriminate.
Defined.

Lemma loop_app_stopped pre post : forall e s e1 s1 u1 ev1,
  loop pre e s = (e1, s1, u1, ev1) ->
  reading e1 s1 = false ->
  loop (pre ++ post)%list e s = (e1, s1, (u1 ++ post)%list, ev1).
Proof.
  induction pre as [|line pre IH]; intros e s e1 s1 u1 ev1 H R1.
  - rewrite loop_nil in H. inversion H; subst.
    simpl. now rewrite loop_stop.
  - simpl app. destruct (reading e s) eqn:R.
    + destruct (String.eqb_spec line "") as [->|Hne].
      * rewrite loop_empty_line in H by assumption.
        inversion H; subst. congruence.
      * rewrite loop_cons in H by assumption.
        rewrite loop_cons by assumption.
        destruct (loop pre kyua_error_ok (snd (classify line s)))
          as [[[e2 s2] u2] ev2] eqn:E.
        inversion H; subst.
        now rewrite (IH _ _ _ _ _ _ E R1).
    + rewrite loop_stop in H by assumption. inversion H; subst.
      now rewrite loop_stop.
Qed.

(** X13.  A stop is final: once the loop has recorded a reason or seen a
    bail-out, whatever follows in the stream changes nothing; the run
    returns the same error, summary and echo, and the added lines stay
    unread. *)
Theorem stop_is_final pre post :
  parse_error (loop_end pre) <> None \/ bail_out (loop_end pre) = true ->
  let r := parse_lines (pre ++ post)%list in
  let r0 := parse_lines pre in
  ret r = ret r0 /\ summary_out r = summary_out r0 /\
  events r = events r0 /\ unread r = (unread r0 ++ post)%list.
Proof.
  intros Hstop. cbv zeta. rewrite !parse_lines_eq. unfold loop_end in Hstop.
  destruct (loop pre kyua_error_ok kyua_tap_summary_new)
    as [[[e1 s1] u1] ev1] eqn:E.
  cbn [fst snd] in Hstop.
  rewrite (loop_app_stopped pre post _ _ _ _ _ _ E).
  - cbn. auto.
  - unfold reading. apply negb_false_iff.
    destruct Hstop as [H|H].
    + destruct (parse_error s1); [|congruence].
      cbn. now rewrite orb_true_r.
    + rewrite H. now rewrite orb_true_r.
Qed.

Lemma stop_is_final_witness :
  let r := parse_lines (["1..2"; "1..2"] ++ ["ok 1"; "ok 2"])%list in
  let r0 := parse_lines ["1..2"; "1..2"] in
  ret r = ret r0 /\ summary_out r = summary_out r0 /\
  events r = events r0 /\ unread r = (unread r0 ++ ["ok 1"; "ok 2"])%list.
Proof.
  refine (stop_is_final ["1..2"; "1..2"] ["ok 1"; "ok 2"] _).
  left. vm_compute. discriminate.
Defined.
